(** * A verified model of the IETF Datatracker client

    This development embeds the retrieval core of [ietfdata/datatracker.py]
    (the typed resource identifiers, the on-disk cache, the connection
    cycling counter, the single-record fetch [_retrieve], the paginated
    fetch [_retrieve_multi] and the endpoint functions built on them) and
    proves properties of that code.

    Modelling conventions.
    - Python [str] is [string] (bytes; [lower] acts on ASCII letters),
      Python [int] is [Z], Python [float] is the binary64 [float].
    - A [Dict[str, Any]] is a [gmap string PyVal]; the value [None] is the
      constructor [PNone], so that a key bound to [None] differs from an
      absent key.
    - The engine's mutable fields and its environment (cache files, what the
      HTTP session did, what was printed, how long the process slept) are
      one [State] record threaded through every operation.
    - The remote service is a function [server] from the number of GET
      requests already sent and the request to a response.
    - [sys.exit], [assert] and [raise] are the [Raise] result; the two
      [while] loops are driven by fuel, and [OutOfFuel] is a result of
      its own, never a success.
    - A generator is run to exhaustion: its result is the list of the
      yielded records, in order, with the outcome that ended the run.
    - The disk is a map from paths to the JSON written under them:
      directory creation and writes succeed, and a file is known by its
      path as pathlib keeps it, so that two paths that name one file
      through [..] are two keys; [distinct_files] says when two paths
      are known to name two files, and what is proved of the other files
      is proved of such paths. *)

From Stdlib Require Import ZArith String Ascii List Bool Floats Lia.
From stdpp Require Import base gmap strings list pretty.
Import ListNotations.

Local Open Scope string_scope.
Local Open Scope list_scope.
Local Open Scope Z_scope.

(** ** Python strings *)

(** [s.startswith(p)] *)
Definition startswith (s p : string) : bool := String.prefix p s.

(** [s[1:-1]]: the characters from index 1 up to, not including, the last. *)
Definition slice_1_m1 (s : string) : string :=
  substring 1 (String.length s - 2) s.

Definition lower_ascii (c : ascii) : ascii :=
  let n := nat_of_ascii c in
  if ((65 <=? n) && (n <=? 90))%nat then ascii_of_nat (n + 32) else c.

(** [s.lower()] on ASCII text. *)
Fixpoint lower (s : string) : string :=
  match s with
  | EmptyString => EmptyString
  | String c s' => String (lower_ascii c) (lower s')
  end.

(** [s.split("/")] *)
Fixpoint split_slash (s : string) : list string :=
  match s with
  | EmptyString => [EmptyString]
  | String c s' =>
      if Ascii.eqb c "/" then EmptyString :: split_slash s'
      else match split_slash s' with
           | [] => [String c EmptyString]
           | p :: ps => String c p :: ps
           end
  end.

(** ** Python values stored in parameter dictionaries, and JSON documents *)

#[local] Set Warnings "-register-all".

Inductive PyVal : Type :=
  | PNone
  | PStr (s : string)
  | PInt (n : Z)
  | PObj.

Inductive Json : Type :=
  | JNull
  | JBool (b : bool)
  | JInt (n : Z)
  | JFloat (x : float)
  | JStr (s : string)
  | JList (l : list Json)
  | JDict (d : list (string * Json)).

Inductive Exn : Type :=
  | AssertionError
  | RuntimeError
  | SystemExit (code : Z)
  | KeyError
  | TypeError
  | ValueError
  | OSError
  | PavlovaParsingError.

Inductive Res (A : Type) : Type :=
  | Ok (a : A)
  | Raise (e : Exn)
  | OutOfFuel.
Arguments Ok {A} a.
Arguments Raise {A} e.
Arguments OutOfFuel {A}.

Fixpoint assoc (k : string) (d : list (string * Json)) : option Json :=
  match d with
  | [] => None
  | (k', v) :: d' => if String.eqb k k' then Some v else assoc k d'
  end.

(** [j[k]] for a decoded JSON value [j]. *)
Definition subscript (j : Json) (k : string) : Res Json :=
  match j with
  | JDict d => match assoc k d with
               | Some v => Ok v
               | None => Raise KeyError
               end
  | _ => Raise TypeError
  end.

(** The Python value a JSON value decodes to, as far as the engine looks
    at it: [null] is [None], a string is a [str]. *)
Definition py_of_json (j : Json) : PyVal :=
  match j with
  | JNull => PNone
  | JStr s => PStr s
  | JInt n => PInt n
  | _ => PObj
  end.

(** ** pathlib paths *)

(** A POSIX path as pathlib keeps it: whether it is anchored at the root,
    and its components. Empty components and [.] are dropped when a string
    is parsed. *)
Record Path : Type := mkPath { anchored : bool; parts : list string }.

Definition keep_part (p : string) : bool :=
  negb (String.eqb p "") && negb (String.eqb p ".").

Definition Path_of_string (s : string) : Path :=
  {| anchored := startswith s "/";
     parts := List.filter keep_part (split_slash s) |}.

(** [Path(p, s)]: an anchored [s] replaces [p]. *)
Definition Path_join (p : Path) (s : string) : Path :=
  let q := Path_of_string s in
  if anchored q then q
  else {| anchored := anchored p; parts := parts p ++ parts q |}.

#[global] Instance Path_eq_dec : EqDecision Path.
Proof. solve_decision. Defined.

#[global] Instance Path_countable : Countable Path.
Proof.
  apply (inj_countable' (fun p => (anchored p, parts p))
                        (fun t => {| anchored := fst t; parts := snd t |})).
  intros []; reflexivity.
Defined.

(** ** URI types *)

Inductive URIClass : Type :=
  | URI_
  | DocumentURI | GroupURI | PersonURI | PersonAliasURI | PersonEventURI | EmailURI
  | DocumentTypeURI | DocumentStateTypeURI | DocumentStateURI | StreamURI | SubmissionURI
  | SubmissionCheckURI | SubmissionEventURI | DocumentAliasURI | DocumentEventURI
  | BallotPositionNameURI | BallotTypeURI | BallotDocumentEventURI | RelationshipTypeURI
  | RelatedDocumentURI | DocumentAuthorURI | GroupStateURI | GroupTypeNameURI | GroupHistoryURI
  | GroupEventURI | GroupUrlURI | GroupMilestoneStateNameURI | GroupMilestoneURI | RoleNameURI
  | GroupRoleURI | GroupMilestoneHistoryURI | GroupMilestoneEventURI | GroupRoleHistoryURI
  | GroupStateChangeEventURI | MeetingURI | MeetingTypeURI | ScheduleURI | SessionURI
  | TimeslotURI | SessionAssignmentURI | MailingListURI | MailingListSubscriptionsURI.

Definition __post_init__ (c : URIClass) (uri : string) : bool :=
  match c with
  | URI_ => true
  | DocumentURI =>
      startswith uri "/api/v1/doc/document/"
  | GroupURI =>
      startswith uri "/api/v1/group/group/"
  | PersonURI =>
      startswith uri "/api/v1/person/person/" || startswith uri "/api/v1/person/historicalperson/"
  | PersonAliasURI =>
      startswith uri "/api/v1/person/alias/"
  | PersonEventURI =>
      startswith uri "/api/v1/person/personevent/"
  | EmailURI =>
      startswith uri "/api/v1/person/email/" || startswith uri "/api/v1/person/historicalemail/"
  | DocumentTypeURI =>
      startswith uri "/api/v1/name/doctypename/"
  | DocumentStateTypeURI =>
      startswith uri "/api/v1/doc/statetype/"
  | DocumentStateURI =>
      startswith uri "/api/v1/doc/state/"
  | StreamURI =>
      startswith uri "/api/v1/name/streamname/"
  | SubmissionURI =>
      startswith uri "/api/v1/submit/submission/"
  | SubmissionCheckURI =>
      startswith uri "/api/v1/submit/submissioncheck/"
  | SubmissionEventURI =>
      startswith uri "/api/v1/submit/submissionevent/"
  | DocumentAliasURI =>
      startswith uri "/api/v1/doc/docalias/"
  | DocumentEventURI =>
      startswith uri "/api/v1/doc/docevent/"
  | BallotPositionNameURI =>
      startswith uri "/api/v1/name/ballotpositionname/"
  | BallotTypeURI =>
      startswith uri "/api/v1/doc/ballottype/"
  | BallotDocumentEventURI =>
      startswith uri "/api/v1/doc/ballotdocevent/"
  | RelationshipTypeURI =>
      startswith uri "/api/v1/name/docrelationshipname/"
  | RelatedDocumentURI =>
      startswith uri "/api/v1/doc/relateddocument/"
  | DocumentAuthorURI =>
      startswith uri "/api/v1/doc/documentauthor/"
  | GroupStateURI =>
      startswith uri "/api/v1/name/groupstatename/"
  | GroupTypeNameURI =>
      startswith uri "/api/v1/name/grouptypename/"
  | GroupHistoryURI =>
      startswith uri "/api/v1/group/grouphistory/"
  | GroupEventURI =>
      startswith uri "/api/v1/group/groupevent/"
  | GroupUrlURI =>
      startswith uri "/api/v1/group/groupurl/"
  | GroupMilestoneStateNameURI =>
      startswith uri "/api/v1/name/groupmilestonestatename/"
  | GroupMilestoneURI =>
      startswith uri "/api/v1/group/groupmilestone/"
  | RoleNameURI =>
      startswith uri "/api/v1/name/rolename/"
  | GroupRoleURI =>
      startswith uri "/api/v1/group/role/"
  | GroupMilestoneHistoryURI =>
      startswith uri "/api/v1/group/groupmilestonehistory/"
  | GroupMilestoneEventURI =>
      startswith uri "/api/v1/group/milestonegroupevent/"
  | GroupRoleHistoryURI =>
      startswith uri "/api/v1/group/rolehistory/"
  | GroupStateChangeEventURI =>
      startswith uri "/api/v1/group/changestategroupevent/"
  | MeetingURI =>
      startswith uri "/api/v1/meeting/meeting/"
  | MeetingTypeURI =>
      startswith uri "/api/v1/name/meetingtypename/"
  | ScheduleURI =>
      startswith uri "/api/v1/meeting/schedule/"
  | SessionURI =>
      startswith uri "/api/v1/meeting/session/"
  | TimeslotURI =>
      startswith uri "/api/v1/meeting/timeslot/"
  | SessionAssignmentURI =>
      startswith uri "/api/v1/meeting/schedtimesessassignment/"
  | MailingListURI =>
      startswith uri "/api/v1/mailinglists/list/"
  | MailingListSubscriptionsURI =>
      startswith uri "/api/v1/mailinglists/subscribed/"
  end.

Definition declared_prefixes (c : URIClass) : list string :=
  match c with
  | URI_ => []
  | DocumentURI => ["/api/v1/doc/document/"]
  | GroupURI => ["/api/v1/group/group/"]
  | PersonURI => ["/api/v1/person/person/"; "/api/v1/person/historicalperson/"]
  | PersonAliasURI => ["/api/v1/person/alias/"]
  | PersonEventURI => ["/api/v1/person/personevent/"]
  | EmailURI => ["/api/v1/person/email/"; "/api/v1/person/historicalemail/"]
  | DocumentTypeURI => ["/api/v1/name/doctypename/"]
  | DocumentStateTypeURI => ["/api/v1/doc/statetype/"]
  | DocumentStateURI => ["/api/v1/doc/state/"]
  | StreamURI => ["/api/v1/name/streamname/"]
  | SubmissionURI => ["/api/v1/submit/submission/"]
  | SubmissionCheckURI => ["/api/v1/submit/submissioncheck/"]
  | SubmissionEventURI => ["/api/v1/submit/submissionevent/"]
  | DocumentAliasURI => ["/api/v1/doc/docalias/"]
  | DocumentEventURI => ["/api/v1/doc/docevent/"]
  | BallotPositionNameURI => ["/api/v1/name/ballotpositionname/"]
  | BallotTypeURI => ["/api/v1/doc/ballottype/"]
  | BallotDocumentEventURI => ["/api/v1/doc/ballotdocevent/"]
  | RelationshipTypeURI => ["/api/v1/name/docrelationshipname/"]
  | RelatedDocumentURI => ["/api/v1/doc/relateddocument/"]
  | DocumentAuthorURI => ["/api/v1/doc/documentauthor/"]
  | GroupStateURI => ["/api/v1/name/groupstatename/"]
  | GroupTypeNameURI => ["/api/v1/name/grouptypename/"]
  | GroupHistoryURI => ["/api/v1/group/grouphistory/"]
  | GroupEventURI => ["/api/v1/group/groupevent/"]
  | GroupUrlURI => ["/api/v1/group/groupurl/"]
  | GroupMilestoneStateNameURI => ["/api/v1/name/groupmilestonestatename/"]
  | GroupMilestoneURI => ["/api/v1/group/groupmilestone/"]
  | RoleNameURI => ["/api/v1/name/rolename/"]
  | GroupRoleURI => ["/api/v1/group/role/"]
  | GroupMilestoneHistoryURI => ["/api/v1/group/groupmilestonehistory/"]
  | GroupMilestoneEventURI => ["/api/v1/group/milestonegroupevent/"]
  | GroupRoleHistoryURI => ["/api/v1/group/rolehistory/"]
  | GroupStateChangeEventURI => ["/api/v1/group/changestategroupevent/"]
  | MeetingURI => ["/api/v1/meeting/meeting/"]
  | MeetingTypeURI => ["/api/v1/name/meetingtypename/"]
  | ScheduleURI => ["/api/v1/meeting/schedule/"]
  | SessionURI => ["/api/v1/meeting/session/"]
  | TimeslotURI => ["/api/v1/meeting/timeslot/"]
  | SessionAssignmentURI => ["/api/v1/meeting/schedtimesessassignment/"]
  | MailingListURI => ["/api/v1/mailinglists/list/"]
  | MailingListSubscriptionsURI => ["/api/v1/mailinglists/subscribed/"]
  end.

(** A (frozen) dataclass instance of [URI] or of one of its subclasses.
    Two instances are equal when class, [uri] and [params] are equal. *)
Record URI : Type := mkURI {
  cls    : URIClass;
  uri    : string;
  params : gmap string PyVal
}.

(** Whether the class statement carries [@dataclass(frozen=True)].
    [DocumentAuthorURI] is declared without it: it has no [__init__] of
    its own and inherits the one generated for [URI]. *)
Definition dataclass (c : URIClass) : bool :=
  match c with
  | DocumentAuthorURI => false
  | _ => true
  end.

(** [C(uri, params)]. The [__init__] that [@dataclass] generates for a
    class stores the fields and then runs the class's [__post_init__],
    whose [assert] may fail. The [__init__] generated for [URI], which
    has no [__post_init__], only stores the fields, and that is the one
    a subclass without the decorator inherits: its [__post_init__] is
    never run. *)
Definition construct (c : URIClass) (path : string) (ps : gmap string PyVal)
  : Res URI :=
  if dataclass c && negb (__post_init__ c path)
  then Raise AssertionError
  else Ok {| cls := c; uri := path; params := ps |}.

(** [url.params[k] = v] *)
Definition set_param (k : string) (v : PyVal) (u : URI) : URI :=
  {| cls := cls u; uri := uri u; params := <[k := v]> (params u) |}.

(** ** The engine and its environment *)

Record Request : Type := mkRequest {
  url     : string;
  query   : gmap string PyVal;
  headers : list (string * string)
}.

Record Response : Type := mkResponse {
  status_code : Z;
  body        : option Json     (* [None]: the body is not JSON *)
}.

(** What the process did to the outside world, oldest first. *)
Inductive Event : Type :=
  | EGet (rq : Request)         (* [session.get] *)
  | EClose                      (* [session.close] *)
  | ESleep (secs : float)       (* [time.sleep] *)
  | EPrint (line : string).     (* [print] *)

(** The fields of a [DataTracker] that change or matter ([http_req],
    [cache_dir]), the cache files on disk (a file is the JSON document
    [json.dump] wrote into it; directory creation and writes succeed), the
    number of GET requests sent so far, and the events so far. Only the
    files the cache reads and writes are tracked. *)
Record State : Type := mkState {
  http_req  : Z;
  cache_dir : option Path;
  files     : gmap Path Json;
  sent      : nat;
  trace     : list Event
}.

Definition ua : string := "glasgow-ietfdata/0.2.0".
Definition base_url : string := "https://datatracker.ietf.org".

(** [DataTracker(cache_dir)], started on a disk holding [disk]. *)
Definition DataTracker (cache_dir : option Path) (disk : gmap Path Json) : State :=
  {| http_req := 0; cache_dir := cache_dir; files := disk; sent := 0; trace := [] |}.

(** *** Computations that read and change the state and may raise *)

Definition M (A : Type) : Type := State -> Res A * State.

Definition ret {A} (a : A) : M A := fun st => (Ok a, st).
Definition raise {A} (e : Exn) : M A := fun st => (Raise e, st).
Definition lift_res {A} (r : Res A) : M A := fun st => (r, st).
Definition bind {A B} (m : M A) (k : A -> M B) : M B := fun st =>
  match m st with
  | (Ok a, st') => k a st'
  | (Raise e, st') => (Raise e, st')
  | (OutOfFuel, st') => (OutOfFuel, st')
  end.
Definition gets {A} (f : State -> A) : M A := fun st => (Ok (f st), st).

Notation "'let*' x ':=' c1 'in' c2" := (bind c1 (fun x => c2))
  (at level 10, x name, c1 at level 100, c2 at level 200).

Definition log (e : Event) : M unit := fun st =>
  (Ok tt, {| http_req := http_req st; cache_dir := cache_dir st;
             files := files st; sent := sent st;
             trace := trace st ++ [e] |}).

Definition session_close : M unit := log EClose.
Definition time_sleep (secs : float) : M unit := log (ESleep secs).
Definition print (line : string) : M unit := log (EPrint line).
Definition sys_exit {A} (code : Z) : M A := raise (SystemExit code).

Definition write_file (p : Path) (j : Json) : M unit := fun st =>
  (Ok tt, {| http_req := http_req st; cache_dir := cache_dir st;
             files := <[p := j]> (files st); sent := sent st;
             trace := trace st |}).

(** [r.json()] *)
Definition json (r : Response) : M Json :=
  match body r with
  | Some j => ret j
  | None => raise ValueError
  end.

(** *** Generators *)

(** A generator run to exhaustion: the records yielded, in order, what
    ended the run, and the state then. *)
Definition Gen (T A : Type) : Type := State -> list T * Res A * State.

Definition gret {T A} (a : A) : Gen T A := fun st => ([], Ok a, st).
Definition yield {T} (x : T) : Gen T unit := fun st => ([x], Ok tt, st).
Definition glift {T A} (m : M A) : Gen T A := fun st =>
  let (r, st') := m st in ([], r, st').
Definition gbind {T A B} (g : Gen T A) (k : A -> Gen T B) : Gen T B := fun st =>
  match g st with
  | (ys, Ok a, st') => let '(zs, r, st'') := k a st' in (ys ++ zs, r, st'')
  | (ys, Raise e, st') => (ys, Raise e, st')
  | (ys, OutOfFuel, st') => (ys, OutOfFuel, st')
  end.

Notation "'let+' x ':=' c1 'in' c2" := (gbind c1 (fun x => c2))
  (at level 10, x name, c1 at level 100, c2 at level 200).

(** [list(g)] *)
Definition to_list {T} (g : Gen T unit) : M (list T) := fun st =>
  match g st with
  | (ys, Ok _, st') => (Ok ys, st')
  | (_, Raise e, st') => (Raise e, st')
  | (_, OutOfFuel, st') => (OutOfFuel, st')
  end.

(** [for x in j]: a list gives its elements, a dict its keys, a string its
    characters; the other JSON values are not iterable. *)
Definition iter_json (j : Json) : Res (list Json) :=
  match j with
  | JList l => Ok l
  | JDict d => Ok (List.map (fun kv => JStr (fst kv)) d)
  | JStr s => Ok (List.map (fun c => JStr (String c EmptyString)) (list_ascii_of_string s))
  | _ => Raise TypeError
  end.

(** *** Records *)

(** A record class ([T] bound to [Resource]): what pavlova's
    [from_mapping(obj_json, obj_type)] builds, [None] when it raises, and
    the record's [resource_uri] field. *)
Class Resource (T : Type) : Type := {
  from_mapping : Json -> option T;
  resource_uri : T -> URI
}.

Definition pavlova_from_mapping {T} `{Resource T} (obj_json : Json) : M T :=
  match from_mapping obj_json with
  | Some obj => ret obj
  | None => raise PavlovaParsingError
  end.

(** *** The retrieval engine *)

Section Engine.

(** The remote service: the response to a request, given how many
    requests the session has sent before it. *)
Variable server : nat -> Request -> Response.

(** [self.session.get(url, params=params, headers=headers, ...)] *)
Definition session_get (url : string) (params : gmap string PyVal)
    (headers : list (string * string)) : M Response := fun st =>
  let rq := mkRequest url params headers in
  (Ok (server (sent st) rq),
   {| http_req := http_req st; cache_dir := cache_dir st;
      files := files st; sent := S (sent st);
      trace := trace st ++ [EGet rq] |}).

Definition _cache_filepath (resource_uri : URI) : M Path :=
  let* d := gets cache_dir in
  match d with
  | None => raise AssertionError
  | Some d => ret (Path_join d (slice_1_m1 (uri resource_uri) +:+ ".json"))
  end.

Definition _obj_is_cached (resource_uri : URI) : M bool :=
  let* d := gets cache_dir in
  match d with
  | None => ret false
  | Some _ =>
      let* p := _cache_filepath resource_uri in
      let* fs := gets files in
      ret (bool_decide (is_Some (fs !! p)))
  end.

Definition _retrieve_from_cache (resource_uri : URI) : M Json :=
  let* p := _cache_filepath resource_uri in
  let* fs := gets files in
  match fs !! p with
  | Some obj_json => ret obj_json
  | None => raise OSError
  end.

Definition _cache_obj (resource_uri : URI) (obj_json : Json) : M unit :=
  let* d := gets cache_dir in
  match d with
  | Some _ =>
      let* cache_filepath := _cache_filepath resource_uri in
      write_file cache_filepath obj_json
  | None => ret tt
  end.

Definition _rate_limit : M unit := fun st =>
  let st' := {| http_req := http_req st + 1; cache_dir := cache_dir st;
                files := files st; sent := sent st; trace := trace st |} in
  if (http_req st' mod 100 =? 0) then session_close st' else (Ok tt, st').

Section Fetch.
Context {T : Type} `{Resource T}.

Definition _retrieve (resource_uri : URI) : M (option T) :=
  let headers := [("User-Agent", ua)] in
  let* cached := _obj_is_cached resource_uri in
  if cached : bool then
    let* obj_json := _retrieve_from_cache resource_uri in
    let* obj := pavlova_from_mapping obj_json in
    ret (Some obj)
  else
    let* _ := _rate_limit in
    let* r := session_get (base_url +:+ uri resource_uri)
                          (params resource_uri) headers in
    if status_code r =? 200 then
      let* obj_json := json r in
      let* _ := _cache_obj resource_uri obj_json in
      let* obj := pavlova_from_mapping obj_json in
      ret (Some obj)
    else if status_code r =? 404 then
      ret None
    else
      let* _ := print ("_retrieve failed: " +:+ pretty (status_code r) +:+ " "
                       +:+ (base_url +:+ uri resource_uri)) in
      sys_exit 1.

(** The [for obj_json in objs] loop of [_retrieve_multi]. *)
Fixpoint for_objs (objs : list Json) : Gen T unit :=
  match objs with
  | [] => gret tt
  | obj_json :: objs' =>
      let+ obj := glift (pavlova_from_mapping obj_json) in
      let+ _ := glift (_cache_obj (resource_uri obj) obj_json) in
      let+ _ := yield obj in
      for_objs objs'
  end.

(** The [status_code == 200] branch: the value left in
    [resource_uri.uri] is returned. *)
Definition page_200 (r : Response) : Gen T PyVal :=
  let+ meta := glift (let* j := json r in lift_res (subscript j "meta")) in
  let+ objs := glift (let* j := json r in lift_res (subscript j "objects")) in
  let+ next := glift (lift_res (subscript meta "next")) in
  let+ items := glift (lift_res (iter_json objs)) in
  let+ _ := for_objs items in
  gret (py_of_json next).

Definition multi_failed (r : Response) : M PyVal :=
  let* n := gets http_req in
  let* _ := print ("_retrieve_multi failed: error " +:+ pretty (status_code r)
                   +:+ " after " +:+ pretty n +:+ " requests") in
  sys_exit 1.

(** The [while retry] loop, entered with [retry = True]. [uri] and
    [params] are the fields of [resource_uri]. *)
Fixpoint retry_loop (fuel : nat) (uri : string) (params : gmap string PyVal)
    (retry_time : float) : Gen T PyVal :=
  match fuel with
  | O => fun st => ([], OutOfFuel, st)
  | S fuel' =>
      let headers := [("user-agent", ua)] in
      let+ r := glift (session_get (base_url +:+ uri) params headers) in
      if status_code r =? 200 then
        page_200 r
      else if status_code r =? 500 then
        if (60 <? retry_time)%float then
          glift (multi_failed r)
        else
          let+ _ := glift session_close in
          let+ _ := glift (time_sleep retry_time) in
          retry_loop fuel' uri params (retry_time * 2)%float
      else
        glift (multi_failed r)
  end.

(** The [while resource_uri.uri is not None] loop. [uri] is the value of
    [resource_uri.uri], which after the first page is whatever the
    server put in [meta.next]. *)
Fixpoint pages_loop (fuel : nat) (uri : PyVal) (params : gmap string PyVal)
    : Gen T unit :=
  match uri with
  | PNone => gret tt
  | _ =>
      match fuel with
      | O => fun st => ([], OutOfFuel, st)
      | S fuel' =>
          let+ _ := glift _rate_limit in
          match uri with
          | PStr s =>
              let+ next := retry_loop fuel s params 1.875%float in
              pages_loop fuel' next ∅
          | _ => glift (raise TypeError)
          end
      end
  end.

Definition _retrieve_multi (fuel : nat) (resource_uri : URI) : Gen T unit :=
  pages_loop fuel (PStr (uri resource_uri))
             (<["limit" := PStr "100"]> (params resource_uri)).

End Fetch.

End Engine.

(** ** The endpoint catalog *)

(** [None] for an omitted optional string, the string otherwise. *)
Definition py_of_optional (o : option string) : PyVal :=
  match o with
  | Some s => PStr s
  | None => PNone
  end.

(** The two statements the endpoint functions are written with:
    [url.params[key] = value], where [value] may be [None], and
    [if x is not None: url.params[key] = x.attr]. *)
Inductive Stmt : Type :=
  | Assign (key : string) (value : PyVal)
  | AssignIfNotNone (key : string) (value : option PyVal).

Definition exec_stmt (s : Stmt) (url : URI) : URI :=
  match s with
  | Assign key value => set_param key value url
  | AssignIfNotNone key (Some value) => set_param key value url
  | AssignIfNotNone key None => url
  end.

(** A call of one of the functions of [DataTracker] that build an
    identifier and hand it to [_retrieve_multi]. An argument that is a
    record is given by the one attribute the function reads ([.id],
    [.slug], [.address]); an optional argument is an [option]. *)
Inductive Endpoint : Type :=
  | person_aliases (person_id : Z)
  | person_history (person_id : Z)
  | person_events (person_id : Z)
  | people (since : string) (until : string) (name_contains : option string)
  | email_for_person (person_id : Z)
  | email_history_for_address (email_addr : string)
  | email_history_for_person (person_id : Z)
  | emails (since : string) (until : string) (addr_contains : option string)
  | documents (since : string) (until : string) (doctype_slug : option string)
      (group_id : option Z)
  | document_aliases (name : option string)
  | document_types
  | document_states (state_type_slug : option string)
  | document_state_types
  | document_events (since : string) (until : string) (doc_id : option Z) (by_id : option Z)
      (event_type : option string)
  | document_authors (document_id : Z)
  | documents_authored_by_person (person_id : Z)
  | documents_authored_by_email (email_address : string)
  | related_documents (source_id : option Z) (target_id : option Z)
      (relationship_type_slug : option string)
  | relationship_types
  | ballot_position_names
  | ballot_types (doc_type_slug : option string)
  | ballot_document_events (since : string) (until : string) (ballot_type_id : option Z)
      (event_type : option string) (by_id : option Z) (doc_id : option Z)
  | submissions (since : string) (until : string)
  | submission_events (since : string) (until : string) (by_id : option Z)
      (submission_id : option Z)
  | streams
  | groups (since : string) (until : string) (name_contains : option string)
      (state_slug : option string) (parent_id : option Z)
  | group_histories_from_acronym (acronym : string)
  | group_histories (since : string) (until : string) (state_slug : option string)
      (parent_id : option Z)
  | group_events (since : string) (until : string) (by_id : option Z) (group_id : option Z)
      (type : option string)
  | group_urls (group_id : option Z)
  | group_milestone_statenames
  | group_milestones (since : string) (until : string) (group_id : option Z)
      (state_slug : option string)
  | role_names
  | group_roles (email : option string) (group_id : option Z) (name_slug : option string)
      (person_id : option Z)
  | group_role_histories (email : option string) (group_id : option Z)
      (name_slug : option string) (person_id : option Z)
  | group_milestone_histories (since : string) (until : string) (group_id : option Z)
      (milestone_id : option Z) (state_slug : option string)
  | group_milestone_events (since : string) (until : string) (by_id : option Z)
      (group_id : option Z) (milestone_id : option Z) (type : option string)
  | group_state_change_events (since : string) (until : string) (by_id : option Z)
      (group_id : option Z) (state_slug : option string)
  | group_states
  | group_type_names
  | meeting_session_assignments (schedule_id : Z)
  | meetings (start_date : string) (end_date : string) (meeting_type_slug : option string)
  | meeting_types
  | mailing_lists
  | mailing_list_subscriptions (email_addr : option string).

(** Class and path of the identifier the function constructs, and the
    statements that fill in its [params], in the order of the source. *)
Definition endpoint_def (e : Endpoint) : URIClass * string * list Stmt :=
  match e with
  | person_aliases person_id =>
      (PersonAliasURI, "/api/v1/person/alias/",
        [Assign "person" (PStr (pretty person_id))])
  | person_history person_id =>
      (PersonURI, "/api/v1/person/historicalperson/",
        [Assign "id" (PStr (pretty person_id))])
  | person_events person_id =>
      (PersonEventURI, "/api/v1/person/personevent/",
        [Assign "person" (PStr (pretty person_id))])
  | people since until name_contains =>
      (PersonURI, "/api/v1/person/person/",
        [Assign "time__gte" (PStr since);
         Assign "time__lt" (PStr until);
         Assign "name__contains" (py_of_optional name_contains)])
  | email_for_person person_id =>
      (EmailURI, "/api/v1/person/email/",
        [Assign "person" (PStr (pretty person_id))])
  | email_history_for_address email_addr =>
      (EmailURI, "/api/v1/person/historicalemail/",
        [Assign "address" (PStr email_addr)])
  | email_history_for_person person_id =>
      (EmailURI, "/api/v1/person/historicalemail/",
        [Assign "person" (PInt person_id)])
  | emails since until addr_contains =>
      (EmailURI, "/api/v1/person/email/",
        [Assign "time__gte" (PStr since);
         Assign "time__lt" (PStr until);
         Assign "address__contains" (py_of_optional addr_contains)])
  | documents since until doctype_slug group_id =>
      (DocumentURI, "/api/v1/doc/document/",
        [Assign "time__gt" (PStr since);
         Assign "time__lt" (PStr until);
         AssignIfNotNone "type" (PStr <$> doctype_slug);
         AssignIfNotNone "group" (PInt <$> group_id)])
  | document_aliases name =>
      (DocumentAliasURI, "/api/v1/doc/docalias/",
        [Assign "name" (py_of_optional name)])
  | document_types =>
      (DocumentTypeURI, "/api/v1/name/doctypename/",
        [])
  | document_states state_type_slug =>
      (DocumentStateURI, "/api/v1/doc/state/",
        [AssignIfNotNone "type" (PStr <$> state_type_slug)])
  | document_state_types =>
      (DocumentStateTypeURI, "/api/v1/doc/statetype/",
        [])
  | document_events since until doc_id by_id event_type =>
      (DocumentEventURI, "/api/v1/doc/docevent/",
        [Assign "time__gt" (PStr since);
         Assign "time__lt" (PStr until);
         AssignIfNotNone "doc" (PInt <$> doc_id);
         AssignIfNotNone "by" (PInt <$> by_id);
         Assign "type" (py_of_optional event_type)])
  | document_authors document_id =>
      (DocumentAuthorURI, "/api/v1/doc/documentauthor/",
        [Assign "document" (PInt document_id)])
  | documents_authored_by_person person_id =>
      (DocumentAuthorURI, "/api/v1/doc/documentauthor/",
        [Assign "person" (PInt person_id)])
  | documents_authored_by_email email_address =>
      (DocumentAuthorURI, "/api/v1/doc/documentauthor/",
        [Assign "email" (PStr email_address)])
  | related_documents source_id target_id relationship_type_slug =>
      (RelatedDocumentURI, "/api/v1/doc/relateddocument/",
        [AssignIfNotNone "source" (PInt <$> source_id);
         AssignIfNotNone "target" (PInt <$> target_id);
         AssignIfNotNone "relationship" (PStr <$> relationship_type_slug)])
  | relationship_types =>
      (RelationshipTypeURI, "/api/v1/name/docrelationshipname/",
        [])
  | ballot_position_names =>
      (BallotPositionNameURI, "/api/v1/name/ballotpositionname/",
        [])
  | ballot_types doc_type_slug =>
      (BallotTypeURI, "/api/v1/doc/ballottype/",
        [AssignIfNotNone "doc_type" (PStr <$> doc_type_slug)])
  | ballot_document_events since until ballot_type_id event_type by_id doc_id =>
      (BallotDocumentEventURI, "/api/v1/doc/ballotdocevent/",
        [Assign "time__gt" (PStr since);
         Assign "time__lt" (PStr until);
         AssignIfNotNone "ballot_type" (PInt <$> ballot_type_id);
         AssignIfNotNone "by" (PInt <$> by_id);
         AssignIfNotNone "doc" (PInt <$> doc_id);
         Assign "type" (py_of_optional event_type)])
  | submissions since until =>
      (SubmissionURI, "/api/v1/submit/submission/",
        [Assign "time__gt" (PStr since);
         Assign "time__lt" (PStr until)])
  | submission_events since until by_id submission_id =>
      (SubmissionEventURI, "/api/v1/submit/submissionevent/",
        [Assign "time__gt" (PStr since);
         Assign "time__lt" (PStr until);
         AssignIfNotNone "by" (PInt <$> by_id);
         AssignIfNotNone "submission" (PInt <$> submission_id)])
  | streams =>
      (StreamURI, "/api/v1/name/streamname/",
        [])
  | groups since until name_contains state_slug parent_id =>
      (GroupURI, "/api/v1/group/group/",
        [Assign "time__gt" (PStr since);
         Assign "time__lt" (PStr until);
         Assign "name__contains" (py_of_optional name_contains);
         AssignIfNotNone "state" (PStr <$> state_slug);
         AssignIfNotNone "parent" (PInt <$> parent_id)])
  | group_histories_from_acronym acronym =>
      (GroupHistoryURI, "/api/v1/group/grouphistory/",
        [Assign "acronym" (PStr acronym)])
  | group_histories since until state_slug parent_id =>
      (GroupHistoryURI, "/api/v1/group/grouphistory/",
        [Assign "time__gt" (PStr since);
         Assign "time__lt" (PStr until);
         AssignIfNotNone "state" (PStr <$> state_slug);
         AssignIfNotNone "parent" (PInt <$> parent_id)])
  | group_events since until by_id group_id type =>
      (GroupEventURI, "/api/v1/group/groupevent/",
        [Assign "time__gt" (PStr since);
         Assign "time__lt" (PStr until);
         Assign "type" (py_of_optional type);
         AssignIfNotNone "by" (PInt <$> by_id);
         AssignIfNotNone "group" (PInt <$> group_id)])
  | group_urls group_id =>
      (GroupUrlURI, "/api/v1/group/groupurl/",
        [AssignIfNotNone "group" (PInt <$> group_id)])
  | group_milestone_statenames =>
      (GroupMilestoneStateNameURI, "/api/v1/name/groupmilestonestatename/",
        [])
  | group_milestones since until group_id state_slug =>
      (GroupMilestoneURI, "/api/v1/group/groupmilestone/",
        [Assign "time__gt" (PStr since);
         Assign "time__lt" (PStr until);
         AssignIfNotNone "group" (PInt <$> group_id);
         AssignIfNotNone "state" (PStr <$> state_slug)])
  | role_names =>
      (RoleNameURI, "/api/v1/name/rolename/",
        [])
  | group_roles email group_id name_slug person_id =>
      (GroupRoleURI, "/api/v1/group/role/",
        [Assign "email" (py_of_optional email);
         AssignIfNotNone "group" (PInt <$> group_id);
         AssignIfNotNone "name" (PStr <$> name_slug);
         AssignIfNotNone "person" (PInt <$> person_id)])
  | group_role_histories email group_id name_slug person_id =>
      (GroupRoleHistoryURI, "/api/v1/group/rolehistory/",
        [Assign "email" (py_of_optional email);
         AssignIfNotNone "group" (PInt <$> group_id);
         AssignIfNotNone "name" (PStr <$> name_slug);
         AssignIfNotNone "person" (PInt <$> person_id)])
  | group_milestone_histories since until group_id milestone_id state_slug =>
      (GroupMilestoneHistoryURI, "/api/v1/group/groupmilestonehistory/",
        [Assign "time__gt" (PStr since);
         Assign "time__lt" (PStr until);
         AssignIfNotNone "group" (PInt <$> group_id);
         AssignIfNotNone "milestone" (PInt <$> milestone_id);
         AssignIfNotNone "state" (PStr <$> state_slug)])
  | group_milestone_events since until by_id group_id milestone_id type =>
      (GroupMilestoneEventURI, "/api/v1/group/milestonegroupevent/",
        [Assign "time__gt" (PStr since);
         Assign "time__lt" (PStr until);
         Assign "type" (py_of_optional type);
         AssignIfNotNone "by" (PInt <$> by_id);
         AssignIfNotNone "group" (PInt <$> group_id);
         AssignIfNotNone "milestone" (PInt <$> milestone_id)])
  | group_state_change_events since until by_id group_id state_slug =>
      (GroupStateChangeEventURI, "/api/v1/group/changestategroupevent/",
        [Assign "time__gt" (PStr since);
         Assign "time__lt" (PStr until);
         AssignIfNotNone "by" (PInt <$> by_id);
         AssignIfNotNone "group" (PInt <$> group_id);
         AssignIfNotNone "state" (PStr <$> state_slug)])
  | group_states =>
      (GroupStateURI, "/api/v1/name/groupstatename/",
        [])
  | group_type_names =>
      (GroupTypeNameURI, "/api/v1/name/grouptypename/",
        [])
  | meeting_session_assignments schedule_id =>
      (SessionAssignmentURI, "/api/v1/meeting/schedtimesessassignment/",
        [Assign "schedule" (PInt schedule_id)])
  | meetings start_date end_date meeting_type_slug =>
      (MeetingURI, "/api/v1/meeting/meeting/",
        [Assign "date__gte" (PStr start_date);
         Assign "date__lte" (PStr end_date);
         AssignIfNotNone "type" (PStr <$> meeting_type_slug)])
  | meeting_types =>
      (MeetingTypeURI, "/api/v1/name/meetingtypename/",
        [])
  | mailing_lists =>
      (MailingListURI, "/api/v1/mailinglists/list/",
        [])
  | mailing_list_subscriptions email_addr =>
      (MailingListSubscriptionsURI, "/api/v1/mailinglists/subscribed/",
        [Assign "email" (py_of_optional email_addr)])
  end.

(** The identifier an endpoint function has built when it calls
    [_retrieve_multi]. *)
Definition endpoint_url (e : Endpoint) : Res URI :=
  let '(c, path, body) := endpoint_def e in
  match construct c path ∅ with
  | Ok url => Ok (fold_left (fun u s => exec_stmt s u) body url)
  | Raise x => Raise x
  | OutOfFuel => OutOfFuel
  end.











Section Catalog.

Variable server : nat -> Request -> Response.

(** The body shared by the endpoint functions: build the identifier, then
    [return self._retrieve_multi(url, obj_type)]. *)
Definition fetch_all {T : Type} `{Resource T} (fuel : nat) (e : Endpoint)
  : Gen T unit :=
  match endpoint_url e with
  | Ok url => _retrieve_multi server fuel url
  | Raise x => glift (raise x)
  | OutOfFuel => fun st => ([], OutOfFuel, st)
  end.

(** The fields of a [DocumentAlias]. *)
Record DocumentAlias : Type := mkDocumentAlias {
  alias_id           : Z;
  alias_resource_uri : URI;
  alias_document     : URI;
  alias_name         : string
}.

Context {Document : Type} `{Resource Document} `{Resource DocumentAlias}.

Definition document (document_uri : URI) : M (option Document) :=
  _retrieve server document_uri.

Definition document_from_rfc (fuel : nat) (rfc : string)
  : M (option Document) :=
  if negb (startswith (lower rfc) "rfc") then raise AssertionError
  else
    let* docs := to_list (fetch_all fuel (document_aliases (Some (lower rfc)))) in
    match docs with
    | [] => ret None
    | [d] => document (alias_document d)
    | _ => raise RuntimeError
    end.

End Catalog.

(** ** States reached by the steps of a fetch *)

(** [Path(d, uri[1:-1] + ".json")] *)
Definition cache_path (d : Path) (u : URI) : Path :=
  Path_join d (slice_1_m1 (uri u) +:+ ".json").

(** The state after [_rate_limit]. *)
Definition counted (st : State) : State := snd (_rate_limit st).

(** The state after the session has sent [rq]. *)
Definition with_get (rq : Request) (st : State) : State :=
  {| http_req := http_req st; cache_dir := cache_dir st; files := files st;
     sent := S (sent st); trace := trace st ++ [EGet rq] |}.

(** The state after further events that are not requests. *)
Definition with_events (evs : list Event) (st : State) : State :=
  {| http_req := http_req st; cache_dir := cache_dir st; files := files st;
     sent := sent st; trace := trace st ++ evs |}.

(** The line [_retrieve] prints before it exits. *)
Definition retrieve_failed (status : Z) (u : URI) : string :=
  "_retrieve failed: " +:+ pretty status +:+ " " +:+ (base_url +:+ uri u).

(** The line [_retrieve_multi] prints before it exits. *)
Definition retrieve_multi_failed (status : Z) (n : Z) : string :=
  "_retrieve_multi failed: error " +:+ pretty status
  +:+ " after " +:+ pretty n +:+ " requests".

(** The state after the attempts of a page that were answered 500 and
    retried after the waits [ts]. *)
Fixpoint after_retries (rq : Request) (ts : list float) (st : State) : State :=
  match ts with
  | [] => st
  | t :: ts' =>
      after_retries rq ts' (with_events [EClose; ESleep t] (with_get rq st))
  end.

(** [ts] are the waits of a retry loop whose [retry_time] is [t]: each is
    at most 60 seconds and twice the one before. *)
Fixpoint waits_from (t : float) (ts : list float) : Prop :=
  match ts with
  | [] => True
  | t' :: ts' => t' = t /\ (60 <? t)%float = false /\ waits_from (t * 2)%float ts'
  end.

(** [retry_time] after the waits [ts]. *)
Definition retry_time_after (t : float) (ts : list float) : float :=
  fold_left (fun t _ => (t * 2)%float) ts t.

(** ** Reading traces *)

(** The GET requests of a trace, oldest first. *)
Fixpoint requests (tr : list Event) : list Request :=
  match tr with
  | [] => []
  | EGet rq :: tr' => rq :: requests tr'
  | _ :: tr' => requests tr'
  end.

(** The events of one failed attempt of [_retrieve_multi] that is retried:
    the GET, the closing of the session, the wait. *)
Definition retried (rq : Request) (secs : float) : list Event :=
  [EGet rq; EClose; ESleep secs].

(** The waits of the retry loop of [_retrieve_multi], in seconds. *)
Definition backoffs : list float := [1.875; 3.75; 7.5; 15; 30; 60]%float.

(** The request [_retrieve] sends for an identifier. *)
Definition single_request (resource_uri : URI) : Request :=
  mkRequest (base_url +:+ uri resource_uri) (params resource_uri)
            [("User-Agent", ua)].

(** The request [_retrieve_multi] sends for the page at [uri]. *)
Definition page_request (uri : string) (params : gmap string PyVal) : Request :=
  mkRequest (base_url +:+ uri) params [("user-agent", ua)].

(** The first request of [_retrieve_multi]: the identifier's parameters
    with [limit] forced to 100. *)
Definition first_page_request (resource_uri : URI) : Request :=
  page_request (uri resource_uri)
               (<["limit" := PStr "100"]> (params resource_uri)).

(** The trace a run of single-record fetches that all reach the network
    leaves, when the counter stood at [n] before: one GET per fetch, the
    session closed right before the GET that brings the counter to a
    multiple of 100. *)
Fixpoint cycled_trace (n : Z) (uris : list URI) : list Event :=
  match uris with
  | [] => []
  | u :: uris' =>
      (if (n + 1) mod 100 =? 0 then [EClose] else [])
      ++ [EGet (single_request u)] ++ cycled_trace (n + 1) uris'
  end.

(** ** Sample records and services *)

(** A record class that keeps the JSON object as it is; an object without
    a string [resource_uri] is refused. *)
Definition raw_record : Resource Json :=
  {| from_mapping := fun j =>
       match subscript j "resource_uri" with
       | Ok (JStr _) => Some j
       | _ => None
       end;
     resource_uri := fun j =>
       match subscript j "resource_uri" with
       | Ok (JStr s) => {| cls := URI_; uri := s; params := ∅ |}
       | _ => {| cls := URI_; uri := ""; params := ∅ |}
       end |}.

(** A service that knows nothing. *)
Definition server_404 (n : nat) (rq : Request) : Response :=
  mkResponse 404 None.

(** A service that fails [k] times and then answers every request with the
    same response. *)
Definition server_500_then (k : nat) (r : Response) (n : nat) (rq : Request)
  : Response :=
  if (n <? k)%nat then mkResponse 500 None else r.

Definition sample_person : Json :=
  JDict [("id", JInt 20209); ("name", JStr "Colin Perkins");
         ("resource_uri", JStr "/api/v1/person/person/20209/")].

Definition sample_person_uri : URI :=
  {| cls := PersonURI; uri := "/api/v1/person/person/20209/"; params := ∅ |}.

(** ** A caller and a paginating service *)

Section Callers.

Variable server : nat -> Request -> Response.
Context {T : Type} `{Resource T}.

(** A caller that fetches the identifiers of a list one after the other
    through one engine and drops the records. *)
Fixpoint fetch_each (uris : list URI) : M unit :=
  match uris with
  | [] => ret tt
  | resource_uri :: uris' =>
      let* _ := _retrieve (T:=T) server resource_uri in
      fetch_each uris'
  end.

End Callers.

(** A collection response: status 200 and an envelope whose [meta.next] is
    [next] and whose [objects] is the list [objs]. *)
Definition serves (r : Response) (next : Json) (objs : list Json) : Prop :=
  status_code r = 200 /\
  exists j meta, body r = Some j
                 /\ subscript j "meta" = Ok meta
                 /\ subscript meta "next" = Ok next
                 /\ subscript j "objects" = Ok (JList objs).



(** Number of pages of 100 a data set of [n] items is served in; an empty
    data set is served as one empty page. *)
Definition n_pages (n : nat) : nat := Nat.max 1 ((n + 99) / 100).

(** The value of [resource_uri.uri] and of [resource_uri.params] when page
    [k] of a collection is asked for: the identifier's own for the first
    page, then the pointer the server gave for page [k], [next_ptr k], and
    an empty dictionary. *)
Definition uri_of_page (resource_uri : URI) (next_ptr : nat -> string)
    (k : nat) : string :=
  match k with
  | O => uri resource_uri
  | S _ => next_ptr k
  end.

Definition params_of_page (resource_uri : URI) (k : nat) : gmap string PyVal :=
  match k with
  | O => <["limit" := PStr "100"]> (params resource_uri)
  | S _ => ∅
  end.

Definition request_of_page (resource_uri : URI) (next_ptr : nat -> string)
    (k : nat) : Request :=
  page_request (uri_of_page resource_uri next_ptr k)
               (params_of_page resource_uri k).

(** [meta.next] of page [k] of a data set of [n] items. *)
Definition next_of_page (n : nat) (next_ptr : nat -> string) (k : nat) : Json :=
  if (100 * (k + 1) <? n)%nat then JStr (next_ptr (k + 1)%nat) else JNull.

(** The service answers the request for each page of [items], whenever it
    is sent, with that page: items [100 k] to [100 k + 99] in order, and
    the pointer to the next page, [null] on the last. *)
Definition paginates (server : nat -> Request -> Response)
    (resource_uri : URI) (next_ptr : nat -> string) (items : list Json) : Prop :=
  forall n k, (k < n_pages (length items))%nat ->
    serves (server n (request_of_page resource_uri next_ptr k))
           (next_of_page (length items) next_ptr k)
           (take 100 (drop (100 * k) items)).

#[global] Instance PyVal_eq_dec : EqDecision PyVal.
Proof. solve_decision. Defined.

#[global] Instance Request_eq_dec : EqDecision Request.
Proof. solve_decision. Defined.

(** A Tastypie-like service holding [items] under the identifier [u]: the
    pointer to page [k] is the collection path with [offset=100k]. *)
Definition sample_next (k : nat) : string :=
  "/api/v1/person/person/?limit=100&offset=" +:+ pretty (100 * k)%nat.

Definition envelope (next : Json) (objs : list Json) : Json :=
  JDict [("meta", JDict [("limit", JInt 100); ("next", next)]);
         ("objects", JList objs)].

Definition paged_server (u : URI) (items : list Json) (n : nat) (rq : Request)
  : Response :=
  match List.find (fun k => bool_decide (rq = request_of_page u sample_next k))
                  (seq 0 (n_pages (length items))) with
  | Some k =>
      mkResponse 200
        (Some (envelope (next_of_page (length items) sample_next k)
                        (take 100 (drop (100 * k) items))))
  | None => mkResponse 404 None
  end.

Definition sample_people (n : nat) : list Json :=
  List.map (fun i => JDict [("id", JInt (Z.of_nat i));
                            ("resource_uri",
                             JStr ("/api/v1/person/person/" +:+ pretty i +:+ "/"))])
           (seq 0 n).

Definition people_uri : URI :=
  {| cls := PersonURI; uri := "/api/v1/person/person/";
     params := {["name__contains" := PStr "Perkins"]} |}.

(** A decoder for [DocumentAlias] objects: the four fields, the two URIs
    checked by their classes. *)
Definition alias_record : Resource DocumentAlias :=
  {| from_mapping := fun j =>
       match subscript j "id", subscript j "resource_uri",
             subscript j "document", subscript j "name" with
       | Ok (JInt i), Ok (JStr r), Ok (JStr d), Ok (JStr n) =>
           match construct DocumentAliasURI r ∅, construct DocumentURI d ∅ with
           | Ok ru, Ok du =>
               Some {| alias_id := i; alias_resource_uri := ru;
                       alias_document := du; alias_name := n |}
           | _, _ => None
           end
       | _, _, _, _ => None
       end;
     resource_uri := alias_resource_uri |}.

Definition rfc3550_alias : Json :=
  JDict [("id", JInt 3550); ("resource_uri", JStr "/api/v1/doc/docalias/rfc3550/");
         ("document", JStr "/api/v1/doc/document/draft-ietf-avt-rtp-new/");
         ("name", JStr "rfc3550")].

Definition rfc3550_document : Json :=
  JDict [("id", JInt 1); ("name", JStr "draft-ietf-avt-rtp-new");
         ("resource_uri", JStr "/api/v1/doc/document/draft-ietf-avt-rtp-new/")].

Definition rfc3550_query : URI :=
  {| cls := DocumentAliasURI; uri := "/api/v1/doc/docalias/";
     params := {["name" := PStr "rfc3550"]} |}.

(** A service that knows the aliases [aliases] of rfc3550 and the document
    behind the alias. *)
Definition rfc_server (aliases : list Json) (n : nat) (rq : Request) : Response :=
  if bool_decide (rq = first_page_request rfc3550_query) then
    mkResponse 200 (Some (envelope JNull aliases))
  else if bool_decide
            (rq = single_request
                    {| cls := DocumentURI;
                       uri := "/api/v1/doc/document/draft-ietf-avt-rtp-new/";
                       params := ∅ |}) then
    mkResponse 200 (Some rfc3550_document)
  else mkResponse 404 None.

(** ** The cache path as the specification words it *)

(** [s.endswith("/")] *)
Fixpoint ends_with_slash (s : string) : bool :=
  match s with
  | EmptyString => false
  | String c EmptyString => Ascii.eqb c "/"
  | String _ s' => ends_with_slash s'
  end.

(** Written after the specification's sentence, not after the code: "the
    identifier path with leading/trailing slash stripped", that is, without
    its leading slash if it has one and without its trailing slash if it
    has one. *)
Definition spec_strip_slashes (s : string) : string :=
  let s1 := if startswith s "/" then substring 1 (String.length s - 1) s else s in
  if ends_with_slash s1 then substring 0 (String.length s1 - 1) s1 else s1.

(** "cache-root + (identifier path with leading/trailing slash stripped) +
    [.json]", in the specification's words. *)
Definition spec_cache_filepath (cache_root : Path) (resource_uri : URI) : Path :=
  Path_join cache_root (spec_strip_slashes (uri resource_uri) +:+ ".json").

(** Two documents named without the final slash, and a service that
    knows both. *)
Definition rfc3550_no_slash : URI :=
  {| cls := DocumentURI; uri := "/api/v1/doc/document/rfc3550"; params := ∅ |}.

Definition rfc3551_no_slash : URI :=
  {| cls := DocumentURI; uri := "/api/v1/doc/document/rfc3551"; params := ∅ |}.

Definition rfc3550_record : Json :=
  JDict [("name", JStr "rfc3550");
         ("resource_uri", JStr "/api/v1/doc/document/rfc3550/")].

Definition rfc3551_record : Json :=
  JDict [("name", JStr "rfc3551");
         ("resource_uri", JStr "/api/v1/doc/document/rfc3551/")].

Definition rfc355x_server (n : nat) (rq : Request) : Response :=
  if bool_decide (rq = single_request rfc3550_no_slash) then
    mkResponse 200 (Some rfc3550_record)
  else if bool_decide (rq = single_request rfc3551_no_slash) then
    mkResponse 200 (Some rfc3551_record)
  else mkResponse 404 None.

(** * Further code of the repository *)

(** ** More of Python: exceptions, [split], [join], [in] *)

(** Results of the functions below that are pure: a value, or the
    exception raised. *)
Module Py.

Inductive Exception : Type :=
  | AssertionError
  | AttributeError
  | IndexError
  | NotImplementedError
  | OverflowError
  | UnboundLocalError
  | ValueError
  | ParseError.

Inductive Result (A : Type) : Type :=
  | Return (a : A)
  | Raise (e : Exception).
Arguments Return {A} a.
Arguments Raise {A} e.

Definition bind {A B : Type} (r : Result A) (k : A -> Result B) : Result B :=
  match r with
  | Return a => k a
  | Raise e => Raise e
  end.

End Py.

Notation "'try*' x ':=' c1 'in' c2" := (Py.bind c1 (fun x => c2))
  (at level 10, x name, c1 at level 100, c2 at level 200).

(** [s.split(sep)] for a separator of one character. *)
Fixpoint split_on (sep : ascii) (s : string) : list string :=
  match s with
  | EmptyString => [EmptyString]
  | String c s' =>
      if Ascii.eqb c sep then EmptyString :: split_on sep s'
      else match split_on sep s' with
           | [] => [String c EmptyString]
           | p :: ps => String c p :: ps
           end
  end.

(** [sep.join(l)] *)
Fixpoint join (sep : string) (l : list string) : string :=
  match l with
  | [] => EmptyString
  | [p] => p
  | p :: l' => p +:+ sep +:+ join sep l'
  end.

(** Number of occurrences of a character. *)
Fixpoint count_char (c : ascii) (s : string) : nat :=
  match s with
  | EmptyString => O
  | String d s' => ((if Ascii.eqb d c then 1 else 0) + count_char c s')%nat
  end.

(** [p in s] for strings. *)
Fixpoint contains (s p : string) : bool :=
  startswith s p
  || match s with
     | EmptyString => false
     | String _ s' => contains s' p
     end.

(** A [datetime] without time zone: microseconds since 0001-01-01 00:00. *)
Definition datetime : Type := Z.

#[global] Instance URIClass_eq_dec : EqDecision URIClass.
Proof. solve_decision. Defined.

#[global] Instance URI_eq_dec : EqDecision URI.
Proof. solve_decision. Defined.

(** ** Submissions *)

Module Submission.

Record t : Type := mk {
  abstract        : string;
  access_key      : string;
  auth_key        : string;
  authors         : string;
  checks          : list URI;
  document_date   : string;
  draft           : URI;
  file_size       : option Z;
  file_types      : string;
  first_two_pages : string;
  group           : option URI;
  id              : Z;
  name            : string;
  note            : string;
  pages           : option Z;
  remote_ip       : string;
  replaces        : string;
  resource_uri    : URI;
  rev             : string;
  state           : string;
  submission_date : string;
  submitter       : string;
  title           : string;
  words           : option Z
}.

(** [urls], run to its end: the pairs it yields. *)
Definition urls (self : t) : list (string * string) :=
  List.map (fun file_type =>
              (file_type,
               "https://www.ietf.org/archive/id/" +:+ name self +:+ "-"
               +:+ rev self +:+ file_type))
           (split_on "," (file_types self)).

End Submission.

(** ** Documents *)

Module Document.

Record t : Type := mk {
  id                 : Z;
  resource_uri       : URI;
  name               : string;
  title              : string;
  pages              : option Z;
  words              : option Z;
  time               : datetime;
  notify             : string;
  expires            : option string;
  type               : URI;
  rfc                : option Z;
  rev                : string;
  abstract           : string;
  internal_comments  : string;
  order              : Z;
  note               : string;
  ad                 : option URI;
  shepherd           : option URI;
  group              : option URI;
  stream             : option URI;
  intended_std_level : option string;
  std_level          : option string;
  states             : list URI;
  submissions        : list URI;
  tags               : list string;
  uploaded_filename  : string;
  external_url       : string
}.

(** The two assertions of [__post_init__]. *)
Definition __post_init__ (self : t) : bool :=
  match intended_std_level self with
  | None => true
  | Some l => startswith l "/api/v1/name/intendedstdlevelname/"
  end
  && match std_level self with
     | None => true
     | Some l => startswith l "/api/v1/name/stdlevelname/"
     end.

(** [self.type == DocumentTypeURI(path)]: the right-hand side is built
    with empty [params]; instances are equal when class, [uri] and
    [params] are. *)
Definition type_is (self : t) (path : string) : bool :=
  match construct DocumentTypeURI path ∅ with
  | Ok u => bool_decide (type self = u)
  | _ => false
  end.

(** [self.name.split("-")[1]] *)
Definition mtg (self : t) : Py.Result string :=
  match nth_error (split_on "-" (name self)) 1 with
  | Some m => Py.Return m
  | None => Py.Raise Py.IndexError
  end.

Definition url (self : t) : Py.Result string :=
  if type_is self "/api/v1/name/doctypename/agenda/" then
    try* mtg := mtg self in
    Py.Return ("https://datatracker.ietf.org/meeting/" +:+ mtg +:+ "/materials/"
               +:+ uploaded_filename self)
  else if type_is self "/api/v1/name/doctypename/bluesheets/" then
    try* mtg := mtg self in
    Py.Return ("https://www.ietf.org/proceedings/" +:+ mtg +:+ "/bluesheets/"
               +:+ uploaded_filename self)
  else if type_is self "/api/v1/name/doctypename/charter/" then
    Py.Return ("https://www.ietf.org/charter/" +:+ name self +:+ "-"
               +:+ rev self +:+ ".txt")
  else if type_is self "/api/v1/name/doctypename/conflrev/" then
    Py.Return ("https://www.ietf.org/cr/" +:+ name self +:+ "-"
               +:+ rev self +:+ ".txt")
  else if type_is self "/api/v1/name/doctypename/draft/" then
    Py.Return ("https://www.ietf.org/archive/id/" +:+ name self +:+ "-"
               +:+ rev self +:+ ".txt")
  else if type_is self "/api/v1/name/doctypename/liaison/" then
    Py.Return ("https://www.ietf.org/lib/dt/documents/LIAISON/"
               +:+ uploaded_filename self)
  else if type_is self "/api/v1/name/doctypename/liai-att/" then
    Py.Return ("https://www.ietf.org/lib/dt/documents/LIAISON/"
               +:+ uploaded_filename self)
  else if type_is self "/api/v1/name/doctypename/minutes/" then
    try* mtg := mtg self in
    Py.Return ("https://datatracker.ietf.org/meeting/" +:+ mtg +:+ "/materials/"
               +:+ uploaded_filename self)
  else if type_is self "/api/v1/name/doctypename/recording/" then
    Py.Return (external_url self)
  else if type_is self "/api/v1/name/doctypename/review/" then
    Py.Return ("https://datatracker.ietf.org/doc/" +:+ name self)
  else if type_is self "/api/v1/name/doctypename/shepwrit/" then
    Py.Return (external_url self)
  else if type_is self "/api/v1/name/doctypename/slides/" then
    try* mtg := mtg self in
    Py.Return ("https://www.ietf.org/proceedings/" +:+ mtg +:+ "/slides/"
               +:+ uploaded_filename self)
  else if type_is self "/api/v1/name/doctypename/statchg/" then
    Py.Return ("https://www.ietf.org/sc/" +:+ name self +:+ "-"
               +:+ rev self +:+ ".txt")
  else
    Py.Raise Py.NotImplementedError.

(** The document types whose URL is made from the meeting in the name, and
    the other types [url] knows. *)
Definition meeting_types : list string :=
  ["agenda"; "bluesheets"; "minutes"; "slides"].

Definition other_types : list string :=
  ["charter"; "conflrev"; "draft"; "liaison"; "liai-att"; "recording";
   "review"; "shepwrit"; "statchg"].

Definition doctype (slug : string) : URI :=
  {| cls := DocumentTypeURI;
     uri := "/api/v1/name/doctypename/" +:+ slug +:+ "/"; params := ∅ |}.

End Document.

(** A sample agenda document. *)
Definition sample_agenda : Document.t :=
  {| Document.id := 1; Document.resource_uri :=
       {| cls := DocumentURI; uri := "/api/v1/doc/document/agenda-107-quic/";
          params := ∅ |};
     Document.name := "agenda-107-quic"; Document.title := "Agenda";
     Document.pages := None; Document.words := None; Document.time := 0;
     Document.notify := ""; Document.expires := None;
     Document.type := Document.doctype "agenda"; Document.rfc := None;
     Document.rev := "00"; Document.abstract := "";
     Document.internal_comments := ""; Document.order := 1;
     Document.note := ""; Document.ad := None; Document.shepherd := None;
     Document.group := None; Document.stream := None;
     Document.intended_std_level := None; Document.std_level := None;
     Document.states := []; Document.submissions := []; Document.tags := [];
     Document.uploaded_filename := "agenda-107-quic-00.md";
     Document.external_url := "" |}.

(** ** Meetings *)

Inductive MeetingStatus : Type :=
  | FUTURE
  | ONGOING
  | COMPLETED.

Module Meeting.

Record t : Type := mk {
  id                               : Z;
  resource_uri                     : URI;
  type                             : URI;
  country                          : string;
  city                             : string;
  venue_name                       : string;
  venue_addr                       : string;
  date                             : string;
  days                             : Z;
  time_zone                        : string;
  acknowledgements                 : string;
  agenda_info_note                 : string;
  agenda_warning_note              : string;
  session_request_lock_message     : string;
  idsubmit_cutoff_warning_days     : string;
  idsubmit_cutoff_time_utc         : string;
  idsubmit_cutoff_day_offset_00    : Z;
  idsubmit_cutoff_day_offset_01    : Z;
  submission_start_day_offset      : Z;
  submission_cutoff_day_offset     : Z;
  submission_correction_day_offset : Z;
  agenda                           : URI;
  schedule                         : URI;
  number                           : string;
  break_area                       : string;
  reg_area                         : string;
  proceedings_final                : bool;
  show_important_dates             : bool;
  attendees                        : option Z;
  updated                          : datetime
}.

(** Microseconds in a day. *)
Definition day : Z := 86400000000.

(** [datetime.max], 9999-12-31 23:59:59.999999. *)
Definition datetime_max : datetime := 3652059 * day - 1.

(** [timedelta(days = n)], in microseconds; the magnitude of [n] may not
    exceed 999999999. *)
Definition timedelta_days (n : Z) : Py.Result Z :=
  if Z.abs n <=? 999999999 then Py.Return (n * day)
  else Py.Raise Py.OverflowError.

(** [t + delta]: the sum has to be a date between [datetime.min] and
    [datetime.max]. *)
Definition datetime_add (t : datetime) (delta : Z) : Py.Result datetime :=
  if (0 <=? t + delta) && (t + delta <=? datetime_max) then Py.Return (t + delta)
  else Py.Raise Py.OverflowError.

(** [status], given the clock's reading [now] and the library function
    [datetime.strptime], which gives [None] where it raises. *)
Definition status (strptime : string -> string -> option datetime)
    (now : datetime) (self : t) : Py.Result MeetingStatus :=
  try* meeting_start :=
    match strptime (date self) "%Y-%m-%d" with
    | Some t => Py.Return t
    | None => Py.Raise Py.ValueError
    end in
  try* delta := timedelta_days (days self - 1) in
  try* meeting_end := datetime_add meeting_start delta in
  if now <? meeting_start then Py.Return FUTURE
  else if meeting_end <? now then Py.Return COMPLETED
  else Py.Return ONGOING.

End Meeting.

(** ** E-mail addresses *)

Module Email.

Record t : Type := mk {
  resource_uri : URI;
  person       : URI;
  address      : string;
  time         : datetime;
  origin       : string;
  primary      : bool;
  active       : bool
}.

End Email.

(** ** Endpoint functions that look up one record *)

Section Lookups.

Variable server : nat -> Request -> Response.

Definition person {Person : Type} `{Resource Person} (person_uri : URI)
  : M (option Person) :=
  _retrieve server person_uri.

Definition email `{Resource Email.t} (email_uri : URI) : M (option Email.t) :=
  _retrieve server email_uri.

Definition person_from_email {Person : Type} `{Resource Person}
    `{Resource Email.t} (email_addr : string) : M (option Person) :=
  let* email_uri :=
    lift_res (construct EmailURI ("/api/v1/person/email/" +:+ email_addr +:+ "/") ∅) in
  let* email := email email_uri in
  match email with
  | Some email => person (Email.person email)
  | None => ret None
  end.

Definition document_from_draft {Document : Type} `{Resource Document}
    (draft : string) : M (option Document) :=
  if negb (startswith draft "draft-") then raise AssertionError
  else if contains draft "," then raise AssertionError
  else
    let* document_uri :=
      lift_res (construct DocumentURI ("/api/v1/doc/document/" +:+ draft +:+ "/") ∅) in
    document server document_uri.

Definition group_from_acronym {Group : Type} `{Resource Group}
    (fuel : nat) (acronym : string) : M (option Group) :=
  let* url := lift_res (construct GroupURI "/api/v1/group/group/" ∅) in
  let url := set_param "acronym" (PStr acronym) url in
  let* groups := to_list (_retrieve_multi server fuel url) in
  match groups with
  | [] => ret None
  | [g] => ret (Some g)
  | _ => raise RuntimeError
  end.

Definition meeting_type {MeetingType : Type} `{Resource MeetingType}
    (meeting_type : string) : M (option MeetingType) :=
  let* url :=
    lift_res (construct MeetingTypeURI
                ("/api/v1/name/meetingtypename/" +:+ meeting_type +:+ "/") ∅) in
  _retrieve server url.

End Lookups.

(** IETF 107, Vancouver: seven days from 2020-03-21. *)
Definition sample_meeting : Meeting.t :=
  let none := {| cls := URI_; uri := ""; params := ∅ |} in
  {| Meeting.id := 1162;
     Meeting.resource_uri :=
       {| cls := MeetingURI; uri := "/api/v1/meeting/meeting/1162/"; params := ∅ |};
     Meeting.type :=
       {| cls := MeetingTypeURI; uri := "/api/v1/name/meetingtypename/ietf/";
          params := ∅ |};
     Meeting.country := "CA"; Meeting.city := "Vancouver";
     Meeting.venue_name := ""; Meeting.venue_addr := "";
     Meeting.date := "2020-03-21"; Meeting.days := 7;
     Meeting.time_zone := "America/Vancouver"; Meeting.acknowledgements := "";
     Meeting.agenda_info_note := ""; Meeting.agenda_warning_note := "";
     Meeting.session_request_lock_message := "";
     Meeting.idsubmit_cutoff_warning_days := "21 days, 0:00:00";
     Meeting.idsubmit_cutoff_time_utc := "23:59:59";
     Meeting.idsubmit_cutoff_day_offset_00 := 13;
     Meeting.idsubmit_cutoff_day_offset_01 := 13;
     Meeting.submission_start_day_offset := 90;
     Meeting.submission_cutoff_day_offset := 26;
     Meeting.submission_correction_day_offset := 50;
     Meeting.agenda := none; Meeting.schedule := none;
     Meeting.number := "107"; Meeting.break_area := ""; Meeting.reg_area := "";
     Meeting.proceedings_final := false; Meeting.show_important_dates := true;
     Meeting.attendees := None; Meeting.updated := 0 |}.

(** A [strptime] that knows one date: 2020-03-21 is day 737504 after
    0001-01-01. *)
Definition sample_strptime (text format : string) : option datetime :=
  if String.eqb text "2020-03-21" && String.eqb format "%Y-%m-%d"
  then Some (737504 * Meeting.day) else None.

(** The identifiers the lookup functions construct. *)
Definition email_uri_of (email_addr : string) : URI :=
  {| cls := EmailURI; uri := "/api/v1/person/email/" +:+ email_addr +:+ "/";
     params := ∅ |}.

Definition draft_uri_of (draft : string) : URI :=
  {| cls := DocumentURI; uri := "/api/v1/doc/document/" +:+ draft +:+ "/";
     params := ∅ |}.

Definition acronym_query (acronym : string) : URI :=
  {| cls := GroupURI; uri := "/api/v1/group/group/";
     params := {["acronym" := PStr acronym]} |}.

Definition sample_group : Json :=
  JDict [("acronym", JStr "quic"); ("id", JInt 2161);
         ("resource_uri", JStr "/api/v1/group/group/2161/")].

(** ** What a fetch does to the state *)

(** The cache files after the records [ys], decoded from the JSON objects
    [js], were written one after the other under the cache directory [d]:
    a later record with the same cache file replaces an earlier one. *)
Definition cache_records {T : Type} `{Resource T} (d : Path)
    (ys : list T) (js : list Json) (fs : gmap Path Json) : gmap Path Json :=
  fold_left (fun fs yj => <[cache_path d (resource_uri (fst yj)) := snd yj]> fs)
            (zip ys js) fs.

(** [st'] is [st] some steps later: the cache directory is the same, the
    request counter has not gone down, the trace has only been extended,
    and every request sent is in the trace. *)
Definition grows (st st' : State) : Prop :=
  cache_dir st' = cache_dir st
  /\ http_req st <= http_req st'
  /\ exists evs, trace st' = trace st ++ evs
                 /\ sent st' = (sent st + length (requests evs))%nat.

(** Steps that leave the cache files alone. *)
Definition quiet (st st' : State) : Prop :=
  grows st st' /\ files st' = files st.

(** Steps that yielded the records [ys] and wrote each of them, as it was
    received, into the cache (when there is one) and wrote nothing else. *)
Definition yields_cached {T : Type} `{Resource T}
    (st : State) (ys : list T) (st' : State) : Prop :=
  grows st st'
  /\ exists js,
       Forall2 (fun y j => from_mapping j = Some y) ys js
       /\ files st' = match cache_dir st with
                      | Some d => cache_records d ys js (files st)
                      | None => files st
                      end.

(** ** Which file a path names *)

(** The components of a path with each [..] resolved against the
    component before it, as a file system without symbolic links does
    ([..] at the root is the root). [seen] holds the components kept so
    far, the last one first. *)
Fixpoint resolve_parts (root : bool) (seen ps : list string) : list string :=
  match ps with
  | [] => rev seen
  | p :: ps' =>
      if String.eqb p ".." then
        match seen with
        | [] => if root then resolve_parts root [] ps'
                else resolve_parts root [p] ps'
        | s :: seen' =>
            if String.eqb s ".." then resolve_parts root (p :: seen) ps'
            else resolve_parts root seen' ps'
        end
      else resolve_parts root (p :: seen) ps'
  end.

Definition resolve (p : Path) : Path :=
  {| anchored := anchored p;
     parts := resolve_parts (anchored p) [] (parts p) |}.

Fixpoint is_prefix (l k : list string) : bool :=
  match l, k with
  | [], _ => true
  | _ :: _, [] => false
  | a :: l', b :: k' => String.eqb a b && is_prefix l' k'
  end.

(** Two paths that are known to name different files, neither of which
    is a directory on the way to the other, on a case-sensitive file
    system without links: both are anchored or both are relative to the
    same directory, neither leaves that directory through [..], and once
    [..] is resolved neither is the other or the beginning of the other.
    [a/b/../c.json] and [a/c.json] are not such paths. *)
Definition distinct_files (p q : Path) : Prop :=
  anchored p = anchored q
  /\ ~ In ".." (parts (resolve p))
  /\ ~ In ".." (parts (resolve q))
  /\ is_prefix (parts (resolve p)) (parts (resolve q)) = false
  /\ is_prefix (parts (resolve q)) (parts (resolve p)) = false.

Definition sample_cache : Path := Path_of_string "cache".

(** ** The RFC index ([rfcindex.py]) *)

(** An [xml.etree.ElementTree.Element]: its qualified tag, its text
    ([None] when it has none), and its children, which are what iterating
    over the element gives. *)
Module ET.

Inductive Element : Type :=
  | mkElement (tag : string) (text : option string) (children : list Element).

Definition tag (e : Element) : string := let 'mkElement t _ _ := e in t.
Definition text (e : Element) : option string := let 'mkElement _ t _ := e in t.
Definition children (e : Element) : list Element := let 'mkElement _ _ c := e in c.

End ET.

(** [for x in l: body], where an exception raised by [body] ends the loop. *)
Fixpoint for_in {S E : Type} (body : E -> S -> Py.Result S) (l : list E) (s : S)
    : Py.Result S :=
  match l with
  | [] => Py.Return s
  | x :: l' => try* s' := body x s in for_in body l' s'
  end.

(** [assert elem.text is not None], giving the text. *)
Definition assert_text (elem : ET.Element) : Py.Result string :=
  match ET.text elem with
  | Some t => Py.Return t
  | None => Py.Raise Py.AssertionError
  end.

(** Reading an attribute that may not have been assigned. *)
Definition getattr {A : Type} (attr : option A) : Py.Result A :=
  match attr with
  | Some a => Py.Return a
  | None => Py.Raise Py.AttributeError
  end.

(** The loop
<<
    for inner in elem:
        assert inner.text is not None
        if inner.tag == "{...}doc-id": l.append(inner.text)
        else: raise NotImplementedError
>>
    that the entry classes run on the children of the elements that list
    documents, each with a list [l] of its own. *)
Definition append_doc_ids (elem : ET.Element) (l : list string)
    : Py.Result (list string) :=
  for_in (fun inner l =>
            try* t := assert_text inner in
            if String.eqb (ET.tag inner) "{http://www.rfc-editor.org/rfc-index}doc-id"
            then Py.Return (l ++ [t])
            else Py.Raise Py.NotImplementedError)
         (ET.children elem) l.

Module RfcEntry.

(** The attributes [doc_id], [title], [doi], [stream], [curr_status],
    [publ_status], [month] and [year] exist only once [__init__] has met
    the element that sets them: [None] is the attribute that is not set.
    For [wg], [area], [day], [draft], [errata_url] and [abstract], [None]
    is Python's [None]. *)
Record t : Type := mk {
  doc_id : option string;
  title : option string;
  authors : list string;
  doi : option string;
  stream : option string;
  wg : option string;
  area : option string;
  curr_status : option string;
  publ_status : option string;
  day : option Z;
  month : option string;
  year : option Z;
  formats : list (string * option Z * option Z);
  draft : option string;
  keywords : list string;
  updates : list string;
  updated_by : list string;
  obsoletes : list string;
  obsoleted_by : list string;
  is_also : list string;
  see_also : list string;
  errata_url : option string;
  abstract : option ET.Element
}.

Definition set_doc_id (v : option string) (self : t) : t :=
  {| doc_id := v; title := title self; authors := authors self;
     doi := doi self; stream := stream self; wg := wg self;
     area := area self; curr_status := curr_status self;
     publ_status := publ_status self; day := day self; month := month self;
     year := year self; formats := formats self; draft := draft self;
     keywords := keywords self; updates := updates self;
     updated_by := updated_by self; obsoletes := obsoletes self;
     obsoleted_by := obsoleted_by self; is_also := is_also self;
     see_also := see_also self; errata_url := errata_url self;
     abstract := abstract self |}.

Definition set_title (v : option string) (self : t) : t :=
  {| doc_id := doc_id self; title := v; authors := authors self;
     doi := doi self; stream := stream self; wg := wg self;
     area := area self; curr_status := curr_status self;
     publ_status := publ_status self; day := day self; month := month self;
     year := year self; formats := formats self; draft := draft self;
     keywords := keywords self; updates := updates self;
     updated_by := updated_by self; obsoletes := obsoletes self;
     obsoleted_by := obsoleted_by self; is_also := is_also self;
     see_also := see_also self; errata_url := errata_url self;
     abstract := abstract self |}.

Definition set_authors (v : list string) (self : t) : t :=
  {| doc_id := doc_id self; title := title self; authors := v;
     doi := doi self; stream := stream self; wg := wg self;
     area := area self; curr_status := curr_status self;
     publ_status := publ_status self; day := day self; month := month self;
     year := year self; formats := formats self; draft := draft self;
     keywords := keywords self; updates := updates self;
     updated_by := updated_by self; obsoletes := obsoletes self;
     obsoleted_by := obsoleted_by self; is_also := is_also self;
     see_also := see_also self; errata_url := errata_url self;
     abstract := abstract self |}.

Definition set_doi (v : option string) (self : t) : t :=
  {| doc_id := doc_id self; title := title self; authors := authors self;
     doi := v; stream := stream self; wg := wg self; area := area self;
     curr_status := curr_status self; publ_status := publ_status self;
     day := day self; month := month self; year := year self;
     formats := formats self; draft := draft self; keywords := keywords self;
     updates := updates self; updated_by := updated_by self;
     obsoletes := obsoletes self; obsoleted_by := obsoleted_by self;
     is_also := is_also self; see_also := see_also self;
     errata_url := errata_url self; abstract := abstract self |}.

Definition set_stream (v : option string) (self : t) : t :=
  {| doc_id := doc_id self; title := title self; authors := authors self;
     doi := doi self; stream := v; wg := wg self; area := area self;
     curr_status := curr_status self; publ_status := publ_status self;
     day := day self; month := month self; year := year self;
     formats := formats self; draft := draft self; keywords := keywords self;
     updates := updates self; updated_by := updated_by self;
     obsoletes := obsoletes self; obsoleted_by := obsoleted_by self;
     is_also := is_also self; see_also := see_also self;
     errata_url := errata_url self; abstract := abstract self |}.

Definition set_wg (v : option string) (self : t) : t :=
  {| doc_id := doc_id self; title := title self; authors := authors self;
     doi := doi self; stream := stream self; wg := v; area := area self;
     curr_status := curr_status self; publ_status := publ_status self;
     day := day self; month := month self; year := year self;
     formats := formats self; draft := draft self; keywords := keywords self;
     updates := updates self; updated_by := updated_by self;
     obsoletes := obsoletes self; obsoleted_by := obsoleted_by self;
     is_also := is_also self; see_also := see_also self;
     errata_url := errata_url self; abstract := abstract self |}.

Definition set_area (v : option string) (self : t) : t :=
  {| doc_id := doc_id self; title := title self; authors := authors self;
     doi := doi self; stream := stream self; wg := wg self; area := v;
     curr_status := curr_status self; publ_status := publ_status self;
     day := day self; month := month self; year := year self;
     formats := formats self; draft := draft self; keywords := keywords self;
     updates := updates self; updated_by := updated_by self;
     obsoletes := obsoletes self; obsoleted_by := obsoleted_by self;
     is_also := is_also self; see_also := see_also self;
     errata_url := errata_url self; abstract := abstract self |}.

Definition set_curr_status (v : option string) (self : t) : t :=
  {| doc_id := doc_id self; title := title self; authors := authors self;
     doi := doi self; stream := stream self; wg := wg self;
     area := area self; curr_status := v; publ_status := publ_status self;
     day := day self; month := month self; year := year self;
     formats := formats self; draft := draft self; keywords := keywords self;
     updates := updates self; updated_by := updated_by self;
     obsoletes := obsoletes self; obsoleted_by := obsoleted_by self;
     is_also := is_also self; see_also := see_also self;
     errata_url := errata_url self; abstract := abstract self |}.

Definition set_publ_status (v : option string) (self : t) : t :=
  {| doc_id := doc_id self; title := title self; authors := authors self;
     doi := doi self; stream := stream self; wg := wg self;
     area := area self; curr_status := curr_status self; publ_status := v;
     day := day self; month := month self; year := year self;
     formats := formats self; draft := draft self; keywords := keywords self;
     updates := updates self; updated_by := updated_by self;
     obsoletes := obsoletes self; obsoleted_by := obsoleted_by self;
     is_also := is_also self; see_also := see_also self;
     errata_url := errata_url self; abstract := abstract self |}.

Definition set_day (v : option Z) (self : t) : t :=
  {| doc_id := doc_id self; title := title self; authors := authors self;
     doi := doi self; stream := stream self; wg := wg self;
     area := area self; curr_status := curr_status self;
     publ_status := publ_status self; day := v; month := month self;
     year := year self; formats := formats self; draft := draft self;
     keywords := keywords self; updates := updates self;
     updated_by := updated_by self; obsoletes := obsoletes self;
     obsoleted_by := obsoleted_by self; is_also := is_also self;
     see_also := see_also self; errata_url := errata_url self;
     abstract := abstract self |}.

Definition set_month (v : option string) (self : t) : t :=
  {| doc_id := doc_id self; title := title self; authors := authors self;
     doi := doi self; stream := stream self; wg := wg self;
     area := area self; curr_status := curr_status self;
     publ_status := publ_status self; day := day self; month := v;
     year := year self; formats := formats self; draft := draft self;
     keywords := keywords self; updates := updates self;
     updated_by := updated_by self; obsoletes := obsoletes self;
     obsoleted_by := obsoleted_by self; is_also := is_also self;
     see_also := see_also self; errata_url := errata_url self;
     abstract := abstract self |}.

Definition set_year (v : option Z) (self : t) : t :=
  {| doc_id := doc_id self; title := title self; authors := authors self;
     doi := doi self; stream := stream self; wg := wg self;
     area := area self; curr_status := curr_status self;
     publ_status := publ_status self; day := day self; month := month self;
     year := v; formats := formats self; draft := draft self;
     keywords := keywords self; updates := updates self;
     updated_by := updated_by self; obsoletes := obsoletes self;
     obsoleted_by := obsoleted_by self; is_also := is_also self;
     see_also := see_also self; errata_url := errata_url self;
     abstract := abstract self |}.

Definition set_formats (v : list (string * option Z * option Z)) (self : t) : t :=
  {| doc_id := doc_id self; title := title self; authors := authors self;
     doi := doi self; stream := stream self; wg := wg self;
     area := area self; curr_status := curr_status self;
     publ_status := publ_status self; day := day self; month := month self;
     year := year self; formats := v; draft := draft self;
     keywords := keywords self; updates := updates self;
     updated_by := updated_by self; obsoletes := obsoletes self;
     obsoleted_by := obsoleted_by self; is_also := is_also self;
     see_also := see_also self; errata_url := errata_url self;
     abstract := abstract self |}.

Definition set_draft (v : option string) (self : t) : t :=
  {| doc_id := doc_id self; title := title self; authors := authors self;
     doi := doi self; stream := stream self; wg := wg self;
     area := area self; curr_status := curr_status self;
     publ_status := publ_status self; day := day self; month := month self;
     year := year self; formats := formats self; draft := v;
     keywords := keywords self; updates := updates self;
     updated_by := updated_by self; obsoletes := obsoletes self;
     obsoleted_by := obsoleted_by self; is_also := is_also self;
     see_also := see_also self; errata_url := errata_url self;
     abstract := abstract self |}.

Definition set_keywords (v : list string) (self : t) : t :=
  {| doc_id := doc_id self; title := title self; authors := authors self;
     doi := doi self; stream := stream self; wg := wg self;
     area := area self; curr_status := curr_status self;
     publ_status := publ_status self; day := day self; month := month self;
     year := year self; formats := formats self; draft := draft self;
     keywords := v; updates := updates self; updated_by := updated_by self;
     obsoletes := obsoletes self; obsoleted_by := obsoleted_by self;
     is_also := is_also self; see_also := see_also self;
     errata_url := errata_url self; abstract := abstract self |}.

Definition set_updates (v : list string) (self : t) : t :=
  {| doc_id := doc_id self; title := title self; authors := authors self;
     doi := doi self; stream := stream self; wg := wg self;
     area := area self; curr_status := curr_status self;
     publ_status := publ_status self; day := day self; month := month self;
     year := year self; formats := formats self; draft := draft self;
     keywords := keywords self; updates := v; updated_by := updated_by self;
     obsoletes := obsoletes self; obsoleted_by := obsoleted_by self;
     is_also := is_also self; see_also := see_also self;
     errata_url := errata_url self; abstract := abstract self |}.

Definition set_updated_by (v : list string) (self : t) : t :=
  {| doc_id := doc_id self; title := title self; authors := authors self;
     doi := doi self; stream := stream self; wg := wg self;
     area := area self; curr_status := curr_status self;
     publ_status := publ_status self; day := day self; month := month self;
     year := year self; formats := formats self; draft := draft self;
     keywords := keywords self; updates := updates self; updated_by := v;
     obsoletes := obsoletes self; obsoleted_by := obsoleted_by self;
     is_also := is_also self; see_also := see_also self;
     errata_url := errata_url self; abstract := abstract self |}.

Definition set_obsoletes (v : list string) (self : t) : t :=
  {| doc_id := doc_id self; title := title self; authors := authors self;
     doi := doi self; stream := stream self; wg := wg self;
     area := area self; curr_status := curr_status self;
     publ_status := publ_status self; day := day self; month := month self;
     year := year self; formats := formats self; draft := draft self;
     keywords := keywords self; updates := updates self;
     updated_by := updated_by self; obsoletes := v;
     obsoleted_by := obsoleted_by self; is_also := is_also self;
     see_also := see_also self; errata_url := errata_url self;
     abstract := abstract self |}.

Definition set_obsoleted_by (v : list string) (self : t) : t :=
  {| doc_id := doc_id self; title := title self; authors := authors self;
     doi := doi self; stream := stream self; wg := wg self;
     area := area self; curr_status := curr_status self;
     publ_status := publ_status self; day := day self; month := month self;
     year := year self; formats := formats self; draft := draft self;
     keywords := keywords self; updates := updates self;
     updated_by := updated_by self; obsoletes := obsoletes self;
     obsoleted_by := v; is_also := is_also self; see_also := see_also self;
     errata_url := errata_url self; abstract := abstract self |}.

Definition set_is_also (v : list string) (self : t) : t :=
  {| doc_id := doc_id self; title := title self; authors := authors self;
     doi := doi self; stream := stream self; wg := wg self;
     area := area self; curr_status := curr_status self;
     publ_status := publ_status self; day := day self; month := month self;
     year := year self; formats := formats self; draft := draft self;
     keywords := keywords self; updates := updates self;
     updated_by := updated_by self; obsoletes := obsoletes self;
     obsoleted_by := obsoleted_by self; is_also := v;
     see_also := see_also self; errata_url := errata_url self;
     abstract := abstract self |}.

Definition set_see_also (v : list string) (self : t) : t :=
  {| doc_id := doc_id self; title := title self; authors := authors self;
     doi := doi self; stream := stream self; wg := wg self;
     area := area self; curr_status := curr_status self;
     publ_status := publ_status self; day := day self; month := month self;
     year := year self; formats := formats self; draft := draft self;
     keywords := keywords self; updates := updates self;
     updated_by := updated_by self; obsoletes := obsoletes self;
     obsoleted_by := obsoleted_by self; is_also := is_also self;
     see_also := v; errata_url := errata_url self;
     abstract := abstract self |}.

Definition set_errata_url (v : option string) (self : t) : t :=
  {| doc_id := doc_id self; title := title self; authors := authors self;
     doi := doi self; stream := stream self; wg := wg self;
     area := area self; curr_status := curr_status self;
     publ_status := publ_status self; day := day self; month := month self;
     year := year self; formats := formats self; draft := draft self;
     keywords := keywords self; updates := updates self;
     updated_by := updated_by self; obsoletes := obsoletes self;
     obsoleted_by := obsoleted_by self; is_also := is_also self;
     see_also := see_also self; errata_url := v; abstract := abstract self |}.

Definition set_abstract (v : option ET.Element) (self : t) : t :=
  {| doc_id := doc_id self; title := title self; authors := authors self;
     doi := doi self; stream := stream self; wg := wg self;
     area := area self; curr_status := curr_status self;
     publ_status := publ_status self; day := day self; month := month self;
     year := year self; formats := formats self; draft := draft self;
     keywords := keywords self; updates := updates self;
     updated_by := updated_by self; obsoletes := obsoletes self;
     obsoleted_by := obsoleted_by self; is_also := is_also self;
     see_also := see_also self; errata_url := errata_url self;
     abstract := v |}.

(** The attributes assigned before the loop. *)
Definition initial : t :=
  {| doc_id := None; title := None; authors := []; doi := None;
     stream := None; wg := None; area := None; curr_status := None;
     publ_status := None; day := None; month := None; year := None;
     formats := []; draft := None; keywords := []; updates := [];
     updated_by := []; obsoletes := []; obsoleted_by := []; is_also := [];
     see_also := []; errata_url := None; abstract := None |}.

Section Init.

(** [int(s)] for a string: [None] when it raises [ValueError]. *)
Variable py_int : string -> option Z.

Definition int (s : string) : Py.Result Z :=
  match py_int s with
  | Some n => Py.Return n
  | None => Py.Raise Py.ValueError
  end.

(** The loop over the children of an [author] element. *)
Definition author (elem : ET.Element) (self : t) : Py.Result t :=
  for_in (fun inner self =>
            if String.eqb (ET.tag inner) "{http://www.rfc-editor.org/rfc-index}name"
            then try* t := assert_text inner in
                 Py.Return (set_authors (authors self ++ [t]) self)
            else if String.eqb (ET.tag inner) "{http://www.rfc-editor.org/rfc-index}title"
            then Py.Return self
            else Py.Raise Py.NotImplementedError)
         (ET.children elem) self.

(** The loop over the children of a [date] element. *)
Definition date (elem : ET.Element) (self : t) : Py.Result t :=
  for_in (fun inner self =>
            try* t := assert_text inner in
            if String.eqb (ET.tag inner) "{http://www.rfc-editor.org/rfc-index}day"
            then try* n := int t in Py.Return (set_day (Some n) self)
            else if String.eqb (ET.tag inner) "{http://www.rfc-editor.org/rfc-index}month"
            then Py.Return (set_month (Some t) self)
            else if String.eqb (ET.tag inner) "{http://www.rfc-editor.org/rfc-index}year"
            then try* n := int t in Py.Return (set_year (Some n) self)
            else Py.Raise Py.NotImplementedError)
         (ET.children elem) self.

(** The loop over the children of a [format] element, on the local
    variables [file_format], [char_count] and [page_count]. *)
Definition format_fields (elem : ET.Element)
    (locals : option string * option Z * option Z)
    : Py.Result (option string * option Z * option Z) :=
  for_in (fun inner locals =>
            let '(file_format, char_count, page_count) := locals in
            try* t := assert_text inner in
            if String.eqb (ET.tag inner) "{http://www.rfc-editor.org/rfc-index}file-format"
            then Py.Return (Some t, char_count, page_count)
            else if String.eqb (ET.tag inner) "{http://www.rfc-editor.org/rfc-index}char-count"
            then try* n := int t in Py.Return (file_format, Some n, page_count)
            else if String.eqb (ET.tag inner) "{http://www.rfc-editor.org/rfc-index}page-count"
            then try* n := int t in Py.Return (file_format, char_count, Some n)
            else Py.Raise Py.NotImplementedError)
         (ET.children elem) locals.

(** The loop over the children of a [keywords] element. *)
Definition keyword_list (elem : ET.Element) (self : t) : Py.Result t :=
  for_in (fun inner self =>
            if String.eqb (ET.tag inner) "{http://www.rfc-editor.org/rfc-index}kw"
            then match ET.text inner with
                 | Some t => Py.Return (set_keywords (keywords self ++ [t]) self)
                 | None => Py.Return self
                 end
            else Py.Raise Py.NotImplementedError)
         (ET.children elem) self.

(** One round of [for elem in rfc_element]. [file_format] is a local
    variable of [__init__]: it is not bound before the first
    [file-format] element, and keeps its value from one [format] element
    to the next. *)
Definition element (elem : ET.Element) (st : t * option string)
    : Py.Result (t * option string) :=
  let '(self, file_format) := st in
  if String.eqb (ET.tag elem) "{http://www.rfc-editor.org/rfc-index}doc-id" then
    try* t := assert_text elem in
    Py.Return (set_doc_id (Some t) self, file_format)
  else if String.eqb (ET.tag elem) "{http://www.rfc-editor.org/rfc-index}title" then
    try* t := assert_text elem in
    Py.Return (set_title (Some t) self, file_format)
  else if String.eqb (ET.tag elem) "{http://www.rfc-editor.org/rfc-index}doi" then
    try* t := assert_text elem in
    Py.Return (set_doi (Some t) self, file_format)
  else if String.eqb (ET.tag elem) "{http://www.rfc-editor.org/rfc-index}stream" then
    try* t := assert_text elem in
    Py.Return (set_stream (Some t) self, file_format)
  else if String.eqb (ET.tag elem) "{http://www.rfc-editor.org/rfc-index}wg_acronym" then
    Py.Return (set_wg (ET.text elem) self, file_format)
  else if String.eqb (ET.tag elem) "{http://www.rfc-editor.org/rfc-index}area" then
    Py.Return (set_area (ET.text elem) self, file_format)
  else if String.eqb (ET.tag elem) "{http://www.rfc-editor.org/rfc-index}current-status" then
    try* t := assert_text elem in
    Py.Return (set_curr_status (Some t) self, file_format)
  else if String.eqb (ET.tag elem) "{http://www.rfc-editor.org/rfc-index}publication-status" then
    try* t := assert_text elem in
    Py.Return (set_publ_status (Some t) self, file_format)
  else if String.eqb (ET.tag elem) "{http://www.rfc-editor.org/rfc-index}author" then
    try* self := author elem self in Py.Return (self, file_format)
  else if String.eqb (ET.tag elem) "{http://www.rfc-editor.org/rfc-index}date" then
    try* self := date elem self in Py.Return (self, file_format)
  else if String.eqb (ET.tag elem) "{http://www.rfc-editor.org/rfc-index}format" then
    try* locals := format_fields elem (file_format, None, None) in
    let '(file_format, char_count, page_count) := locals in
    match file_format with
    | None => Py.Raise Py.UnboundLocalError
    | Some fmt =>
        Py.Return (set_formats (formats self ++ [(fmt, char_count, page_count)]) self,
                   file_format)
    end
  else if String.eqb (ET.tag elem) "{http://www.rfc-editor.org/rfc-index}draft" then
    Py.Return (set_draft (ET.text elem) self, file_format)
  else if String.eqb (ET.tag elem) "{http://www.rfc-editor.org/rfc-index}keywords" then
    try* self := keyword_list elem self in Py.Return (self, file_format)
  else if String.eqb (ET.tag elem) "{http://www.rfc-editor.org/rfc-index}updates" then
    try* l := append_doc_ids elem (updates self) in
    Py.Return (set_updates l self, file_format)
  else if String.eqb (ET.tag elem) "{http://www.rfc-editor.org/rfc-index}updated-by" then
    try* l := append_doc_ids elem (updated_by self) in
    Py.Return (set_updated_by l self, file_format)
  else if String.eqb (ET.tag elem) "{http://www.rfc-editor.org/rfc-index}obsoletes" then
    try* l := append_doc_ids elem (obsoletes self) in
    Py.Return (set_obsoletes l self, file_format)
  else if String.eqb (ET.tag elem) "{http://www.rfc-editor.org/rfc-index}obsoleted-by" then
    try* l := append_doc_ids elem (obsoleted_by self) in
    Py.Return (set_obsoleted_by l self, file_format)
  else if String.eqb (ET.tag elem) "{http://www.rfc-editor.org/rfc-index}is-also" then
    try* l := append_doc_ids elem (is_also self) in
    Py.Return (set_is_also l self, file_format)
  else if String.eqb (ET.tag elem) "{http://www.rfc-editor.org/rfc-index}see-also" then
    try* l := append_doc_ids elem (see_also self) in
    Py.Return (set_see_also l self, file_format)
  else if String.eqb (ET.tag elem) "{http://www.rfc-editor.org/rfc-index}errata-url" then
    Py.Return (set_errata_url (ET.text elem) self, file_format)
  else if String.eqb (ET.tag elem) "{http://www.rfc-editor.org/rfc-index}abstract" then
    Py.Return (set_abstract (Some elem) self, file_format)
  else Py.Raise Py.NotImplementedError.

Definition __init__ (rfc_element : ET.Element) : Py.Result t :=
  try* st := for_in element (ET.children rfc_element) (initial, None) in
  Py.Return (fst st).

End Init.

(** The [for (fmt, size, pages) in self.formats] loop of [content_url]. *)
Fixpoint content_url_from (doc_id : option string)
    (formats : list (string * option Z * option Z)) (required_format : string)
    : Py.Result (option string) :=
  match formats with
  | [] => Py.Return None
  | (fmt, size, pages) :: formats' =>
      if String.eqb fmt required_format then
        if String.eqb required_format "ASCII" then
          try* id := getattr doc_id in
          Py.Return (Some ("https://www.rfc-editor.org/rfc/" +:+ lower id +:+ ".txt"))
        else if String.eqb required_format "PS" then
          try* id := getattr doc_id in
          Py.Return (Some ("https://www.rfc-editor.org/rfc/" +:+ lower id +:+ ".ps"))
        else if String.eqb required_format "PDF" then
          try* id := getattr doc_id in
          Py.Return (Some ("https://www.rfc-editor.org/rfc/" +:+ lower id +:+ ".pdf"))
        else Py.Return None
      else content_url_from doc_id formats' required_format
  end.

Definition content_url (self : t) (required_format : string)
    : Py.Result (option string) :=
  content_url_from (doc_id self) (formats self) required_format.

End RfcEntry.

Module RfcNotIssuedEntry.

Record t : Type := mk { doc_id : option string }.

Definition __init__ (rfc_not_issued_element : ET.Element) : Py.Result t :=
  for_in (fun elem self =>
            if String.eqb (ET.tag elem) "{http://www.rfc-editor.org/rfc-index}doc-id"
            then try* t := assert_text elem in Py.Return {| doc_id := Some t |}
            else Py.Raise Py.NotImplementedError)
         (ET.children rfc_not_issued_element) {| doc_id := None |}.

End RfcNotIssuedEntry.

Module BcpEntry.

Record t : Type := mk { doc_id : option string; is_also : list string }.

Definition __init__ (bcp_element : ET.Element) : Py.Result t :=
  for_in (fun elem self =>
            if String.eqb (ET.tag elem) "{http://www.rfc-editor.org/rfc-index}doc-id"
            then try* t := assert_text elem in
                 Py.Return {| doc_id := Some t; is_also := is_also self |}
            else if String.eqb (ET.tag elem) "{http://www.rfc-editor.org/rfc-index}is-also"
            then try* l := append_doc_ids elem (is_also self) in
                 Py.Return {| doc_id := doc_id self; is_also := l |}
            else Py.Raise Py.NotImplementedError)
         (ET.children bcp_element) {| doc_id := None; is_also := [] |}.

End BcpEntry.

Module StdEntry.

Record t : Type := mk {
  doc_id : option string;
  title : option string;
  is_also : list string
}.

Definition __init__ (std_element : ET.Element) : Py.Result t :=
  for_in (fun elem self =>
            try* t := assert_text elem in
            if String.eqb (ET.tag elem) "{http://www.rfc-editor.org/rfc-index}doc-id"
            then Py.Return {| doc_id := Some t; title := title self;
                              is_also := is_also self |}
            else if String.eqb (ET.tag elem) "{http://www.rfc-editor.org/rfc-index}title"
            then Py.Return {| doc_id := doc_id self; title := Some t;
                              is_also := is_also self |}
            else if String.eqb (ET.tag elem) "{http://www.rfc-editor.org/rfc-index}is-also"
            then try* l := append_doc_ids elem (is_also self) in
                 Py.Return {| doc_id := doc_id self; title := title self;
                              is_also := l |}
            else Py.Raise Py.NotImplementedError)
         (ET.children std_element)
         {| doc_id := None; title := None; is_also := [] |}.

End StdEntry.

Module FyiEntry.

Record t : Type := mk { doc_id : option string; is_also : list string }.

Definition __init__ (fyi_element : ET.Element) : Py.Result t :=
  for_in (fun elem self =>
            try* t := assert_text elem in
            if String.eqb (ET.tag elem) "{http://www.rfc-editor.org/rfc-index}doc-id"
            then Py.Return {| doc_id := Some t; is_also := is_also self |}
            else if String.eqb (ET.tag elem) "{http://www.rfc-editor.org/rfc-index}is-also"
            then try* l := append_doc_ids elem (is_also self) in
                 Py.Return {| doc_id := doc_id self; is_also := l |}
            else Py.Raise Py.NotImplementedError)
         (ET.children fyi_element) {| doc_id := None; is_also := [] |}.

End FyiEntry.

Module RFCIndex.

Record t : Type := mk {
  rfc            : gmap string RfcEntry.t;
  rfc_not_issued : gmap string RfcNotIssuedEntry.t;
  bcp            : gmap string BcpEntry.t;
  std            : gmap string StdEntry.t;
  fyi            : gmap string FyiEntry.t
}.

(** What [session.get] returned: the status and the text of the body. *)
Record Reply : Type := mkReply { status_code : Z; text : string }.

Definition empty : t :=
  {| rfc := ∅; rfc_not_issued := ∅; bcp := ∅; std := ∅; fyi := ∅ |}.

(** The request of [session.get(url, verify=True)]. *)
Definition index_request : Request :=
  mkRequest "https://www.rfc-editor.org/rfc-index.xml" ∅ [].

Section Init.

Variable py_int : string -> option Z.

(** One round of [for doc in ET.fromstring(response.text)]. *)
Definition document (doc : ET.Element) (self : t) : Py.Result t :=
  if String.eqb (ET.tag doc) "{http://www.rfc-editor.org/rfc-index}rfc-entry" then
    try* rfc_ := RfcEntry.__init__ py_int doc in
    try* id := getattr (RfcEntry.doc_id rfc_) in
    Py.Return {| rfc := <[id := rfc_]> (rfc self);
                 rfc_not_issued := rfc_not_issued self;
                 bcp := bcp self; std := std self; fyi := fyi self |}
  else if String.eqb (ET.tag doc) "{http://www.rfc-editor.org/rfc-index}rfc-not-issued-entry" then
    try* rne := RfcNotIssuedEntry.__init__ doc in
    try* id := getattr (RfcNotIssuedEntry.doc_id rne) in
    Py.Return {| rfc := rfc self;
                 rfc_not_issued := <[id := rne]> (rfc_not_issued self);
                 bcp := bcp self; std := std self; fyi := fyi self |}
  else if String.eqb (ET.tag doc) "{http://www.rfc-editor.org/rfc-index}bcp-entry" then
    try* bcp_ := BcpEntry.__init__ doc in
    try* id := getattr (BcpEntry.doc_id bcp_) in
    Py.Return {| rfc := rfc self; rfc_not_issued := rfc_not_issued self;
                 bcp := <[id := bcp_]> (bcp self);
                 std := std self; fyi := fyi self |}
  else if String.eqb (ET.tag doc) "{http://www.rfc-editor.org/rfc-index}std-entry" then
    try* std_ := StdEntry.__init__ doc in
    try* id := getattr (StdEntry.doc_id std_) in
    Py.Return {| rfc := rfc self; rfc_not_issued := rfc_not_issued self;
                 bcp := bcp self; std := <[id := std_]> (std self);
                 fyi := fyi self |}
  else if String.eqb (ET.tag doc) "{http://www.rfc-editor.org/rfc-index}fyi-entry" then
    try* fyi_ := FyiEntry.__init__ doc in
    try* id := getattr (FyiEntry.doc_id fyi_) in
    Py.Return {| rfc := rfc self; rfc_not_issued := rfc_not_issued self;
                 bcp := bcp self; std := std self;
                 fyi := <[id := fyi_]> (fyi self) |}
  else Py.Raise Py.NotImplementedError.

(** [RFCIndex()]: the events, oldest first, and the index built, or the
    exception that ended the construction. [response] is what the
    session returns for the request; [fromstring] is [ET.fromstring]. *)
Definition __init__ (response : Reply)
    (fromstring : string -> Py.Result ET.Element)
    : list Event * Py.Result t :=
  if negb (status_code response =? 200) then
    ([EGet index_request; EPrint "cannot fetch RFC index"], Py.Return empty)
  else
    ([EGet index_request; EClose],
     try* root := fromstring (text response) in
     for_in document (ET.children root) empty).

End Init.

End RFCIndex.

(** *** Reading the index *)

(** The texts of the children of the children of [elem] that have the tag
    [tagname], in document order. *)
Definition listed (tagname : string) (elem : ET.Element) : list string :=
  flat_map (fun c => if String.eqb (ET.tag c) tagname
                     then omap ET.text (ET.children c) else [])
           (ET.children elem).

(** The entries of the kind [tagname] among [docs], each with its
    identifier, in document order. *)
Definition entries {A : Type} (tagname : string)
    (parse : ET.Element -> Py.Result A) (id_of : A -> option string)
    (docs : list ET.Element) : list (string * A) :=
  flat_map (fun doc =>
              if String.eqb (ET.tag doc) tagname then
                match parse doc with
                | Py.Return a =>
                    match id_of a with
                    | Some id => [(id, a)]
                    | None => []
                    end
                | Py.Raise _ => []
                end
              else [])
           docs.

(** The last entry of a list that has the identifier [id]. *)
Definition last_entry {A : Type} (id : string) (l : list (string * A))
    : option A :=
  last (List.map snd (List.filter (fun p => String.eqb (fst p) id) l)).

(** The entries of each of the five kinds in the index. *)
Definition rfc_entries (py_int : string -> option Z)
    : list ET.Element -> list (string * RfcEntry.t) :=
  entries "{http://www.rfc-editor.org/rfc-index}rfc-entry"
          (RfcEntry.__init__ py_int) RfcEntry.doc_id.

Definition rne_entries : list ET.Element -> list (string * RfcNotIssuedEntry.t) :=
  entries "{http://www.rfc-editor.org/rfc-index}rfc-not-issued-entry"
          RfcNotIssuedEntry.__init__ RfcNotIssuedEntry.doc_id.

Definition bcp_entries : list ET.Element -> list (string * BcpEntry.t) :=
  entries "{http://www.rfc-editor.org/rfc-index}bcp-entry"
          BcpEntry.__init__ BcpEntry.doc_id.

Definition std_entries : list ET.Element -> list (string * StdEntry.t) :=
  entries "{http://www.rfc-editor.org/rfc-index}std-entry"
          StdEntry.__init__ StdEntry.doc_id.

Definition fyi_entries : list ET.Element -> list (string * FyiEntry.t) :=
  entries "{http://www.rfc-editor.org/rfc-index}fyi-entry"
          FyiEntry.__init__ FyiEntry.doc_id.

(** A table after the entries [l] were stored in it, one after the other. *)
Definition put_entries {A : Type} (l : list (string * A)) (m : gmap string A)
    : gmap string A :=
  fold_left (fun m p => <[fst p := snd p]> m) l m.

(** The extension [content_url] gives to the formats it knows. *)
Definition extensions : list (string * string) :=
  [("ASCII", ".txt"); ("PS", ".ps"); ("PDF", ".pdf")].

(** The text of the last child of [elem] that has the tag [tagname]. *)
Definition last_text (tagname : string) (elem : ET.Element) : option string :=
  last (omap ET.text
          (List.filter (fun c => String.eqb (ET.tag c) tagname)
                       (ET.children elem))).

(** [elem] lists documents: its children are [doc-id] elements with a
    text. *)
Definition lists_doc_ids (elem : ET.Element) : Prop :=
  Forall (fun inner =>
            ET.tag inner = "{http://www.rfc-editor.org/rfc-index}doc-id"
            /\ is_Some (ET.text inner))
         (ET.children elem).

(** A [bcp-entry] element that [BcpEntry] can read. *)
Definition bcp_readable (bcp_element : ET.Element) : Prop :=
  Forall (fun elem =>
            (ET.tag elem = "{http://www.rfc-editor.org/rfc-index}doc-id"
             /\ is_Some (ET.text elem))
            \/ (ET.tag elem = "{http://www.rfc-editor.org/rfc-index}is-also"
                /\ lists_doc_ids elem))
         (ET.children bcp_element).

Definition doc_id_element (id : string) : ET.Element :=
  ET.mkElement "{http://www.rfc-editor.org/rfc-index}doc-id" (Some id) [].

(** [<bcp-entry><doc-id>id</doc-id><is-also><doc-id>..</doc-id>..</is-also></bcp-entry>],
    written without white space. *)
Definition sample_bcp_entry (id : string) (rfcs : list string) : ET.Element :=
  ET.mkElement "{http://www.rfc-editor.org/rfc-index}bcp-entry" None
    [doc_id_element id;
     ET.mkElement "{http://www.rfc-editor.org/rfc-index}is-also" None
       (List.map doc_id_element rfcs)].

Definition sample_index_root : ET.Element :=
  ET.mkElement "{http://www.rfc-editor.org/rfc-index}rfc-index" None
    [sample_bcp_entry "BCP0009" ["RFC2026"];
     ET.mkElement "{http://www.rfc-editor.org/rfc-index}rfc-not-issued-entry" None
       [doc_id_element "RFC0014"];
     sample_bcp_entry "BCP0009" ["RFC2026"; "RFC5657"]].

(** The texts of the [name] children of the [author] children of [elem],
    in document order. *)
Definition author_names (elem : ET.Element) : list string :=
  flat_map (fun c =>
              if String.eqb (ET.tag c) "{http://www.rfc-editor.org/rfc-index}author"
              then omap ET.text
                     (List.filter
                        (fun i => String.eqb (ET.tag i)
                                    "{http://www.rfc-editor.org/rfc-index}name")
                        (ET.children c))
              else [])
           (ET.children elem).

(** The file format in force after the child [c] of an [rfc-entry], when
    it was [prev] before: that of the last [file-format] child of [c] if
    [c] is a [format] element and has one. *)
Definition file_format_after (prev : option string) (c : ET.Element)
    : option string :=
  if String.eqb (ET.tag c) "{http://www.rfc-editor.org/rfc-index}format" then
    match last_text "{http://www.rfc-editor.org/rfc-index}file-format" c with
    | Some t => Some t
    | None => prev
    end
  else prev.

(** The formats of an [rfc-entry] with the children [cs], read off the
    document: one for each [format] child, with the file format in force
    after it and the numbers in its last [char-count] and [page-count]
    children. *)
Fixpoint format_tuples (py_int : string -> option Z) (prev : option string)
    (cs : list ET.Element) : list (string * option Z * option Z) :=
  match cs with
  | [] => []
  | c :: cs' =>
      (if String.eqb (ET.tag c) "{http://www.rfc-editor.org/rfc-index}format" then
         match file_format_after prev c with
         | Some fmt =>
             [(fmt,
               last_text "{http://www.rfc-editor.org/rfc-index}char-count" c
                 ≫= py_int,
               last_text "{http://www.rfc-editor.org/rfc-index}page-count" c
                 ≫= py_int)]
         | None => []
         end
       else [])
      ++ format_tuples py_int (file_format_after prev c) cs'
  end.

Definition text_element (tagname text : string) : ET.Element :=
  ET.mkElement ("{http://www.rfc-editor.org/rfc-index}" +:+ tagname) (Some text) [].

Definition group_element (tagname : string) (children : list ET.Element)
    : ET.Element :=
  ET.mkElement ("{http://www.rfc-editor.org/rfc-index}" +:+ tagname) None children.

(** An [rfc-entry] whose second [format] has no [file-format]. *)
Definition sample_rfc_entry : ET.Element :=
  group_element "rfc-entry"
    [text_element "doc-id" "RFC3550";
     text_element "title" "RTP: A Transport Protocol for Real-Time Applications";
     group_element "author" [text_element "name" "H. Schulzrinne"];
     group_element "author" [text_element "name" "S. Casner";
                             text_element "title" "Editor"];
     group_element "date" [text_element "month" "July";
                           text_element "year" "2003"];
     group_element "format" [text_element "file-format" "ASCII";
                             text_element "char-count" "259985"];
     group_element "format" [text_element "page-count" "104"];
     group_element "keywords" [text_element "kw" "RTP";
                               group_element "kw" []];
     group_element "obsoletes" [text_element "doc-id" "RFC1889"];
     group_element "is-also" [text_element "doc-id" "STD0064"];
     text_element "current-status" "INTERNET STANDARD"].

(** [int] on the numbers of the sample. *)
Definition sample_int (s : string) : option Z :=
  if String.eqb s "2003" then Some 2003
  else if String.eqb s "259985" then Some 259985
  else if String.eqb s "104" then Some 104
  else None.

(** ** Collections consumed while they are fetched *)

(** [for x in self._retrieve_multi(...): body]. The generator is resumed
    only when [body] has run for the record it yielded, so the steps of
    [body] fall between the caching of one record and the decoding of the
    next, and an exception of [body] ends the fetch. The functions are
    those of the engine with [body] in the place of [yield]; [U] is what
    the loop yields in its turn. *)
Section Consumed.

Variable server : nat -> Request -> Response.
Context {T : Type} `{Resource T} {U : Type}.
Variable body : T -> Gen U unit.

Fixpoint for_objs_with (objs : list Json) : Gen U unit :=
  match objs with
  | [] => gret tt
  | obj_json :: objs' =>
      let+ obj := glift (pavlova_from_mapping obj_json) in
      let+ _ := glift (_cache_obj (resource_uri obj) obj_json) in
      let+ _ := body obj in
      for_objs_with objs'
  end.

Definition page_200_with (r : Response) : Gen U PyVal :=
  let+ meta := glift (let* j := json r in lift_res (subscript j "meta")) in
  let+ objs := glift (let* j := json r in lift_res (subscript j "objects")) in
  let+ next := glift (lift_res (subscript meta "next")) in
  let+ items := glift (lift_res (iter_json objs)) in
  let+ _ := for_objs_with items in
  gret (py_of_json next).

Fixpoint retry_loop_with (fuel : nat) (uri : string)
    (params : gmap string PyVal) (retry_time : float) : Gen U PyVal :=
  match fuel with
  | O => fun st => ([], OutOfFuel, st)
  | S fuel' =>
      let headers := [("user-agent", ua)] in
      let+ r := glift (session_get server (base_url +:+ uri) params headers) in
      if status_code r =? 200 then
        page_200_with r
      else if status_code r =? 500 then
        if (60 <? retry_time)%float then
          glift (multi_failed r)
        else
          let+ _ := glift session_close in
          let+ _ := glift (time_sleep retry_time) in
          retry_loop_with fuel' uri params (retry_time * 2)%float
      else
        glift (multi_failed r)
  end.

Fixpoint pages_loop_with (fuel : nat) (uri : PyVal)
    (params : gmap string PyVal) : Gen U unit :=
  match uri with
  | PNone => gret tt
  | _ =>
      match fuel with
      | O => fun st => ([], OutOfFuel, st)
      | S fuel' =>
          let+ _ := glift _rate_limit in
          match uri with
          | PStr s =>
              let+ next := retry_loop_with fuel s params 1.875%float in
              pages_loop_with fuel' next ∅
          | _ => glift (raise TypeError)
          end
      end
  end.

Definition _retrieve_multi_with (fuel : nat) (resource_uri : URI)
    : Gen U unit :=
  pages_loop_with fuel (PStr (uri resource_uri))
                  (<["limit" := PStr "100"]> (params resource_uri)).

End Consumed.

Section Standards.

Variable server : nat -> Request -> Response.
Context {Document : Type} `{Resource Document} `{Resource DocumentAlias}.

(** The body of the loops of [documents_from_bcp] and
    [documents_from_std]:
<<
    doc = self.document(alias.document)
    if doc is not None:
        yield doc
>> *)
Definition yield_document (alias : DocumentAlias) : Gen Document unit :=
  let+ doc := glift (document (Document:=Document) server (alias_document alias)) in
  match doc with
  | Some d => yield d
  | None => gret tt
  end.

Definition documents_from_bcp (fuel : nat) (bcp : string) : Gen Document unit :=
  if negb (startswith (lower bcp) "bcp") then glift (raise AssertionError)
  else
    match endpoint_url (document_aliases (Some (lower bcp))) with
    | Ok url =>
        _retrieve_multi_with (T:=DocumentAlias) server yield_document fuel url
    | Raise x => glift (raise x)
    | OutOfFuel => fun st => ([], OutOfFuel, st)
    end.

Definition documents_from_std (fuel : nat) (std : string) : Gen Document unit :=
  if negb (startswith (lower std) "std") then glift (raise AssertionError)
  else
    match endpoint_url (document_aliases (Some (lower std))) with
    | Ok url =>
        _retrieve_multi_with (T:=DocumentAlias) server yield_document fuel url
    | Raise x => glift (raise x)
    | OutOfFuel => fun st => ([], OutOfFuel, st)
    end.

End Standards.

(** The identifier of the aliases of [name]. *)
Definition alias_query (name : string) : URI :=
  {| cls := DocumentAliasURI; uri := "/api/v1/doc/docalias/";
     params := {["name" := PStr name]} |}.

(** The service answers the request for a document, whenever it is sent,
    with the record [found], or with 404 when there is none. *)
Definition answers {Document : Type} `{Resource Document}
    (server : nat -> Request -> Response) (document_uri : URI)
    (found : option Document) : Prop :=
  forall n,
    let r := server n (single_request document_uri) in
    match found with
    | Some d => status_code r = 200
                /\ exists j, body r = Some j /\ from_mapping j = Some d
    | None => status_code r = 404
    end.

(** The requests of a loop over a collection served in pages whose body
    sends the requests [reqs x] for the record [x]: those of each page
    follow the request for the page. *)
Definition interleaved {T : Type} (u : URI) (next_ptr : nat -> string)
    (records : list T) (reqs : T -> list Request) (pages : list nat)
    : list Request :=
  flat_map (fun k => request_of_page u next_ptr k
                     :: flat_map reqs (take 100 (drop (100 * k) records)))
           pages.

(** A service that knows two aliases of bcp9, the document behind the
    first but not the one behind the second. *)
Definition bcp9_aliases : list Json :=
  [JDict [("id", JInt 1); ("resource_uri", JStr "/api/v1/doc/docalias/1/");
          ("document", JStr "/api/v1/doc/document/rfc2026/");
          ("name", JStr "bcp9")];
   JDict [("id", JInt 2); ("resource_uri", JStr "/api/v1/doc/docalias/2/");
          ("document", JStr "/api/v1/doc/document/rfc5657/");
          ("name", JStr "bcp9")]].

Definition rfc2026_document : Json :=
  JDict [("id", JInt 2026); ("name", JStr "rfc2026");
         ("resource_uri", JStr "/api/v1/doc/document/rfc2026/")].

Definition bcp9_server (n : nat) (rq : Request) : Response :=
  if bool_decide (rq = first_page_request (alias_query "bcp9")) then
    mkResponse 200 (Some (envelope JNull bcp9_aliases))
  else if bool_decide
            (rq = single_request
                    {| cls := DocumentURI; uri := "/api/v1/doc/document/rfc2026/";
                       params := ∅ |}) then
    mkResponse 200 (Some rfc2026_document)
  else mkResponse 404 None.

(** A [std-entry] element that [StdEntry] can read. *)
Definition std_readable (std_element : ET.Element) : Prop :=
  Forall (fun elem =>
            is_Some (ET.text elem)
            /\ (ET.tag elem = "{http://www.rfc-editor.org/rfc-index}doc-id"
                \/ ET.tag elem = "{http://www.rfc-editor.org/rfc-index}title"
                \/ (ET.tag elem = "{http://www.rfc-editor.org/rfc-index}is-also"
                    /\ lists_doc_ids elem)))
         (ET.children std_element).

Definition meeting_type_uri_of (slug : string) : URI :=
  {| cls := MeetingTypeURI;
     uri := "/api/v1/name/meetingtypename/" +:+ slug +:+ "/"; params := ∅ |}.

(** * Properties *)

(** ** Strings *)

Lemma append_cons (c : ascii) (s t : string) :
  String c s +:+ t = String c (s +:+ t).
Proof. reflexivity. Qed.

Lemma append_nil_l (t : string) : "" +:+ t = t.
Proof. reflexivity. Qed.

Lemma startswith_iff (s p : string) :
  startswith s p = true <-> exists rest, s = p +:+ rest.
Proof.
  unfold startswith. revert s.
  induction p as [|c p IH]; intros s.
  - split; [intros _; exists s; reflexivity | intros _; destruct s; reflexivity].
  - destruct s as [|d s]; simpl.
    + split; [discriminate | intros [rest Hr]; discriminate].
    + destruct (ascii_dec c d) as [->|Hne].
      * rewrite IH. split; intros [rest Hr]; exists rest;
          rewrite append_cons in *; congruence.
      * split; [discriminate | intros [rest Hr]; rewrite append_cons in Hr; congruence].
Qed.

Lemma substring_all (s : string) : substring 0 (String.length s) s = s.
Proof. induction s as [|c s IH]; simpl; congruence. Qed.

Lemma substring_drop_last (s : string) (c : ascii) :
  substring 0 (String.length s) (s +:+ String c EmptyString) = s.
Proof.
  induction s as [|d s IH]; [reflexivity|].
  rewrite append_cons. simpl. congruence.
Qed.

Lemma length_append (s t : string) :
  String.length (s +:+ t) = (String.length s + String.length t)%nat.
Proof.
  induction s as [|c s IH]; [reflexivity|].
  rewrite append_cons. simpl. congruence.
Qed.

Lemma slice_1_m1_slashes (s : string) : slice_1_m1 ("/" +:+ s +:+ "/") = s.
Proof.
  unfold slice_1_m1. rewrite append_cons, append_nil_l.
  cbn [String.length substring]. rewrite length_append.
  replace (S (String.length s + String.length "/") - 2)%nat
    with (String.length s) by (simpl; lia).
  apply substring_drop_last.
Qed.

Lemma slice_1_m1_ends (a b : ascii) (s : string) :
  slice_1_m1 (String a (s +:+ String b "")) = s.
Proof.
  unfold slice_1_m1. cbn [String.length substring]. rewrite length_append.
  replace (S (String.length s + String.length (String b "")) - 2)%nat
    with (String.length s) by (simpl; lia).
  apply substring_drop_last.
Qed.

Lemma ends_with_slash_snoc (s : string) : ends_with_slash (s +:+ "/") = true.
Proof.
  induction s as [|c s IH]; [reflexivity|].
  rewrite append_cons. simpl.
  destruct (s +:+ "/") eqn:E; [destruct s; discriminate | exact IH].
Qed.

Lemma spec_strip_slashes_slashes (s : string) :
  spec_strip_slashes ("/" +:+ s +:+ "/") = s.
Proof.
  unfold spec_strip_slashes. rewrite append_cons, append_nil_l.
  cbn [startswith String.prefix String.length substring].
  destruct (ascii_dec "/" "/") as [_|Hne]; [|congruence].
  replace (String.prefix "" (s +:+ "/")) with true
    by (destruct (s +:+ "/"); reflexivity).
  replace (S (String.length (s +:+ "/")) - 1)%nat
    with (String.length (s +:+ "/")) by lia.
  rewrite substring_all, ends_with_slash_snoc, length_append.
  replace (String.length s + String.length "/" - 1)%nat
    with (String.length s) by (simpl; lia).
  apply substring_drop_last.
Qed.

(** ** Resource identifiers *)

Lemma post_init_declared (c : URIClass) (path : string) :
  c <> URI_ ->
  __post_init__ c path = existsb (startswith path) (declared_prefixes c).
Proof.
  intros Hc. destruct c; try congruence; simpl;
    rewrite ?orb_false_r; reflexivity.
Qed.

(** C7. Constructing an identifier of a subclass of [URI] that is
    declared with [@dataclass] raises (the [assert] of [__post_init__])
    when the path starts with none of the prefixes its class declares,
    and succeeds when it starts with one of them; the identifier then
    carries the class, the path and the parameters it was given,
    unchanged. [DocumentAuthorURI] is declared without the decorator:
    its [__post_init__], which asserts the prefix
    [/api/v1/doc/documentauthor/], is never run, and the construction
    succeeds for every path. *)
Theorem construct_checks_prefix (c : URIClass) (path : string)
    (ps : gmap string PyVal) (Htyped : c <> URI_) :
  (c <> DocumentAuthorURI ->
   ((forall p rest, In p (declared_prefixes c) -> path <> p +:+ rest) ->
      construct c path ps = Raise AssertionError)
   /\ (forall p rest, In p (declared_prefixes c) -> path = p +:+ rest ->
         exists u, construct c path ps = Ok u
                   /\ cls u = c /\ uri u = path /\ params u = ps))
  /\ (c = DocumentAuthorURI ->
      construct c path ps = Ok {| cls := c; uri := path; params := ps |}
      /\ (__post_init__ c path = true
          <-> exists rest, path = "/api/v1/doc/documentauthor/" +:+ rest)).
Proof.
  split.
  - intros Hdeco.
    assert (Hd : dataclass c = true) by (destruct c; try reflexivity; congruence).
    unfold construct. rewrite Hd, (post_init_declared c path Htyped).
    cbn [andb]. split.
    + intros Hno.
      destruct (existsb (startswith path) (declared_prefixes c)) eqn:E;
        [|reflexivity].
      apply existsb_exists in E as (p & Hin & Hp).
      apply startswith_iff in Hp as [rest Hr].
      exfalso. exact (Hno p rest Hin Hr).
    + intros p rest Hin Hp.
      assert (E : existsb (startswith path) (declared_prefixes c) = true).
      { apply existsb_exists. exists p. split; [exact Hin|].
        apply startswith_iff. exists rest. exact Hp. }
      rewrite E. eexists. repeat split.
  - intros ->. split; [reflexivity|].
    cbn [__post_init__]. apply startswith_iff.
Qed.

(** [DocumentAuthorURI("/api/v1/group/group/1/")] is accepted, although
    the path fails the assertion of the class, where
    [DocumentURI("/api/v1/group/group/1/")] raises. *)
Lemma construct_checks_prefix_witness :
  construct DocumentAuthorURI "/api/v1/group/group/1/" ∅
  = Ok {| cls := DocumentAuthorURI; uri := "/api/v1/group/group/1/";
          params := ∅ |}
  /\ __post_init__ DocumentAuthorURI "/api/v1/group/group/1/" = false
  /\ construct DocumentURI "/api/v1/group/group/1/" ∅ = Raise AssertionError.
Proof.
  split; [|split].
  - apply (proj2 (construct_checks_prefix DocumentAuthorURI
                    "/api/v1/group/group/1/" ∅ ltac:(discriminate)) eq_refl).
  - reflexivity.
  - apply (proj1 (construct_checks_prefix DocumentURI "/api/v1/group/group/1/" ∅
                    ltac:(discriminate)) ltac:(discriminate)).
    intros p rest [<-|[]]. discriminate.
Defined.

(** ** The cache *)

Lemma cache_filepath_eval (st : State) (d : Path) (u : URI) :
  cache_dir st = Some d -> _cache_filepath u st = (Ok (cache_path d u), st).
Proof. intros Hd. unfold _cache_filepath, bind, gets. rewrite Hd. reflexivity. Qed.

Lemma obj_is_cached_eval (st : State) (d : Path) (u : URI) :
  cache_dir st = Some d ->
  _obj_is_cached u st = (Ok (bool_decide (is_Some (files st !! cache_path d u))), st).
Proof.
  intros Hd. unfold _obj_is_cached, bind, gets. rewrite Hd.
  rewrite (cache_filepath_eval st d u Hd). reflexivity.
Qed.

Lemma obj_is_cached_disabled (st : State) (u : URI) :
  cache_dir st = None -> _obj_is_cached u st = (Ok false, st).
Proof. intros Hd. unfold _obj_is_cached, bind, gets. rewrite Hd. reflexivity. Qed.

Lemma cache_obj_eval (st : State) (d : Path) (u : URI) (j : Json) :
  cache_dir st = Some d ->
  _cache_obj u j st = write_file (cache_path d u) j st.
Proof.
  intros Hd. unfold _cache_obj, bind, gets.
  destruct (cache_dir st) as [d'|] eqn:E; [|discriminate].
  injection Hd as ->. rewrite (cache_filepath_eval st d u E). reflexivity.
Qed.

Lemma cache_obj_disabled (st : State) (u : URI) (j : Json) :
  cache_dir st = None -> _cache_obj u j st = (Ok tt, st).
Proof. intros Hd. unfold _cache_obj, bind, gets. rewrite Hd. reflexivity. Qed.

(** The cache file of a document identifier written without the final
    slash: the code drops the last character of the name, the
    specification's wording keeps it. *)
Lemma cache_filepath_drops_last_char :
  let u := {| cls := DocumentURI; uri := "/api/v1/doc/document/rfc3550";
              params := ∅ |} in
  let cache := Path_of_string "cache" in
  construct DocumentURI "/api/v1/doc/document/rfc3550" ∅ = Ok u
  /\ fst (_cache_filepath u (DataTracker (Some cache) ∅))
     = Ok {| anchored := false;
             parts := ["cache"; "api"; "v1"; "doc"; "document"; "rfc355.json"] |}
  /\ spec_cache_filepath cache u
     = {| anchored := false;
          parts := ["cache"; "api"; "v1"; "doc"; "document"; "rfc3550.json"] |}
  /\ fst (_cache_filepath u (DataTracker (Some cache) ∅))
     <> Ok (spec_cache_filepath cache u).
Proof. repeat split. discriminate. Qed.

(** C8. With caching enabled, the cache file of an identifier is
    [Path(cache_dir, uri[1:-1] + ".json")]. It depends on the path alone,
    so identifiers of any class and with any parameters that share a
    path share the file; and for a path written between two slashes it is
    the cache root joined with the path stripped of these slashes, plus
    [.json], as the specification has it. But the slice drops the first
    and the last character without looking at them: for a path that does
    not end with a slash the last character of the name is lost, and two
    paths that differ in their last character only share one cache
    file. *)
Theorem cache_filepath_from_path_alone (st : State) (d : Path) (u : URI)
    (Hd : cache_dir st = Some d) :
  fst (_cache_filepath u st) = Ok (Path_join d (slice_1_m1 (uri u) +:+ ".json"))
  /\ (forall u', uri u' = uri u -> _cache_filepath u' st = _cache_filepath u st)
  /\ (forall s, uri u = "/" +:+ s +:+ "/" ->
        fst (_cache_filepath u st) = Ok (spec_cache_filepath d u)
        /\ spec_cache_filepath d u = Path_join d (s +:+ ".json"))
  /\ (forall s a b u',
        uri u = "/" +:+ s +:+ String a "" ->
        uri u' = "/" +:+ s +:+ String b "" ->
        fst (_cache_filepath u st) = Ok (Path_join d (s +:+ ".json"))
        /\ _cache_filepath u' st = _cache_filepath u st).
Proof.
  rewrite (cache_filepath_eval st d u Hd).
  split; [reflexivity|]. split; [|split].
  - intros u' Hu. rewrite (cache_filepath_eval st d u' Hd).
    unfold cache_path. rewrite Hu. reflexivity.
  - intros s Hs. unfold cache_path, spec_cache_filepath. rewrite Hs.
    rewrite slice_1_m1_slashes, spec_strip_slashes_slashes.
    split; reflexivity.
  - intros s a b u' Hu Hu'. rewrite (cache_filepath_eval st d u' Hd).
    unfold cache_path. rewrite Hu, Hu', !append_cons, !append_nil_l.
    rewrite !slice_1_m1_ends. split; reflexivity.
Qed.

(** The documents [/api/v1/doc/document/rfc3550] and
    [/api/v1/doc/document/rfc3551], both accepted by [DocumentURI], have
    the cache file [rfc355.json], where the specification has
    [rfc3550.json] and [rfc3551.json]: once the first is cached, fetching
    the second returns the record of the first and sends nothing. *)
Lemma cache_filepath_from_path_alone_witness :
  let cache := Path_of_string "cache" in
  let st := DataTracker (Some cache) ∅ in
  let first := _retrieve (H:=raw_record) rfc355x_server rfc3550_no_slash st in
  let second := _retrieve (H:=raw_record) rfc355x_server rfc3551_no_slash
                          (snd first) in
  construct DocumentURI "/api/v1/doc/document/rfc3550" ∅ = Ok rfc3550_no_slash
  /\ construct DocumentURI "/api/v1/doc/document/rfc3551" ∅ = Ok rfc3551_no_slash
  /\ fst (_cache_filepath rfc3550_no_slash st)
     = Ok {| anchored := false;
             parts := ["cache"; "api"; "v1"; "doc"; "document"; "rfc355.json"] |}
  /\ _cache_filepath rfc3551_no_slash st = _cache_filepath rfc3550_no_slash st
  /\ spec_cache_filepath cache rfc3550_no_slash
     <> spec_cache_filepath cache rfc3551_no_slash
  /\ fst first = Ok (Some rfc3550_record)
  /\ fst second = Ok (Some rfc3550_record)
  /\ sent (snd second) = 1%nat.
Proof.
  intros cache st first second.
  destruct (cache_filepath_from_path_alone st cache rfc3550_no_slash eq_refl)
    as (_ & _ & _ & Hchop).
  destruct (Hchop "api/v1/doc/document/rfc355" "0"%char "1"%char
              rfc3551_no_slash eq_refl eq_refl) as [Hfile Hsame].
  refine (conj eq_refl (conj eq_refl (conj _ (conj Hsame (conj _ _))))).
  - eapply eq_trans; [exact Hfile|]. reflexivity.
  - vm_compute. discriminate.
  - refine (conj _ (conj _ _)); vm_compute; reflexivity.
Defined.

(** ** The single-record fetch *)

Lemma requests_app (l l' : list Event) :
  requests (l ++ l') = requests l ++ requests l'.
Proof.
  induction l as [|e l IH]; [reflexivity|].
  destruct e; simpl; rewrite IH; reflexivity.
Qed.

Lemma rate_limit_eval (st : State) : _rate_limit st = (Ok tt, counted st).
Proof.
  unfold counted, _rate_limit. simpl.
  destruct ((http_req st + 1) mod 100 =? 0); reflexivity.
Qed.

Lemma counted_fields (st : State) :
  http_req (counted st) = http_req st + 1
  /\ cache_dir (counted st) = cache_dir st
  /\ files (counted st) = files st
  /\ sent (counted st) = sent st
  /\ trace (counted st)
     = trace st ++ (if (http_req st + 1) mod 100 =? 0 then [EClose] else []).
Proof.
  unfold counted, _rate_limit. simpl.
  destruct ((http_req st + 1) mod 100 =? 0); simpl;
    rewrite ?app_nil_r; repeat split; reflexivity.
Qed.

Lemma obj_is_cached_state (u : URI) (st : State) : snd (_obj_is_cached u st) = st.
Proof.
  destruct (cache_dir st) as [d|] eqn:Hd.
  - rewrite (obj_is_cached_eval st d u Hd). reflexivity.
  - rewrite (obj_is_cached_disabled st u Hd). reflexivity.
Qed.

Lemma cache_obj_ok (u : URI) (j : Json) (st : State) :
  fst (_cache_obj u j st) = Ok tt
  /\ http_req (snd (_cache_obj u j st)) = http_req st
  /\ cache_dir (snd (_cache_obj u j st)) = cache_dir st
  /\ sent (snd (_cache_obj u j st)) = sent st
  /\ trace (snd (_cache_obj u j st)) = trace st.
Proof.
  destruct (cache_dir st) as [d|] eqn:Hd.
  - rewrite (cache_obj_eval st d u j Hd). simpl. rewrite Hd.
    repeat split; reflexivity.
  - rewrite (cache_obj_disabled st u j Hd). simpl. rewrite ?Hd.
    repeat split; reflexivity.
Qed.

Section Single.

Variable server : nat -> Request -> Response.
Context {T : Type} `{Resource T}.

Lemma session_get_eval (url : string) (ps : gmap string PyVal)
    (hs : list (string * string)) (st : State) :
  session_get server url ps hs st
  = (Ok (server (sent st) (mkRequest url ps hs)),
     with_get (mkRequest url ps hs) st).
Proof. reflexivity. Qed.

(** What [_retrieve] does when the cache does not hold the identifier. *)
Lemma retrieve_uncached_eval (u : URI) (st : State) :
  fst (_obj_is_cached u st) = Ok false ->
  _retrieve (T:=T) server u st =
    let r := server (sent st) (single_request u) in
    let st2 := with_get (single_request u) (counted st) in
    if status_code r =? 200 then
      match body r with
      | None => (Raise ValueError, st2)
      | Some j =>
          match from_mapping j with
          | Some obj => (Ok (Some obj), snd (_cache_obj u j st2))
          | None => (Raise PavlovaParsingError, snd (_cache_obj u j st2))
          end
      end
    else if status_code r =? 404 then (Ok None, st2)
    else (Raise (SystemExit 1),
          with_events [EPrint (retrieve_failed (status_code r) u)] st2).
Proof.
  intros Hnet. unfold _retrieve. unfold bind at 1.
  pose proof (obj_is_cached_state u st) as Hst.
  destruct (_obj_is_cached u st) as [c st0]. simpl in Hnet, Hst. subst c st0.
  unfold bind at 1. rewrite rate_limit_eval.
  destruct (counted_fields st) as (_ & _ & _ & Hsent & _).
  unfold bind at 1. rewrite session_get_eval, Hsent.
  fold (single_request u). cbv zeta.
  destruct (status_code (server (sent st) (single_request u)) =? 200).
  - unfold bind, json.
    destruct (body (server (sent st) (single_request u))) as [j|]; [|reflexivity].
    unfold ret at 1.
    pose proof (cache_obj_ok u j (with_get (single_request u) (counted st)))
      as (Hok & _).
    destruct (_cache_obj u j _) as [[[]| |] st3]; simpl in Hok; try discriminate.
    unfold pavlova_from_mapping. destruct (from_mapping j); reflexivity.
  - destruct (status_code (server (sent st) (single_request u)) =? 404);
      reflexivity.
Qed.

(** What [_retrieve] does when the cache holds the identifier: nothing but
    reading the file. *)
Lemma retrieve_cached_eval (u : URI) (st : State) (d : Path) (j : Json) :
  cache_dir st = Some d ->
  files st !! cache_path d u = Some j ->
  _retrieve (T:=T) server u st =
    (match from_mapping j with
     | Some obj => Ok (Some obj)
     | None => Raise PavlovaParsingError
     end, st).
Proof.
  intros Hd Hj. unfold _retrieve. unfold bind at 1.
  rewrite (obj_is_cached_eval st d u Hd), Hj.
  rewrite bool_decide_eq_true_2 by (eexists; reflexivity).
  unfold _retrieve_from_cache, bind, gets.
  rewrite (cache_filepath_eval st d u Hd), Hj.
  unfold ret at 1. unfold pavlova_from_mapping.
  destruct (from_mapping j); reflexivity.
Qed.

Lemma retrieve_uncached_requests (u : URI) (st : State) :
  fst (_obj_is_cached u st) = Ok false ->
  let st' := snd (_retrieve (T:=T) server u st) in
  http_req st' = http_req st + 1
  /\ sent st' = S (sent st)
  /\ exists rest,
       trace st' = trace st
                   ++ (if (http_req st + 1) mod 100 =? 0 then [EClose] else [])
                   ++ [EGet (single_request u)] ++ rest
       /\ requests rest = [].
Proof.
  intros Hnet. rewrite (retrieve_uncached_eval u st Hnet). cbv zeta.
  destruct (counted_fields st) as (Hreq & _ & _ & Hsent & Htr).
  set (st2 := with_get (single_request u) (counted st)).
  assert (Hst2 : http_req st2 = http_req st + 1 /\ sent st2 = S (sent st)
                 /\ trace st2 = trace st
                      ++ (if (http_req st + 1) mod 100 =? 0 then [EClose] else [])
                      ++ [EGet (single_request u)] ++ []).
  { unfold st2. simpl. rewrite Hreq, Hsent, Htr, <- app_assoc. auto. }
  destruct Hst2 as (H1 & H2 & H3). clearbody st2.
  destruct (status_code (server (sent st) (single_request u)) =? 200).
  - destruct (body (server (sent st) (single_request u))) as [j|].
    + destruct (cache_obj_ok u j st2) as (_ & Ha & _ & Hb & Hc).
      destruct (from_mapping j); simpl; rewrite Ha, Hb, Hc;
        (split; [exact H1 | split; [exact H2 | exists []; split; [exact H3 | reflexivity]]]).
    + simpl. split; [exact H1 | split; [exact H2 | exists []; split; [exact H3 | reflexivity]]].
  - destruct (status_code (server (sent st) (single_request u)) =? 404).
    + simpl. split; [exact H1 | split; [exact H2 | exists []; split; [exact H3 | reflexivity]]].
    + simpl. split; [exact H1 | split; [exact H2 |]].
      exists [EPrint (retrieve_failed (status_code (server (sent st) (single_request u))) u)].
      split; [|reflexivity]. rewrite H3, app_nil_r, <- !app_assoc. reflexivity.
Qed.

(** C9. When a single-record fetch reaches the network, a 404 response
    makes it return [None] without raising; a status other than 200 and
    404 makes it print the status code and the URL it asked for and exit;
    and whatever the status, it sends exactly one request: there is no
    retry. *)
Theorem retrieve_404_is_absence_no_retry (u : URI) (st : State)
    (Hnet : fst (_obj_is_cached u st) = Ok false) :
  let r := server (sent st) (single_request u) in
  let st2 := with_get (single_request u) (counted st) in
  (status_code r = 404 -> _retrieve (T:=T) server u st = (Ok None, st2))
  /\ (status_code r <> 200 -> status_code r <> 404 ->
        _retrieve (T:=T) server u st
        = (Raise (SystemExit 1),
           with_events [EPrint ("_retrieve failed: " +:+ pretty (status_code r)
                                +:+ " " +:+ (base_url +:+ uri u))] st2))
  /\ requests (trace (snd (_retrieve (T:=T) server u st)))
     = requests (trace st) ++ [single_request u].
Proof.
  cbv zeta. split; [|split].
  - intros H404. rewrite (retrieve_uncached_eval u st Hnet). cbv zeta.
    rewrite H404. reflexivity.
  - intros H200 H404. rewrite (retrieve_uncached_eval u st Hnet). cbv zeta.
    apply Z.eqb_neq in H200, H404. rewrite H200, H404. reflexivity.
  - destruct (retrieve_uncached_requests u st Hnet) as (_ & _ & rest & Htr & Hrest).
    rewrite Htr, !requests_app, Hrest.
    destruct ((http_req st + 1) mod 100 =? 0); simpl; rewrite ?app_nil_r; reflexivity.
Qed.

(** C3. With caching enabled and no cache file for the identifier yet, a
    fetch that is answered 200 with a JSON body sends exactly one request
    and leaves that body in the identifier's cache file; fetching the same
    identifier again changes nothing (no request, no event, counter as it
    was) and gives the same result as the first fetch. *)
Theorem retrieve_twice_one_request (u : URI) (st : State) (d : Path) (j : Json)
    (Hd : cache_dir st = Some d)
    (Hfresh : files st !! cache_path d u = None)
    (H200 : status_code (server (sent st) (single_request u)) = 200)
    (Hbody : body (server (sent st) (single_request u)) = Some j) :
  let first := _retrieve (T:=T) server u st in
  let second := _retrieve (T:=T) server u (snd first) in
  requests (trace (snd first)) = requests (trace st) ++ [single_request u]
  /\ sent (snd first) = S (sent st)
  /\ files (snd first) = <[cache_path d u := j]> (files st)
  /\ snd second = snd first
  /\ fst second = fst first
  /\ fst first = match from_mapping j with
                 | Some obj => Ok (Some obj)
                 | None => Raise PavlovaParsingError
                 end.
Proof.
  assert (Hnet : fst (_obj_is_cached u st) = Ok false).
  { rewrite (obj_is_cached_eval st d u Hd), Hfresh. reflexivity. }
  cbv zeta.
  destruct (retrieve_uncached_requests u st Hnet) as (_ & Hsent & rest & Htr & Hrest).
  assert (Hfirst : _retrieve (T:=T) server u st
                   = (match from_mapping j with
                      | Some obj => Ok (Some obj)
                      | None => Raise PavlovaParsingError
                      end,
                      snd (_cache_obj u j (with_get (single_request u) (counted st))))).
  { rewrite (retrieve_uncached_eval u st Hnet). cbv zeta.
    rewrite H200, Hbody. simpl. destruct (from_mapping j); reflexivity. }
  destruct (counted_fields st) as (_ & Hcd & Hfiles & _ & _).
  assert (Hd2 : cache_dir (with_get (single_request u) (counted st)) = Some d)
    by (simpl; congruence).
  assert (Hst1 : snd (_cache_obj u j (with_get (single_request u) (counted st)))
                 = snd (write_file (cache_path d u) j
                          (with_get (single_request u) (counted st))))
    by (rewrite (cache_obj_eval _ d u j Hd2); reflexivity).
  split; [|split; [exact Hsent|]].
  { rewrite Htr, !requests_app, Hrest.
    destruct ((http_req st + 1) mod 100 =? 0); simpl; rewrite ?app_nil_r; reflexivity. }
  rewrite Hfirst. cbn [fst snd]. rewrite Hst1.
  set (st1 := snd (write_file (cache_path d u) j
                     (with_get (single_request u) (counted st)))).
  assert (Hd1 : cache_dir st1 = Some d) by (unfold st1; simpl; congruence).
  assert (Hj1 : files st1 !! cache_path d u = Some j)
    by (unfold st1; simpl; apply lookup_insert_eq).
  rewrite (retrieve_cached_eval u st1 d j Hd1 Hj1). cbn [fst snd].
  repeat split. unfold st1. simpl. rewrite Hfiles. reflexivity.
Qed.

End Single.

Lemma retrieve_twice_one_request_witness :
  let server := server_500_then 0 (mkResponse 200 (Some sample_person)) in
  let st := DataTracker (Some (Path_of_string "cache")) ∅ in
  let first := _retrieve (H:=raw_record) server sample_person_uri st in
  let second := _retrieve (H:=raw_record) server sample_person_uri (snd first) in
  requests (trace (snd first)) = [single_request sample_person_uri]
  /\ sent (snd first) = 1%nat
  /\ files (snd first)
     = <[cache_path (Path_of_string "cache") sample_person_uri := sample_person]> ∅
  /\ snd second = snd first
  /\ fst second = fst first
  /\ fst first = Ok (Some sample_person).
Proof.
  exact (retrieve_twice_one_request
           (server_500_then 0 (mkResponse 200 (Some sample_person)))
           (H:=raw_record) sample_person_uri
           (DataTracker (Some (Path_of_string "cache")) ∅)
           (Path_of_string "cache") sample_person
           eq_refl eq_refl eq_refl eq_refl).
Defined.

Lemma retrieve_404_is_absence_no_retry_witness :
  _retrieve (H:=raw_record) server_404 sample_person_uri (DataTracker None ∅)
  = (Ok None,
     with_get (single_request sample_person_uri) (counted (DataTracker None ∅))).
Proof.
  apply (proj1 (retrieve_404_is_absence_no_retry (H:=raw_record) server_404
                  sample_person_uri (DataTracker None ∅) eq_refl)).
  reflexivity.
Defined.


(** ** The request counter and the cycling of the connection *)

Section Cycling.

Variable server : nat -> Request -> Response.
Context {T : Type} `{Resource T}.

Lemma obj_is_cached_true (u : URI) (st : State) :
  fst (_obj_is_cached u st) = Ok true ->
  exists d j, cache_dir st = Some d /\ files st !! cache_path d u = Some j.
Proof.
  destruct (cache_dir st) as [d|] eqn:Hd.
  - rewrite (obj_is_cached_eval st d u Hd). simpl. intros Hc.
    injection Hc as Hc. apply bool_decide_eq_true_1 in Hc as [j Hj].
    exists d, j. split; [reflexivity | exact Hj].
  - rewrite (obj_is_cached_disabled st u Hd). discriminate.
Qed.

Lemma fetch_each_uncached (uris : list URI) :
  forall st st',
    cache_dir st = None ->
    fetch_each (T:=T) server uris st = (Ok tt, st') ->
    trace st' = trace st ++ cycled_trace (http_req st) uris
    /\ http_req st' = http_req st + Z.of_nat (length uris).
Proof.
  induction uris as [|u uris IH]; intros st st' Hd Hrun.
  - injection Hrun as <-. simpl. rewrite app_nil_r, Z.add_0_r. auto.
  - cbn [fetch_each] in Hrun. unfold bind at 1 in Hrun.
    assert (Hnet : fst (_obj_is_cached u st) = Ok false)
      by (rewrite (obj_is_cached_disabled st u Hd); reflexivity).
    rewrite (retrieve_uncached_eval server u st Hnet) in Hrun. cbv zeta in Hrun.
    destruct (counted_fields st) as (Hreq & Hcd & _ & _ & Htr).
    set (st2 := with_get (single_request u) (counted st)) in *.
    assert (Hst2 : cache_dir st2 = None /\ http_req st2 = http_req st + 1
                   /\ trace st2 = trace st
                        ++ (if (http_req st + 1) mod 100 =? 0 then [EClose] else [])
                        ++ [EGet (single_request u)]).
    { unfold st2. simpl. rewrite Hcd, Hreq, Htr, <- app_assoc. auto. }
    destruct Hst2 as (Hd2 & Hreq2 & Htr2). clearbody st2.
    assert (Hcont : fetch_each (T:=T) server uris st2 = (Ok tt, st')).
    { destruct (status_code (server (sent st) (single_request u)) =? 200).
      - destruct (body (server (sent st) (single_request u))) as [j|];
          [|discriminate].
        rewrite (cache_obj_disabled st2 u j Hd2) in Hrun.
        destruct (from_mapping j); [exact Hrun | discriminate].
      - destruct (status_code (server (sent st) (single_request u)) =? 404);
          [exact Hrun | discriminate]. }
    destruct (IH st2 st' Hd2 Hcont) as (Htr' & Hreq').
    split.
    + rewrite Htr', Htr2, Hreq2. cbn [cycled_trace].
      rewrite <- !app_assoc. reflexivity.
    + rewrite Hreq', Hreq2. cbn [length]. lia.
Qed.

(** C4 (as the code has it). [_rate_limit] adds one to the counter and
    closes the session exactly when the new count is a multiple of 100. A
    single-record fetch that reaches the network calls it once and then
    sends one request, so the counter grows by one per such request and the
    session is closed right before the request that makes the count a
    multiple of 100 is sent: counted from a new engine, before request
    100, 200, ... and not between requests 100 and 101. A fetch answered
    from the cache leaves the state, and so the counter and the trace, as
    they were. *)
Theorem counter_and_connection_cycling (u : URI) (st : State) :
  (_rate_limit st = (Ok tt, counted st)
   /\ http_req (counted st) = http_req st + 1
   /\ sent (counted st) = sent st
   /\ trace (counted st)
      = trace st ++ (if (http_req st + 1) mod 100 =? 0 then [EClose] else []))
  /\ (fst (_obj_is_cached u st) = Ok false ->
        let st' := snd (_retrieve (T:=T) server u st) in
        http_req st' = http_req st + 1
        /\ sent st' = S (sent st)
        /\ exists rest,
             trace st' = trace st
                 ++ (if (http_req st + 1) mod 100 =? 0 then [EClose] else [])
                 ++ [EGet (single_request u)] ++ rest
             /\ requests rest = [])
  /\ (fst (_obj_is_cached u st) = Ok true ->
        snd (_retrieve (T:=T) server u st) = st)
  /\ (forall uris st',
        cache_dir st = None ->
        fetch_each (T:=T) server uris st = (Ok tt, st') ->
        trace st' = trace st ++ cycled_trace (http_req st) uris
        /\ http_req st' = http_req st + Z.of_nat (length uris)).
Proof.
  split; [|split; [|split]].
  - destruct (counted_fields st) as (H1 & _ & _ & H2 & H3).
    split; [apply rate_limit_eval | auto].
  - apply retrieve_uncached_requests.
  - intros Hc. destruct (obj_is_cached_true u st Hc) as (d & j & Hd & Hj).
    rewrite (retrieve_cached_eval server u st d j Hd Hj). reflexivity.
  - intros uris st'. apply fetch_each_uncached.
Qed.

End Cycling.

Lemma counter_and_connection_cycling_witness :
  let st := {| http_req := 99; cache_dir := None; files := ∅;
               sent := 99; trace := [] |} in
  let run := fetch_each (H:=raw_record) server_404 [sample_person_uri] st in
  trace (snd run) = [EClose; EGet (single_request sample_person_uri)]
  /\ http_req (snd run) = 100.
Proof.
  intros st run.
  exact (proj2 (proj2 (proj2
           (counter_and_connection_cycling server_404 (H:=raw_record)
              sample_person_uri st)))
           [sample_person_uri] (snd run) eq_refl eq_refl).
Defined.

(** A new engine, caching disabled, fetching 101 times: the session is
    closed after 99 requests, before the 100th is sent, and requests 100
    and 101 follow each other with no close between them. *)
Lemma connection_cycled_before_request_100 :
  let rq := single_request sample_person_uri in
  let run := fetch_each (H:=raw_record) server_404
               (replicate 101 sample_person_uri) (DataTracker None ∅) in
  fst run = Ok tt
  /\ trace (snd run) = replicate 99 (EGet rq) ++ [EClose] ++ replicate 2 (EGet rq)
  /\ trace (snd run) <> replicate 100 (EGet rq) ++ [EClose] ++ replicate 1 (EGet rq)
  /\ http_req (snd run) = 101.
Proof.
  intros rq run.
  assert (Htr : trace (snd run)
                = replicate 99 (EGet rq) ++ [EClose] ++ replicate 2 (EGet rq))
    by (vm_compute; reflexivity).
  split; [vm_compute; reflexivity|]. split; [exact Htr|]. split.
  - rewrite Htr. intros Heq.
    apply (f_equal (fun l => l !! 99%nat)) in Heq. vm_compute in Heq. discriminate.
  - vm_compute. reflexivity.
Qed.

(** ** The collection fetch: one page and its retries *)

Lemma gbind_glift {T A B : Type} (m : M A) (k : A -> Gen T B) (st : State) :
  gbind (glift m) k st =
    match m st with
    | (Ok a, st') => k a st'
    | (Raise e, st') => ([], Raise e, st')
    | (OutOfFuel, st') => ([], OutOfFuel, st')
    end.
Proof.
  unfold gbind, glift. destruct (m st) as [[a|e|] st']; try reflexivity.
  destruct (k a st') as [[zs r] st'']. reflexivity.
Qed.

Lemma after_retries_fields (rq : Request) (ts : list float) :
  forall st,
    http_req (after_retries rq ts st) = http_req st
    /\ cache_dir (after_retries rq ts st) = cache_dir st
    /\ files (after_retries rq ts st) = files st
    /\ sent (after_retries rq ts st) = (sent st + length ts)%nat
    /\ trace (after_retries rq ts st) = trace st ++ flat_map (retried rq) ts.
Proof.
  induction ts as [|t ts IH]; intros st; cbn [after_retries].
  - simpl. rewrite app_nil_r, Nat.add_0_r. auto.
  - destruct (IH (with_events [EClose; ESleep t] (with_get rq st)))
      as (H1 & H2 & H3 & H4 & H5).
    rewrite H1, H2, H3, H4, H5. simpl. rewrite <- !app_assoc.
    repeat split; try reflexivity. lia.
Qed.

Section Page.

Variable server : nat -> Request -> Response.
Context {T : Type} `{Resource T}.

Lemma multi_failed_eval (r : Response) (st : State) :
  multi_failed r st
  = (Raise (SystemExit 1),
     with_events [EPrint (retrieve_multi_failed (status_code r) (http_req st))] st).
Proof. reflexivity. Qed.

(** One turn of the [while retry] loop. *)
Lemma retry_loop_step (fuel : nat) (s : string) (ps : gmap string PyVal)
    (t : float) (st : State) :
  retry_loop (T:=T) server (S fuel) s ps t st =
    let rq := page_request s ps in
    let r := server (sent st) rq in
    let st1 := with_get rq st in
    if status_code r =? 200 then page_200 r st1
    else if status_code r =? 500 then
      if (60 <? t)%float then
        ([], Raise (SystemExit 1),
         with_events [EPrint (retrieve_multi_failed 500 (http_req st))] st1)
      else retry_loop (T:=T) server fuel s ps (t * 2)%float
                      (with_events [EClose; ESleep t] st1)
    else
      ([], Raise (SystemExit 1),
       with_events [EPrint (retrieve_multi_failed (status_code r) (http_req st))] st1).
Proof.
  cbn [retry_loop]. rewrite gbind_glift, session_get_eval.
  fold (page_request s ps). cbv zeta.
  destruct (status_code (server (sent st) (page_request s ps)) =? 200);
    [reflexivity|].
  destruct (status_code (server (sent st) (page_request s ps)) =? 500) eqn:E500.
  - apply Z.eqb_eq in E500.
    destruct (60 <? t)%float.
    + unfold glift. rewrite multi_failed_eval, E500. reflexivity.
    + rewrite gbind_glift. unfold session_close, log at 1.
      rewrite gbind_glift. unfold time_sleep, log at 1.
      unfold with_events, with_get. simpl. rewrite <- app_assoc. reflexivity.
  - unfold glift. rewrite multi_failed_eval. reflexivity.
Qed.

(** As long as the answers are 500 and the wait is at most 60 seconds, the
    loop closes the session, sleeps, doubles the wait and asks again. *)
Lemma retry_loop_retries (s : string) (ps : gmap string PyVal) (ts : list float) :
  forall (fuel : nat) (t : float) (st : State),
    waits_from t ts ->
    (forall j, (j < length ts)%nat ->
       status_code (server (sent st + j) (page_request s ps)) = 500) ->
    retry_loop (T:=T) server (length ts + fuel) s ps t st
    = retry_loop (T:=T) server fuel s ps (retry_time_after t ts)
                 (after_retries (page_request s ps) ts st).
Proof.
  induction ts as [|t' ts IH]; intros fuel t st Hw H500; [reflexivity|].
  destruct Hw as (-> & Hle & Hw).
  cbn [length Nat.add]. rewrite retry_loop_step. cbv zeta.
  pose proof (H500 0%nat ltac:(simpl; lia)) as H0.
  rewrite Nat.add_0_r in H0. rewrite H0, Hle. cbn [Z.eqb Pos.eqb].
  rewrite IH; [reflexivity | exact Hw |].
  intros j Hj. simpl.
  replace (S (sent st + j)) with (sent st + S j)%nat by lia.
  apply H500. simpl. lia.
Qed.

Lemma waits_from_backoffs (k : nat) :
  (k <= 6)%nat -> waits_from 1.875%float (take k backoffs).
Proof.
  intros Hk.
  do 7 (destruct k as [|k]; [cbn; repeat split; reflexivity|]). lia.
Qed.

Lemma length_take_backoffs (k : nat) :
  (k <= 6)%nat -> length (take k backoffs) = k.
Proof. intros Hk. rewrite length_take. simpl. lia. Qed.

(** The state in which the request after [k] retried attempts is
    answered. *)
Lemma retry_loop_after (k fuel : nat) (s : string) (ps : gmap string PyVal)
    (st : State) :
  (k <= 6)%nat -> (k < fuel)%nat ->
  (forall j, (j < k)%nat ->
     status_code (server (sent st + j) (page_request s ps)) = 500) ->
  exists fuel',
    retry_loop (T:=T) server fuel s ps 1.875%float st
    = retry_loop (T:=T) server (S fuel') s ps
        (retry_time_after 1.875%float (take k backoffs))
        (after_retries (page_request s ps) (take k backoffs) st)
    /\ sent (after_retries (page_request s ps) (take k backoffs) st)
       = (sent st + k)%nat.
Proof.
  intros Hk Hfuel H500. exists (fuel - k - 1)%nat. split.
  - replace fuel with (length (take k backoffs) + S (fuel - k - 1))%nat at 1
      by (rewrite length_take_backoffs; lia).
    apply retry_loop_retries; [apply waits_from_backoffs; exact Hk|].
    intros j Hj. apply H500. rewrite length_take_backoffs in Hj; lia.
  - destruct (after_retries_fields (page_request s ps) (take k backoffs) st)
      as (_ & _ & _ & Hs & _).
    rewrite Hs, length_take_backoffs; [reflexivity | exact Hk].
Qed.

Lemma requests_retried (rq : Request) (ts : list float) :
  requests (flat_map (retried rq) ts) = replicate (length ts) rq.
Proof.
  induction ts as [|t ts IH]; [reflexivity|]. simpl. rewrite IH. reflexivity.
Qed.

Lemma requests_counted (st : State) :
  requests (trace (counted st)) = requests (trace st).
Proof.
  destruct (counted_fields st) as (_ & _ & _ & _ & Htr).
  rewrite Htr, requests_app.
  destruct ((http_req st + 1) mod 100 =? 0); simpl; rewrite app_nil_r;
    reflexivity.
Qed.

(** [_retrieve_multi] starts with [_rate_limit] and the retry loop for the
    first page. *)
Lemma retrieve_multi_step (fuel : nat) (u : URI) (st : State) :
  _retrieve_multi (T:=T) server (S fuel) u st
  = (let+ next := retry_loop (T:=T) server (S fuel) (uri u)
                    (<["limit" := PStr "100"]> (params u)) 1.875%float in
     pages_loop (T:=T) server fuel next ∅) (counted st).
Proof.
  unfold _retrieve_multi. cbn [pages_loop].
  rewrite gbind_glift, rate_limit_eval. reflexivity.
Qed.

(** The state in which the attempt after the retried ones is answered:
    what was sent, and where the counter stands. *)
Lemma first_page_attempts (u : URI) (ts : list float) (st : State) :
  let rq := first_page_request u in
  let st_k := with_get rq (after_retries rq ts (counted st)) in
  trace st_k = trace (counted st) ++ flat_map (retried rq) ts ++ [EGet rq]
  /\ requests (trace st_k)
     = requests (trace st) ++ replicate (S (length ts)) rq
  /\ http_req st_k = http_req st + 1.
Proof.
  cbv zeta. set (rq := first_page_request u).
  destruct (counted_fields st) as (Hc & _).
  destruct (after_retries_fields rq ts (counted st)) as (Hreq & _ & _ & _ & Htr).
  unfold with_get. cbn [trace http_req]. rewrite Htr, Hreq, Hc, <- app_assoc.
  split; [reflexivity|]. split; [|reflexivity].
  rewrite !requests_app, requests_counted, requests_retried, replicate_S_end.
  reflexivity.
Qed.

(** C1. A collection fetch, [_retrieve_multi], asks for its first page
    with [limit] set to 100, after [_rate_limit] has counted one request.
    Each 500 answer closes the session, sleeps and doubles the wait, so
    that after [k] such answers the waits were the first [k] of 1.875,
    3.75, 7.5, 15, 30, 60 seconds and [k + 1] requests were sent; a 200
    answer is then processed; an answer that is neither 200 nor 500 ends
    the fetch with [sys.exit(1)] and no further request; and a seventh 500
    in a row, when the wait would be 120 seconds, does the same after
    seven requests. The line printed before the exit reports the counter
    [http_req], which [_rate_limit] advanced once for the page: the
    retried requests are not in it. *)
Theorem retry_backoff_sequence (fuel : nat) (u : URI) (st : State)
    (Hfuel : (7 <= fuel)%nat) :
  let rq := first_page_request u in
  (forall k, (k <= 6)%nat ->
     (forall j, (j < k)%nat -> status_code (server (sent st + j) rq) = 500) ->
     let r := server (sent st + k) rq in
     let st_k := with_get rq (after_retries rq (take k backoffs) (counted st)) in
     trace st_k
     = trace (counted st) ++ flat_map (retried rq) (take k backoffs) ++ [EGet rq]
     /\ requests (trace st_k) = requests (trace st) ++ replicate (S k) rq
     /\ (status_code r = 200 ->
           _retrieve_multi (T:=T) server fuel u st
           = (let+ next := page_200 (T:=T) r in
              pages_loop (T:=T) server (Nat.pred fuel) next ∅) st_k)
     /\ (status_code r <> 200 -> status_code r <> 500 ->
           _retrieve_multi (T:=T) server fuel u st
           = ([], Raise (SystemExit 1),
              with_events [EPrint ("_retrieve_multi failed: error "
                                   +:+ pretty (status_code r) +:+ " after "
                                   +:+ pretty (http_req st + 1) +:+ " requests")]
                          st_k)))
  /\ ((forall j, (j < 7)%nat -> status_code (server (sent st + j) rq) = 500) ->
      let st_7 := with_get rq (after_retries rq backoffs (counted st)) in
      trace st_7 = trace (counted st) ++ flat_map (retried rq) backoffs ++ [EGet rq]
      /\ requests (trace st_7) = requests (trace st) ++ replicate 7 rq
      /\ _retrieve_multi (T:=T) server fuel u st
         = ([], Raise (SystemExit 1),
            with_events [EPrint ("_retrieve_multi failed: error 500 after "
                                 +:+ pretty (http_req st + 1) +:+ " requests")]
                        st_7)).
Proof.
  destruct fuel as [|fuel]; [lia|]. cbv zeta. cbn [Nat.pred].
  set (ps := <["limit" := PStr "100"]> (params u)).
  destruct (counted_fields st) as (Hc & _ & _ & Hcs & _).
  split.
  - intros k Hk H500.
    destruct (first_page_attempts u (take k backoffs) st) as (Htr & Hrq & _).
    rewrite length_take_backoffs in Hrq by exact Hk.
    split; [exact Htr|]. split; [exact Hrq|].
    destruct (after_retries_fields (page_request (uri u) ps) (take k backoffs)
                (counted st)) as (Hreq & _ & _ & Hs & _).
    destruct (retry_loop_after k (S fuel) (uri u) ps (counted st) Hk ltac:(lia)
                ltac:(rewrite Hcs; exact H500))
      as (fuel' & Hrun & _).
    rewrite retrieve_multi_step. fold ps. unfold gbind.
    rewrite Hrun, retry_loop_step. cbv zeta.
    rewrite Hs, Hcs, length_take_backoffs by exact Hk.
    change (page_request (uri u) ps) with (first_page_request u) in *.
    split.
    + intros H200. rewrite H200. reflexivity.
    + intros H200 Hn500. apply Z.eqb_neq in H200, Hn500.
      rewrite H200, Hn500, Hreq, Hc. reflexivity.
  - intros H500.
    destruct (first_page_attempts u backoffs st) as (Htr & Hrq & _).
    split; [exact Htr|]. split; [exact Hrq|].
    destruct (after_retries_fields (page_request (uri u) ps) backoffs
                (counted st)) as (Hreq & _ & _ & Hs & _).
    destruct (retry_loop_after 6 (S fuel) (uri u) ps (counted st)
                ltac:(lia) ltac:(lia)
                ltac:(intros j Hj; rewrite Hcs; apply H500; lia))
      as (fuel' & Hrun & _).
    rewrite retrieve_multi_step. fold ps. unfold gbind.
    rewrite Hrun. change (take 6 backoffs) with backoffs.
    rewrite retry_loop_step. cbv zeta. rewrite Hs, Hcs.
    change (length backoffs) with 6%nat.
    change (page_request (uri u) ps) with (first_page_request u) in *.
    rewrite (H500 6%nat ltac:(lia)), Hreq, Hc. reflexivity.
Qed.

End Page.

(** Against a service that answers every request with 500, a new engine
    sends seven requests for the first page of the document aliases and
    exits with the line [after 1 requests]; against one that answers 404
    after two 500 answers, it sends three and prints the same count. *)
Lemma retry_backoff_sequence_witness :
  let u := {| cls := URI_; uri := "/api/v1/doc/docalias/"; params := ∅ |} in
  let rq := first_page_request u in
  let st := DataTracker None ∅ in
  let failing := server_500_then 7 (mkResponse 404 None) in
  let run := _retrieve_multi (H:=raw_record) failing 7 u st in
  let lost := server_500_then 2 (mkResponse 404 None) in
  let run' := _retrieve_multi (H:=raw_record) lost 7 u st in
  (run = ([], Raise (SystemExit 1),
          with_events [EPrint "_retrieve_multi failed: error 500 after 1 requests"]
            (with_get rq (after_retries rq backoffs (counted st))))
   /\ trace (snd run)
      = flat_map (retried rq) backoffs
        ++ [EGet rq;
            EPrint "_retrieve_multi failed: error 500 after 1 requests"]
   /\ requests (trace (snd run)) = replicate 7 rq)
  /\ (run' = ([], Raise (SystemExit 1),
              with_events
                [EPrint "_retrieve_multi failed: error 404 after 1 requests"]
                (with_get rq (after_retries rq [1.875; 3.75]%float (counted st))))
      /\ requests (trace (snd run')) = replicate 3 rq).
Proof.
  intros u rq st failing run lost run'.
  assert (H7 : forall j, (j < 7)%nat ->
                 status_code (failing (sent st + j)%nat rq) = 500)
    by (intros j Hj; do 7 (destruct j as [|j]; [reflexivity|]); lia).
  assert (H2 : forall j, (j < 2)%nat ->
                 status_code (lost (sent st + j)%nat rq) = 500)
    by (intros j Hj; do 2 (destruct j as [|j]; [reflexivity|]); lia).
  destruct (retry_backoff_sequence failing (H:=raw_record) 7 u st ltac:(lia))
    as [_ Hgive].
  destruct (Hgive H7) as (_ & _ & Hrun).
  destruct (retry_backoff_sequence lost (H:=raw_record) 7 u st ltac:(lia))
    as [Hk _].
  destruct (Hk 2%nat ltac:(lia) H2) as (_ & _ & _ & Hlost).
  specialize (Hlost ltac:(simpl; discriminate) ltac:(simpl; discriminate)).
  split.
  - split; [exact Hrun|]. unfold run. rewrite Hrun.
    split; vm_compute; reflexivity.
  - split; [exact Hlost|]. unfold run'. rewrite Hlost.
    vm_compute; reflexivity.
Defined.

(** ** The collection fetch: which requests it sends *)

Section Pages.

Variable server : nat -> Request -> Response.
Context {T : Type} `{Resource T}.




Lemma pages_loop_None (fuel : nat) (ps : gmap string PyVal) (st : State) :
  pages_loop (T:=T) server fuel PNone ps st = ([], Ok tt, st).
Proof. destruct fuel; reflexivity. Qed.






End Pages.

(** ** The collection fetch against a paginating service *)

Lemma n_pages_next (n k : nat) :
  (k < n_pages n)%nat ->
  ((100 * (k + 1) <? n)%nat = true <-> (S k < n_pages n)%nat).
Proof.
  unfold n_pages. intros Hk. rewrite Nat.ltb_lt.
  pose proof (Nat.div_mod_eq (n + 99) 100) as Hdiv.
  pose proof (Nat.mod_upper_bound (n + 99) 100 ltac:(lia)) as Hmod.
  lia.
Qed.

Section Pagination.

Variable server : nat -> Request -> Response.
Context {T : Type} `{Resource T}.

Lemma for_objs_decoded (objs : list Json) (os : list T) :
  Forall2 (fun j o => from_mapping j = Some o) objs os ->
  forall st, exists st',
    for_objs (T:=T) objs st = (os, Ok tt, st')
    /\ trace st' = trace st /\ sent st' = sent st.
Proof.
  induction 1 as [|j o objs os Hj Hrest IH]; intros st.
  - exists st. repeat split.
  - cbn [for_objs]. rewrite gbind_glift. unfold pavlova_from_mapping.
    rewrite Hj. unfold ret at 1. rewrite gbind_glift.
    destruct (cache_obj_ok (resource_uri o) j st) as (Hok & _ & _ & H3 & H4).
    destruct (_cache_obj (resource_uri o) j st) as [[[]| |] st1];
      simpl in Hok; try discriminate.
    simpl in H3, H4. destruct (IH st1) as (st' & Hrun & Htr & Hsent).
    exists st'. unfold gbind, yield. rewrite Hrun.
    repeat split; congruence.
Qed.

Variables (u : URI) (next_ptr : nat -> string).
Variables (items : list Json) (records : list T).

Hypothesis Hserver : paginates server u next_ptr items.
Hypothesis Hdecode : Forall2 (fun j o => from_mapping j = Some o) items records.

(** One page: the request is answered at once, the records of the page
    are yielded, and [resource_uri.uri] becomes the page's [meta.next]. *)
Lemma one_page (k fuel : nat) (st : State) :
  (k < n_pages (length items))%nat ->
  exists st',
    retry_loop (T:=T) server (S fuel) (uri_of_page u next_ptr k)
               (params_of_page u k) 1.875%float st
    = (take 100 (drop (100 * k) records),
       Ok (py_of_json (next_of_page (length items) next_ptr k)), st')
    /\ requests (trace st')
       = requests (trace st) ++ [request_of_page u next_ptr k]
    /\ sent st' = S (sent st).
Proof.
  intros Hk. rewrite retry_loop_step. cbv zeta.
  fold (request_of_page u next_ptr k).
  destruct (Hserver (sent st) k Hk) as (H200 & j & meta & Hj & Hmeta & Hnext & Hobjs).
  rewrite H200. cbn [Z.eqb Pos.eqb].
  set (st1 := with_get (request_of_page u next_ptr k) st).
  assert (Hdec : Forall2 (fun j o => from_mapping j = Some o)
                         (take 100 (drop (100 * k) items))
                         (take 100 (drop (100 * k) records)))
    by (apply Forall2_take, Forall2_drop, Hdecode).
  destruct (for_objs_decoded _ _ Hdec st1) as (st' & Hrun & Htr & Hsent).
  exists st'. split; [|split].
  - unfold page_200. rewrite gbind_glift. unfold bind, json, lift_res.
    rewrite Hj. unfold ret at 1. rewrite Hmeta.
    rewrite gbind_glift. unfold ret at 1. rewrite Hobjs.
    rewrite gbind_glift, Hnext, gbind_glift.
    cbn [iter_json]. unfold gbind. rewrite Hrun. unfold gret.
    rewrite app_nil_r. reflexivity.
  - rewrite Htr. unfold st1. simpl. rewrite requests_app. reflexivity.
  - rewrite Hsent. reflexivity.
Qed.

(** The pages from [k] on, [r] of them. *)
Lemma pages_from (r : nat) :
  forall (k fuel : nat) (st : State),
    (k + S r = n_pages (length items))%nat ->
    (S r <= fuel)%nat ->
    exists st',
      pages_loop (T:=T) server fuel (PStr (uri_of_page u next_ptr k))
                 (params_of_page u k) st
      = (drop (100 * k) records, Ok tt, st')
      /\ requests (trace st')
         = requests (trace st)
           ++ List.map (request_of_page u next_ptr) (seq k (S r))
      /\ sent st' = (sent st + S r)%nat.
Proof.
  pose proof (Forall2_length _ _ _ Hdecode) as Hlen.
  induction r as [|r IH]; intros k fuel st Hk Hfuel;
    (destruct fuel as [|fuel]; [lia|]);
    cbn [pages_loop]; rewrite gbind_glift, rate_limit_eval;
    destruct (counted_fields st) as (_ & _ & _ & Hsent0 & Htr0);
    assert (Hreq0 : requests (trace (counted st)) = requests (trace st))
      by (rewrite Htr0, requests_app;
          destruct ((http_req st + 1) mod 100 =? 0); simpl;
          rewrite app_nil_r; reflexivity);
    destruct (one_page k fuel (counted st) ltac:(lia))
      as (st1 & Hrun & Hreq1 & Hsent1);
    unfold gbind; rewrite Hrun.
  - assert (Hlast : (100 * (k + 1) <? length items)%nat = false).
    { destruct (100 * (k + 1) <? length items)%nat eqn:E; [|reflexivity].
      apply n_pages_next in E; lia. }
    unfold next_of_page. rewrite Hlast. cbn [py_of_json].
    rewrite pages_loop_None. exists st1. split; [|split].
    + rewrite app_nil_r. f_equal. f_equal. apply take_ge.
      apply Nat.ltb_ge in Hlast. rewrite length_drop. lia.
    + rewrite Hreq1, Hreq0. reflexivity.
    + rewrite Hsent1, Hsent0. lia.
  - assert (Hmore : (100 * (k + 1) <? length items)%nat = true)
      by (apply n_pages_next; lia).
    unfold next_of_page. rewrite Hmore. cbn [py_of_json].
    replace (k + 1)%nat with (S k) by lia.
    destruct (IH (S k) fuel st1 ltac:(lia) ltac:(lia))
      as (st' & Hrest & Hreq' & Hsent').
    change (next_ptr (S k)) with (uri_of_page u next_ptr (S k)).
    change (∅ : gmap string PyVal) with (params_of_page u (S k)).
    rewrite Hrest. exists st'. split; [|split].
    + f_equal. f_equal.
      rewrite <- (take_drop 100 (drop (100 * k) records)) at 2.
      rewrite drop_drop. f_equal. f_equal. lia.
    + rewrite Hreq', Hreq1, Hreq0, <- app_assoc. reflexivity.
    + rewrite Hsent', Hsent1, Hsent0. lia.
Qed.

End Pagination.

(** C2 (as the code has it). Against a service that serves a data set of
    [N] items in pages of 100, a collection fetch yields the [N] records in
    the order of the data set and stops; it sends exactly one request per
    page, for the pages in order, that is [ceil(N / 100)] requests when
    [N > 0] and one request, answered with an empty page, when [N = 0];
    and it goes on to the next page exactly when the page's next pointer
    is not null. *)
Theorem collection_fetch_pages (server : nat -> Request -> Response)
    {T : Type} `{Resource T} (u : URI) (next_ptr : nat -> string)
    (items : list Json) (records : list T) (fuel : nat) (st : State)
    (Hserver : paginates server u next_ptr items)
    (Hdecode : Forall2 (fun j o => from_mapping j = Some o) items records)
    (Hfuel : (n_pages (length items) <= fuel)%nat) :
  exists st',
    _retrieve_multi (T:=T) server fuel u st = (records, Ok tt, st')
    /\ length records = length items
    /\ requests (trace st')
       = requests (trace st)
         ++ List.map (request_of_page u next_ptr)
                     (seq 0 (n_pages (length items)))
    /\ sent st' = (sent st + n_pages (length items))%nat
    /\ n_pages (length items)
       = (if (length items =? 0)%nat then 1 else (length items + 99) / 100)%nat
    /\ (forall k, (k < n_pages (length items))%nat ->
          (next_of_page (length items) next_ptr k = JNull
           <-> S k = n_pages (length items))).
Proof.
  assert (Hpos : (1 <= n_pages (length items))%nat) by (unfold n_pages; lia).
  destruct (pages_from server u next_ptr items records Hserver Hdecode
              (n_pages (length items) - 1) 0 fuel st ltac:(lia) ltac:(lia))
    as (st' & Hrun & Hreq & Hsent).
  exists st'. split; [|split; [|split; [|split; [|split]]]].
  - unfold _retrieve_multi. exact Hrun.
  - symmetry. exact (Forall2_length _ _ _ Hdecode).
  - rewrite Hreq. replace (S (n_pages (length items) - 1))
      with (n_pages (length items)) by lia. reflexivity.
  - rewrite Hsent. lia.
  - unfold n_pages.
    pose proof (Nat.div_mod_eq (length items + 99) 100) as Hdiv.
    pose proof (Nat.mod_upper_bound (length items + 99) 100 ltac:(lia)) as Hmod.
    destruct (length items =? 0)%nat eqn:E.
    + apply Nat.eqb_eq in E. rewrite E. reflexivity.
    + apply Nat.eqb_neq in E. lia.
  - intros k Hk. unfold next_of_page.
    pose proof (n_pages_next (length items) k Hk) as Hnext.
    destruct (100 * (k + 1) <? length items)%nat.
    + split; [discriminate|]. intros Hlast.
      assert (S k < n_pages (length items))%nat by (apply Hnext; reflexivity). lia.
    + split; [intros _|reflexivity].
      destruct (Nat.lt_ge_cases (S k) (n_pages (length items))) as [Hlt|Hge];
        [apply Hnext in Hlt; discriminate | lia].
Qed.

Lemma sample_people_decode (n : nat) :
  Forall2 (fun j o => from_mapping (Resource:=raw_record) j = Some o)
          (sample_people n) (sample_people n).
Proof.
  unfold sample_people. induction (seq 0 n) as [|i l IH]; constructor;
    [reflexivity | exact IH].
Qed.

Lemma sample_people_paginated :
  paginates (paged_server people_uri (sample_people 250)) people_uri sample_next
            (sample_people 250).
Proof.
  intros n k Hk. vm_compute in Hk.
  assert (Hpage : forall k, (k < 3)%nat ->
            serves (paged_server people_uri (sample_people 250) n
                      (request_of_page people_uri sample_next k))
                   (next_of_page 250 sample_next k)
                   (take 100 (drop (100 * k) (sample_people 250)))).
  { clear k Hk. intros k Hk. split.
    - destruct k as [|[|[|k]]]; [vm_compute; reflexivity ..| lia].
    - exists (envelope (next_of_page 250 sample_next k)
                       (take 100 (drop (100 * k) (sample_people 250)))),
             (JDict [("limit", JInt 100); ("next", next_of_page 250 sample_next k)]).
      destruct k as [|[|[|k]]]; [repeat split; vm_compute; reflexivity ..| lia]. }
  replace (length (sample_people 250)) with 250%nat by (vm_compute; reflexivity).
  apply Hpage. lia.
Qed.

Lemma collection_fetch_pages_witness :
  exists st',
    _retrieve_multi (H:=raw_record) (paged_server people_uri (sample_people 250))
                    3 people_uri (DataTracker None ∅)
    = (sample_people 250, Ok tt, st')
    /\ length (requests (trace st')) = 3%nat.
Proof.
  destruct (collection_fetch_pages
              (paged_server people_uri (sample_people 250)) (H:=raw_record)
              people_uri sample_next (sample_people 250) (sample_people 250)
              3 (DataTracker None ∅)
              sample_people_paginated (sample_people_decode 250)
              ltac:(vm_compute; lia))
    as (st' & Hrun & _ & Hreq & _).
  exists st'. split; [exact Hrun|].
  rewrite Hreq. vm_compute. reflexivity.
Defined.

(** An empty data set: the fetch sends one request, although
    [ceil(0 / 100)] is 0. *)
Lemma empty_collection_takes_one_request :
  let server := paged_server people_uri [] in
  let run := _retrieve_multi (H:=raw_record) server 1 people_uri
                             (DataTracker None ∅) in
  paginates server people_uri sample_next []
  /\ fst run = ([], Ok tt)
  /\ requests (trace (snd run)) = [first_page_request people_uri]
  /\ length (requests (trace (snd run))) <> ((0 + 99) / 100)%nat.
Proof.
  intros server run. split; [|split; [|split]].
  - intros n k Hk. vm_compute in Hk.
    assert (k = 0%nat) as -> by lia.
    split; [vm_compute; reflexivity|].
    exists (envelope JNull []), (JDict [("limit", JInt 100); ("next", JNull)]).
    repeat split; vm_compute; reflexivity.
  - vm_compute. reflexivity.
  - vm_compute. reflexivity.
  - vm_compute. discriminate.
Qed.

(** ** The endpoint catalog *)












(** ** Looking up the document behind an RFC *)

Section FromRfc.

Variable server : nat -> Request -> Response.
Context {Document : Type} `{Resource Document} `{Resource DocumentAlias}.

Lemma obj_is_cached_bool (u : URI) (st : State) :
  exists c, fst (_obj_is_cached u st) = Ok c.
Proof.
  destruct (cache_dir st) as [d|] eqn:Hd.
  - rewrite (obj_is_cached_eval st d u Hd). eexists. reflexivity.
  - rewrite (obj_is_cached_disabled st u Hd). eexists. reflexivity.
Qed.

(** A single-record fetch sends at most one request. *)
Lemma retrieve_at_most_one_request (u : URI) (st : State) :
  exists l,
    requests (trace (snd (_retrieve (T:=Document) server u st)))
    = requests (trace st) ++ l
    /\ (length l <= 1)%nat.
Proof.
  destruct (obj_is_cached_bool u st) as ([|] & Hc).
  - destruct (obj_is_cached_true u st Hc) as (d & j & Hd & Hj).
    rewrite (retrieve_cached_eval server (T:=Document) u st d j Hd Hj).
    exists []. rewrite app_nil_r. simpl. auto.
  - destruct (retrieve_uncached_requests server (T:=Document) u st Hc)
      as (_ & _ & rest & Htr & Hrest).
    exists [single_request u]. split; [|simpl; lia].
    rewrite Htr, !requests_app, Hrest.
    destruct ((http_req st + 1) mod 100 =? 0); simpl; rewrite ?app_nil_r;
      reflexivity.
Qed.

(** C6 (as the code has it). For a name that starts with [rfc] in any
    case, [document_from_rfc] runs the alias lookup for the lower-cased
    name once, to its end. With no match it returns [None], without
    raising and without fetching a document; with exactly one match it
    returns what the single-record fetch of that alias's document returns
    (a value, not a sequence), and this fetch sends at most one request;
    with two or more matches it raises [RuntimeError]; and if the lookup
    itself raises, so does the function. *)
Theorem document_from_rfc_by_matches (fuel : nat) (rfc : string) (st : State)
    (Hrfc : startswith (lower rfc) "rfc" = true) :
  let lookup :=
    to_list (fetch_all (T:=DocumentAlias) server fuel
                       (document_aliases (Some (lower rfc)))) st in
  endpoint_url (document_aliases (Some (lower rfc)))
  = Ok {| cls := DocumentAliasURI; uri := "/api/v1/doc/docalias/";
          params := {["name" := PStr (lower rfc)]} |}
  /\ match fst lookup with
     | Ok [] =>
         document_from_rfc (Document:=Document) server fuel rfc st = (Ok None, snd lookup)
     | Ok [d] =>
         document_from_rfc (Document:=Document) server fuel rfc st
         = _retrieve (T:=Document) server (alias_document d) (snd lookup)
         /\ exists l,
              requests (trace (snd (document_from_rfc (Document:=Document) server fuel rfc st)))
              = requests (trace (snd lookup)) ++ l
              /\ (length l <= 1)%nat
     | Ok (_ :: _ :: _) =>
         document_from_rfc (Document:=Document) server fuel rfc st = (Raise RuntimeError, snd lookup)
     | Raise e =>
         document_from_rfc (Document:=Document) server fuel rfc st = (Raise e, snd lookup)
     | OutOfFuel =>
         document_from_rfc (Document:=Document) server fuel rfc st = (OutOfFuel, snd lookup)
     end.
Proof.
  cbv zeta. split; [reflexivity|].
  unfold document_from_rfc. rewrite Hrfc. cbn [negb]. unfold bind.
  destruct (to_list (fetch_all server fuel (document_aliases (Some (lower rfc)))) st)
    as [[docs|e|] st1]; cbn [fst snd]; try reflexivity.
  destruct docs as [|d [|d' docs]]; try reflexivity.
  unfold document. split; [reflexivity|].
  apply retrieve_at_most_one_request.
Qed.

End FromRfc.

Lemma document_from_rfc_by_matches_witness :
  document_from_rfc (Document:=Json) (H:=raw_record) (H0:=alias_record)
                    (rfc_server [rfc3550_alias]) 1 "RFC3550" (DataTracker None ∅)
  = _retrieve (H:=raw_record) (rfc_server [rfc3550_alias])
      {| cls := DocumentURI;
         uri := "/api/v1/doc/document/draft-ietf-avt-rtp-new/"; params := ∅ |}
      (snd (to_list (fetch_all (H:=alias_record) (rfc_server [rfc3550_alias]) 1
                       (document_aliases (Some "rfc3550")))
              (DataTracker None ∅)))
  /\ fst (document_from_rfc (Document:=Json) (H:=raw_record) (H0:=alias_record)
            (rfc_server [rfc3550_alias]) 1 "RFC3550" (DataTracker None ∅))
     = Ok (Some rfc3550_document).
Proof.
  split.
  - exact (proj1 (proj2 (document_from_rfc_by_matches
                           (rfc_server [rfc3550_alias]) (Document:=Json)
                           (H:=raw_record) (H0:=alias_record)
                           1 "RFC3550" (DataTracker None ∅) eq_refl))).
  - vm_compute. reflexivity.
Defined.

(** No alias matches: [document_from_rfc] returns [None]; it does not
    raise, and it sends no request beyond the alias lookup. *)
Lemma document_from_rfc_no_match_returns_none :
  let run := document_from_rfc (Document:=Json) (H:=raw_record) (H0:=alias_record)
               (rfc_server []) 1 "rfc3550" (DataTracker None ∅) in
  fst (to_list (fetch_all (H:=alias_record) (rfc_server []) 1
                  (document_aliases (Some "rfc3550"))) (DataTracker None ∅))
  = Ok []
  /\ fst run = Ok None
  /\ (forall e, fst run <> Raise e)
  /\ requests (trace (snd run)) = [first_page_request rfc3550_query].
Proof.
  intros run. split; [|split; [|split]].
  - vm_compute. reflexivity.
  - vm_compute. reflexivity.
  - intros e. vm_compute. discriminate.
  - vm_compute. reflexivity.
Qed.

(** A page answered 500 once and 200 on the second attempt: two requests
    were sent, and the counter stands at one, since [_rate_limit] is called
    once per page, outside the retry loop. *)
Lemma retried_request_is_not_counted :
  let run := _retrieve_multi (H:=raw_record)
               (server_500_then 1 (mkResponse 200 (Some (envelope JNull []))))
               2 people_uri (DataTracker None ∅) in
  fst run = ([], Ok tt)
  /\ sent (snd run) = 2%nat
  /\ http_req (snd run) = 1
  /\ trace (snd run)
     = retried (first_page_request people_uri) 1.875%float
       ++ [EGet (first_page_request people_uri)].
Proof. repeat split; vm_compute; reflexivity. Qed.

(** * Properties of the further code *)

(** ** [split] and [join] *)

Lemma split_on_nonempty (sep : ascii) (s : string) : split_on sep s <> [].
Proof.
  destruct s as [|c s]; simpl; [discriminate|].
  destruct (Ascii.eqb c sep); [discriminate|].
  destruct (split_on sep s); discriminate.
Qed.

Lemma length_split_on (sep : ascii) (s : string) :
  length (split_on sep s) = S (count_char sep s).
Proof.
  induction s as [|c s IH]; [reflexivity|].
  simpl. destruct (Ascii.eqb c sep); simpl.
  - rewrite IH. reflexivity.
  - destruct (split_on sep s) as [|p ps] eqn:E; simpl in *; congruence.
Qed.

Lemma join_split_on (sep : ascii) (s : string) :
  join (String sep EmptyString) (split_on sep s) = s.
Proof.
  induction s as [|c s IH]; [reflexivity|].
  simpl. destruct (Ascii.eqb_spec c sep) as [->|Hne].
  - pose proof (split_on_nonempty sep s) as Hs.
    destruct (split_on sep s) as [|p ps]; [congruence|].
    cbn [join] in *. rewrite append_nil_l, append_cons, append_nil_l. congruence.
  - destruct (split_on sep s) as [|p ps] eqn:E.
    + exfalso. exact (split_on_nonempty sep s E).
    + destruct ps as [|q ps]; cbn [join] in *.
      * congruence.
      * rewrite append_cons. congruence.
Qed.

Lemma split_on_parts_free (sep : ascii) (s : string) :
  Forall (fun p => count_char sep p = O) (split_on sep s).
Proof.
  induction s as [|c s IH]; [repeat constructor|].
  simpl. destruct (Ascii.eqb c sep) eqn:E.
  - constructor; [reflexivity | exact IH].
  - destruct (split_on sep s) as [|p ps]; [repeat constructor; simpl; rewrite E; reflexivity|].
    inversion IH as [|? ? Hp Hps]; subst.
    constructor; [|exact Hps]. simpl. rewrite E, Hp. reflexivity.
Qed.

Lemma split_on_free (sep : ascii) (s : string) :
  count_char sep s = O -> split_on sep s = [s].
Proof.
  induction s as [|c s IH]; [reflexivity|].
  simpl. destruct (Ascii.eqb c sep); [discriminate|].
  intros Hs. rewrite (IH Hs). reflexivity.
Qed.

Lemma split_on_app (sep : ascii) (a b : string) :
  count_char sep a = O ->
  split_on sep (a +:+ String sep b) = a :: split_on sep b.
Proof.
  induction a as [|c a IH]; intros Ha.
  - rewrite append_nil_l. simpl. rewrite Ascii.eqb_refl. reflexivity.
  - rewrite append_cons. simpl in *.
    destruct (Ascii.eqb c sep); [discriminate|].
    rewrite (IH Ha). reflexivity.
Qed.

(** ** The download URLs of a submission *)

(** X1. [Submission.urls] yields one pair per comma-separated field of
    [file_types], in order: the first components, joined with commas, give
    [file_types] back, and there is one pair more than there are commas, so
    that an empty [file_types] still yields one pair, whose URL has no
    extension. Every URL is the archive address of [name]-[rev] followed
    by the file type. *)
Theorem submission_urls_follow_file_types (self : Submission.t) :
  join "," (List.map fst (Submission.urls self)) = Submission.file_types self
  /\ length (Submission.urls self)
     = S (count_char "," (Submission.file_types self))
  /\ Forall (fun p =>
               snd p = "https://www.ietf.org/archive/id/" +:+ Submission.name self
                       +:+ "-" +:+ Submission.rev self +:+ fst p
               /\ count_char "," (fst p) = O)
            (Submission.urls self)
  /\ (Submission.file_types self = "" ->
      Submission.urls self
      = [("", "https://www.ietf.org/archive/id/" +:+ Submission.name self
              +:+ "-" +:+ Submission.rev self +:+ "")]).
Proof.
  unfold Submission.urls. split; [|split; [|split]].
  - rewrite map_map. cbn [fst]. rewrite map_id. apply join_split_on.
  - rewrite length_map. apply length_split_on.
  - apply Forall_map. eapply Forall_impl; [apply split_on_parts_free|].
    intros p Hp. cbn [fst snd]. split; [reflexivity | exact Hp].
  - intros ->. reflexivity.
Qed.

(** ** The URL of a document *)

Lemma document_url_unfold (d : Document.t) :
  Document.url d =
  let typed slug := bool_decide (Document.type d = Document.doctype slug) in
  let named path :=
    Py.Return (path +:+ Document.name d +:+ "-" +:+ Document.rev d +:+ ".txt") in
  let of_meeting site dir :=
    try* mtg := Document.mtg d in
    Py.Return (site +:+ mtg +:+ dir +:+ Document.uploaded_filename d) in
  if typed "agenda" then
    of_meeting "https://datatracker.ietf.org/meeting/" "/materials/"
  else if typed "bluesheets" then
    of_meeting "https://www.ietf.org/proceedings/" "/bluesheets/"
  else if typed "charter" then named "https://www.ietf.org/charter/"
  else if typed "conflrev" then named "https://www.ietf.org/cr/"
  else if typed "draft" then named "https://www.ietf.org/archive/id/"
  else if typed "liaison" then
    Py.Return ("https://www.ietf.org/lib/dt/documents/LIAISON/"
               +:+ Document.uploaded_filename d)
  else if typed "liai-att" then
    Py.Return ("https://www.ietf.org/lib/dt/documents/LIAISON/"
               +:+ Document.uploaded_filename d)
  else if typed "minutes" then
    of_meeting "https://datatracker.ietf.org/meeting/" "/materials/"
  else if typed "recording" then Py.Return (Document.external_url d)
  else if typed "review" then
    Py.Return ("https://datatracker.ietf.org/doc/" +:+ Document.name d)
  else if typed "shepwrit" then Py.Return (Document.external_url d)
  else if typed "slides" then
    of_meeting "https://www.ietf.org/proceedings/" "/slides/"
  else if typed "statchg" then named "https://www.ietf.org/sc/"
  else Py.Raise Py.NotImplementedError.
Proof. reflexivity. Qed.

Ltac eval_document_url Htype :=
  rewrite document_url_unfold; cbv beta zeta; rewrite Htype;
  repeat (case_bool_decide; [| try congruence]);
  try discriminate.

Lemma document_url_of_meeting (d : Document.t) (slug : string) :
  In slug Document.meeting_types ->
  Document.type d = Document.doctype slug ->
  exists site dir,
    Document.url d
    = (try* mtg := Document.mtg d in
       Py.Return (site +:+ mtg +:+ dir +:+ Document.uploaded_filename d))
    /\ ((slug = "agenda" \/ slug = "minutes") ->
        site = "https://datatracker.ietf.org/meeting/" /\ dir = "/materials/")
    /\ ((slug = "bluesheets" \/ slug = "slides") ->
        site = "https://www.ietf.org/proceedings/"
        /\ dir = "/" +:+ slug +:+ "/").
Proof.
  intros Hin Htype. simpl in Hin.
  destruct Hin as [<-|[<-|[<-|[<-|[]]]]]; eval_document_url Htype;
    eexists _, _; (split; [reflexivity|]);
    (split; [intros [?|?] | intros [?|?]]); try discriminate;
    split; reflexivity.
Qed.

Lemma document_url_of_other (d : Document.t) (slug : string) :
  In slug Document.other_types ->
  Document.type d = Document.doctype slug ->
  exists s, Document.url d = Py.Return s.
Proof.
  intros Hin Htype. simpl in Hin.
  destruct Hin as [<-|[<-|[<-|[<-|[<-|[<-|[<-|[<-|[<-|[]]]]]]]]]];
    eval_document_url Htype; eexists; reflexivity.
Qed.

Lemma document_url_unknown (d : Document.t) :
  (forall slug, In slug (Document.meeting_types ++ Document.other_types) ->
                Document.type d <> Document.doctype slug) ->
  Document.url d = Py.Raise Py.NotImplementedError.
Proof.
  intros Hnone. rewrite document_url_unfold. cbv beta zeta.
  repeat (case_bool_decide;
          [exfalso;
           match goal with
           | Hty : Document.type d = _ |- _ => revert Hty
           end; apply Hnone; simpl; tauto|]).
  reflexivity.
Qed.

Lemma document_mtg_none (d : Document.t) :
  Document.mtg d = Py.Raise Py.IndexError
  <-> count_char "-" (Document.name d) = O.
Proof.
  unfold Document.mtg.
  pose proof (length_split_on "-" (Document.name d)) as Hlen.
  destruct (split_on "-" (Document.name d)) as [|a [|m l]]; simpl in *.
  - split; [discriminate | lia].
  - split; [intros _; lia | reflexivity].
  - split; [discriminate | lia].
Qed.

Lemma document_type_known_or_not (d : Document.t) :
  (exists slug, In slug Document.meeting_types
                /\ Document.type d = Document.doctype slug)
  \/ (exists slug, In slug Document.other_types
                   /\ Document.type d = Document.doctype slug)
  \/ (forall slug, In slug (Document.meeting_types ++ Document.other_types) ->
                   Document.type d <> Document.doctype slug).
Proof.
  destruct (decide (Exists (fun slug => Document.type d = Document.doctype slug)
                           (Document.meeting_types ++ Document.other_types)))
    as [Hex|Hno].
  - apply Exists_exists in Hex as (slug & Hin & Heq).
    apply list_elem_of_In, in_app_or in Hin as [Hin|Hin];
      [left | right; left]; exists slug; auto.
  - right. right. intros slug Hin Heq. apply Hno.
    apply Exists_exists. exists slug. split; [apply list_elem_of_In; exact Hin | exact Heq].
Qed.

(** X2. When [Document.url] raises: [NotImplementedError] exactly when the
    document's type is none of the thirteen types it knows (with empty
    parameters); [IndexError] exactly when the type is one of agenda,
    bluesheets, minutes, slides and the document's name has no hyphen; in
    every other case it returns a URL. *)
Theorem document_url_failures (d : Document.t) :
  (Document.url d = Py.Raise Py.NotImplementedError
   <-> forall slug, In slug (Document.meeting_types ++ Document.other_types) ->
                    Document.type d <> Document.doctype slug)
  /\ (Document.url d = Py.Raise Py.IndexError
      <-> (exists slug, In slug Document.meeting_types
                        /\ Document.type d = Document.doctype slug)
          /\ count_char "-" (Document.name d) = O)
  /\ ((exists s, Document.url d = Py.Return s)
      \/ Document.url d = Py.Raise Py.NotImplementedError
      \/ Document.url d = Py.Raise Py.IndexError).
Proof.
  assert (Hmeet : forall slug, In slug Document.meeting_types ->
            Document.type d = Document.doctype slug ->
            (Document.url d = Py.Raise Py.IndexError
             <-> count_char "-" (Document.name d) = O)
            /\ Document.url d <> Py.Raise Py.NotImplementedError
            /\ ((exists s, Document.url d = Py.Return s)
                \/ Document.url d = Py.Raise Py.IndexError)).
  { intros slug Hin Htype.
    destruct (document_url_of_meeting d slug Hin Htype) as (site & dir & Hurl & _).
    rewrite Hurl, <- document_mtg_none.
    unfold Document.mtg.
    destruct (nth_error (split_on "-" (Document.name d)) 1) as [m|]; cbn [Py.bind].
    - split; [split; discriminate|]. split; [discriminate|]. left. eexists. reflexivity.
    - split; [tauto|]. split; [discriminate|]. right. reflexivity. }
  destruct (document_type_known_or_not d)
    as [(slug & Hin & Htype)|[(slug & Hin & Htype)|Hnone]].
  - destruct (Hmeet slug Hin Htype) as (Hidx & Hnie & Hres).
    split; [|split].
    + split; [intros Hu; contradiction|].
      intros Hno. exfalso. apply (Hno slug); [apply in_or_app; left; exact Hin | exact Htype].
    + rewrite Hidx. split; [intros Hc; split; [exists slug; auto | exact Hc] | tauto].
    + destruct Hres as [Hr|Hr]; [left; exact Hr | right; right; exact Hr].
  - destruct (document_url_of_other d slug Hin Htype) as (s & Hs).
    split; [|split].
    + rewrite Hs. split; [discriminate|].
      intros Hno. exfalso. apply (Hno slug); [apply in_or_app; right; exact Hin | exact Htype].
    + rewrite Hs. split; [discriminate|].
      intros [(slug' & Hin' & Htype') _]. exfalso.
      rewrite Htype in Htype'. simpl in Hin, Hin'.
      destruct Hin' as [<-|[<-|[<-|[<-|[]]]]];
        destruct Hin as [<-|[<-|[<-|[<-|[<-|[<-|[<-|[<-|[<-|[]]]]]]]]]];
        discriminate.
    + left. exists s. exact Hs.
  - pose proof (document_url_unknown d Hnone) as Hu.
    split; [|split].
    + rewrite Hu. tauto.
    + rewrite Hu. split; [discriminate|].
      intros [(slug & Hin & Htype) _]. exfalso.
      apply (Hnone slug); [apply in_or_app; left; exact Hin | exact Htype].
    + right. left. exact Hu.
Qed.

(** X3. For a document of type agenda, bluesheets, minutes or slides
    whose name is [a-m] or [a-m-...], [Document.url] takes as the meeting
    what stands between the first and the second hyphen of the name: the
    URL is the materials page of meeting [m] on the datatracker for
    agenda and minutes, and the folder named after the type in the
    proceedings of meeting [m] for bluesheets and slides. *)
Theorem document_url_meeting_field (d : Document.t) (slug a m rest : string)
    (Hslug : In slug Document.meeting_types)
    (Htype : Document.type d = Document.doctype slug)
    (Hname : Document.name d = a +:+ "-" +:+ m +:+ rest)
    (Ha : count_char "-" a = O) (Hm : count_char "-" m = O)
    (Hrest : rest = "" \/ exists t, rest = "-" +:+ t) :
  Document.url d
  = Py.Return
      (if bool_decide (slug = "agenda" \/ slug = "minutes")
       then "https://datatracker.ietf.org/meeting/" +:+ m +:+ "/materials/"
            +:+ Document.uploaded_filename d
       else "https://www.ietf.org/proceedings/" +:+ m +:+ "/" +:+ slug +:+ "/"
            +:+ Document.uploaded_filename d).
Proof.
  assert (Hmtg : Document.mtg d = Py.Return m).
  { unfold Document.mtg. rewrite Hname.
    change ("-" +:+ m +:+ rest) with (String "-" (m +:+ rest)).
    rewrite (split_on_app "-" a (m +:+ rest) Ha).
    destruct Hrest as [->|(t & ->)].
    - replace (m +:+ "") with m
        by (clear; induction m as [|c m IH]; [reflexivity|];
            rewrite append_cons, <- IH; reflexivity).
      rewrite (split_on_free "-" m Hm). reflexivity.
    - change ("-" +:+ t) with (String "-" t).
      rewrite (split_on_app "-" m t Hm). reflexivity. }
  destruct (document_url_of_meeting d slug Hslug Htype)
    as (site & dir & Hurl & Hmat & Hproc).
  rewrite Hurl, Hmtg. cbn [Py.bind]. simpl in Hslug.
  destruct Hslug as [<-|[<-|[<-|[<-|[]]]]].
  - destruct (Hmat ltac:(auto)) as (-> & ->). reflexivity.
  - destruct (Hproc ltac:(auto)) as (-> & ->). reflexivity.
  - destruct (Hmat ltac:(auto)) as (-> & ->). reflexivity.
  - destruct (Hproc ltac:(auto)) as (-> & ->). reflexivity.
Qed.

Lemma document_url_meeting_field_witness :
  Document.url sample_agenda
  = Py.Return "https://datatracker.ietf.org/meeting/107/materials/agenda-107-quic-00.md".
Proof.
  exact (document_url_meeting_field sample_agenda "agenda" "agenda" "107" "-quic"
           ltac:(simpl; tauto) eq_refl eq_refl eq_refl eq_refl
           (or_intror (ex_intro _ "quic" eq_refl))).
Defined.

(** ** The status of a meeting *)

(** X4. When [Meeting.status] returns, the meeting is ONGOING exactly from
    the parsed start date, 00:00, to 00:00 of its last day ([days - 1] days
    later), both included. So a meeting is reported COMPLETED during the
    whole of its last day after midnight, a meeting of one day is ONGOING
    at the instant of its start only, and a meeting whose [days] is zero or
    negative is never ONGOING. *)
Theorem meeting_status_ongoing_window
    (strptime : string -> string -> option datetime) (now : datetime)
    (self : Meeting.t) (start : datetime) (s : MeetingStatus)
    (Hstart : strptime (Meeting.date self) "%Y-%m-%d" = Some start)
    (Hstatus : Meeting.status strptime now self = Py.Return s) :
  let last := start + (Meeting.days self - 1) * Meeting.day in
  (s = ONGOING <-> start <= now <= last)
  /\ (s = FUTURE <-> now < start)
  /\ (1 <= Meeting.days self -> last < now < last + Meeting.day -> s = COMPLETED)
  /\ (Meeting.days self = 1 -> (s = ONGOING <-> now = start))
  /\ (Meeting.days self <= 0 -> s <> ONGOING).
Proof.
  cbv zeta. unfold Meeting.status in Hstatus. rewrite Hstart in Hstatus.
  cbn [Py.bind] in Hstatus. unfold Meeting.timedelta_days in Hstatus.
  destruct (Z.abs (Meeting.days self - 1) <=? 999999999); [|discriminate].
  cbn [Py.bind] in Hstatus. unfold Meeting.datetime_add in Hstatus.
  destruct ((0 <=? start + (Meeting.days self - 1) * Meeting.day)
            && (start + (Meeting.days self - 1) * Meeting.day
                <=? Meeting.datetime_max)); [|discriminate].
  cbn [Py.bind] in Hstatus.
  assert (Hday : Meeting.day = 86400000000) by reflexivity.
  destruct (Z.ltb_spec now start) as [Hlt|Hge].
  - injection Hstatus as <-.
    repeat split; try discriminate; try lia; intros; try discriminate; lia.
  - destruct (Z.ltb_spec (start + (Meeting.days self - 1) * Meeting.day) now)
      as [Hlt'|Hge']; injection Hstatus as <-;
      repeat split; try discriminate; try lia; intros; try discriminate;
      try reflexivity; try lia; try nia.
Qed.

(** Noon of 2020-03-27, the seventh and last day of the sample meeting:
    the status is COMPLETED. *)
Lemma meeting_status_ongoing_window_witness :
  let start := 737504 * Meeting.day in
  let now := 737510 * Meeting.day + 43200000000 in
  let last := start + (Meeting.days sample_meeting - 1) * Meeting.day in
  Meeting.status sample_strptime now sample_meeting = Py.Return COMPLETED
  /\ (COMPLETED = ONGOING <-> start <= now <= last)
  /\ (COMPLETED = FUTURE <-> now < start).
Proof.
  intros start now last.
  pose proof (meeting_status_ongoing_window sample_strptime now sample_meeting
                start COMPLETED eq_refl eq_refl) as (Hon & Hfut & _).
  split; [reflexivity|]. split; [exact Hon | exact Hfut].
Defined.

(** ** Endpoint functions that look up one record *)

Lemma startswith_append (s rest : string) : startswith (s +:+ rest) s = true.
Proof. apply startswith_iff. exists rest. reflexivity. Qed.

Lemma contains_char (s : string) (c : ascii) :
  contains s (String c EmptyString) = negb (count_char c s =? 0)%nat.
Proof.
  induction s as [|d s IH]; [reflexivity|].
  cbn [contains count_char]. rewrite IH.
  unfold startswith. cbn [String.prefix].
  destruct (ascii_dec c d) as [->|Hne].
  - rewrite Ascii.eqb_refl. destruct s; reflexivity.
  - destruct (Ascii.eqb_spec d c) as [->|_]; [congruence|]. reflexivity.
Qed.

Section LookupProperties.

Variable server : nat -> Request -> Response.

(** X5. [person_from_email] builds the e-mail identifier without failing
    whatever the address is, fetches it and, only if that gave a record,
    fetches the person the record names: it sends at most two requests,
    and when the e-mail lookup finds nothing (for instance a 404 answer)
    it returns [None] without a second lookup. *)
Theorem person_from_email_lookups {Person : Type} `{Resource Person}
    `{Resource Email.t} (email_addr : string) (st : State) :
  let lookup := _retrieve (T:=Email.t) server (email_uri_of email_addr) st in
  let run := person_from_email (Person:=Person) server email_addr st in
  match fst lookup with
  | Ok (Some e) =>
      run = _retrieve (T:=Person) server (Email.person e) (snd lookup)
  | Ok None => run = (Ok None, snd lookup)
  | Raise x => run = (Raise x, snd lookup)
  | OutOfFuel => run = (OutOfFuel, snd lookup)
  end
  /\ (exists l, requests (trace (snd run)) = requests (trace st) ++ l
                /\ (length l <= 2)%nat)
  /\ (fst (_obj_is_cached (email_uri_of email_addr) st) = Ok false ->
      status_code (server (sent st) (single_request (email_uri_of email_addr)))
      = 404 ->
      run = (Ok None,
             with_get (single_request (email_uri_of email_addr)) (counted st))).
Proof.
  cbv zeta.
  assert (Hrun : person_from_email (Person:=Person) server email_addr st
                 = match _retrieve (T:=Email.t) server (email_uri_of email_addr) st with
                   | (Ok (Some e), st1) =>
                       _retrieve (T:=Person) server (Email.person e) st1
                   | (Ok None, st1) => (Ok None, st1)
                   | (Raise x, st1) => (Raise x, st1)
                   | (OutOfFuel, st1) => (OutOfFuel, st1)
                   end).
  { unfold person_from_email, bind, lift_res, construct.
    cbn [__post_init__ dataclass]. rewrite startswith_append. cbn [orb negb andb].
    unfold email, person. fold (email_uri_of email_addr).
    destruct (_retrieve server (email_uri_of email_addr) st) as [[[e|]|x|] st1];
      reflexivity. }
  destruct (retrieve_at_most_one_request server (Document:=Email.t)
              (email_uri_of email_addr) st) as (l1 & Hl1 & Hn1).
  split; [|split].
  - rewrite Hrun.
    destruct (_retrieve server (email_uri_of email_addr) st) as [[[e|]|x|] st1];
      reflexivity.
  - rewrite Hrun.
    destruct (_retrieve server (email_uri_of email_addr) st) as [[[e|]|x|] st1];
      cbn [snd] in *; try (exists l1; split; [exact Hl1 | lia]).
    destruct (retrieve_at_most_one_request server (Document:=Person)
                (Email.person e) st1) as (l2 & Hl2 & Hn2).
    exists (l1 ++ l2). rewrite Hl2, Hl1, <- app_assoc, length_app.
    split; [reflexivity | lia].
  - intros Hnet H404. rewrite Hrun.
    rewrite (retrieve_uncached_eval server (T:=Email.t) _ st Hnet). cbv zeta.
    rewrite H404. reflexivity.
Qed.

(** X6. [document_from_draft] raises [AssertionError], before anything is
    sent, when the name does not start with [draft-] or contains a comma.
    Otherwise it is the single-record fetch of
    [/api/v1/doc/document/<draft>/], and with caching enabled the
    document's cache file is [api/v1/doc/document/<draft>.json] under the
    cache directory. *)
Theorem document_from_draft_checks_name {Document : Type} `{Resource Document}
    (draft : string) (st : State) :
  (startswith draft "draft-" = false \/ count_char "," draft <> O ->
   document_from_draft (Document:=Document) server draft st
   = (Raise AssertionError, st))
  /\ (startswith draft "draft-" = true -> count_char "," draft = O ->
      document_from_draft (Document:=Document) server draft st
      = _retrieve (T:=Document) server (draft_uri_of draft) st
      /\ forall d, cache_dir st = Some d ->
           fst (_cache_filepath (draft_uri_of draft) st)
           = Ok (Path_join d ("api/v1/doc/document/" +:+ draft +:+ ".json"))).
Proof.
  unfold document_from_draft. rewrite contains_char. split.
  - intros [Hp|Hc].
    + rewrite Hp. reflexivity.
    + destruct (startswith draft "draft-"); [|reflexivity]. cbn [negb].
      apply Nat.eqb_neq in Hc. rewrite Hc. reflexivity.
  - intros Hp Hc. rewrite Hp, Hc. cbn [negb Nat.eqb]. split.
    + unfold bind, lift_res, construct. cbn [__post_init__ dataclass].
      rewrite startswith_append. reflexivity.
    + intros d Hd. rewrite (cache_filepath_eval st d _ Hd). cbn [fst].
      unfold cache_path, draft_uri_of. cbn [uri].
      change ("/api/v1/doc/document/" +:+ draft +:+ "/")
        with ("/" +:+ ("api/v1/doc/document/" +:+ draft) +:+ "/").
      rewrite slice_1_m1_slashes. reflexivity.
Qed.

(** X7. [group_from_acronym] against a service that holds [N] groups for
    the acronym and serves them in pages of 100: it sends the requests of
    all the pages, then returns [None] when [N = 0], the group when
    [N = 1], and raises [RuntimeError] when [N >= 2]. *)
Theorem group_from_acronym_by_count {Group : Type} `{Resource Group}
    (acronym : string) (next_ptr : nat -> string) (items : list Json)
    (records : list Group) (fuel : nat) (st : State)
    (Hserver : paginates server (acronym_query acronym) next_ptr items)
    (Hdecode : Forall2 (fun j o => from_mapping j = Some o) items records)
    (Hfuel : (n_pages (length items) <= fuel)%nat) :
  let run := group_from_acronym (Group:=Group) server fuel acronym st in
  fst run = match records with
            | [] => Ok None
            | [g] => Ok (Some g)
            | _ :: _ :: _ => Raise RuntimeError
            end
  /\ requests (trace (snd run))
     = requests (trace st)
       ++ List.map (request_of_page (acronym_query acronym) next_ptr)
                   (seq 0 (n_pages (length items))).
Proof.
  cbv zeta.
  assert (Hpos : (1 <= n_pages (length items))%nat) by (unfold n_pages; lia).
  destruct (pages_from server (acronym_query acronym) next_ptr items records
              Hserver Hdecode (n_pages (length items) - 1) 0 fuel st
              ltac:(lia) ltac:(lia)) as (st' & Hrun & Hreq & _).
  replace (S (n_pages (length items) - 1)) with (n_pages (length items))
    in Hreq by lia.
  assert (Hmulti : _retrieve_multi (T:=Group) server fuel
                     (acronym_query acronym) st = (records, Ok tt, st'))
    by exact Hrun.
  assert (Hdef : group_from_acronym (Group:=Group) server fuel acronym st
                 = match to_list (_retrieve_multi (T:=Group) server fuel
                                    (acronym_query acronym)) st with
                   | (Ok [], st1) => (Ok None, st1)
                   | (Ok [g], st1) => (Ok (Some g), st1)
                   | (Ok (_ :: _ :: _), st1) => (Raise RuntimeError, st1)
                   | (Raise x, st1) => (Raise x, st1)
                   | (OutOfFuel, st1) => (OutOfFuel, st1)
                   end).
  { unfold group_from_acronym, bind, lift_res.
    change (construct GroupURI "/api/v1/group/group/" ∅)
      with (Ok {| cls := GroupURI; uri := "/api/v1/group/group/"; params := ∅ |}).
    cbv beta iota zeta.
    change (set_param "acronym" (PStr acronym)
              {| cls := GroupURI; uri := "/api/v1/group/group/"; params := ∅ |})
      with (acronym_query acronym).
    destruct (to_list (_retrieve_multi server fuel (acronym_query acronym)) st)
      as [[[|g [|g' gs]]|x|] st1]; reflexivity. }
  rewrite Hdef. unfold to_list. rewrite Hmulti.
  destruct records as [|g [|g' records]]; cbn [fst snd]; auto.
Qed.

End LookupProperties.

Lemma sample_group_paginated :
  paginates (paged_server (acronym_query "quic") [sample_group])
            (acronym_query "quic") sample_next [sample_group].
Proof.
  intros n k Hk. vm_compute in Hk. assert (k = 0%nat) as -> by lia.
  split; [vm_compute; reflexivity|].
  exists (envelope JNull [sample_group]),
         (JDict [("limit", JInt 100); ("next", JNull)]).
  repeat split; vm_compute; reflexivity.
Qed.

Lemma group_from_acronym_by_count_witness :
  let run := group_from_acronym (H:=raw_record)
               (paged_server (acronym_query "quic") [sample_group])
               1 "quic" (DataTracker None ∅) in
  fst run = Ok (Some sample_group)
  /\ requests (trace (snd run)) = [first_page_request (acronym_query "quic")].
Proof.
  exact (group_from_acronym_by_count
           (paged_server (acronym_query "quic") [sample_group]) (H:=raw_record)
           "quic" sample_next [sample_group] [sample_group] 1
           (DataTracker None ∅) sample_group_paginated
           ltac:(repeat constructor)
           (le_n 1)).
Defined.

(** ** The cache across fetches *)

Lemma grows_refl (st : State) : grows st st.
Proof.
  repeat split; [lia|]. exists []. rewrite app_nil_r. simpl. split; [reflexivity|lia].
Qed.

Lemma grows_trans (st1 st2 st3 : State) :
  grows st1 st2 -> grows st2 st3 -> grows st1 st3.
Proof.
  intros (Hd1 & Hn1 & evs1 & Ht1 & Hs1) (Hd2 & Hn2 & evs2 & Ht2 & Hs2).
  repeat split; [congruence | lia |].
  exists (evs1 ++ evs2). rewrite Ht2, Ht1, <- app_assoc, requests_app, length_app.
  split; [reflexivity | lia].
Qed.

Lemma quiet_refl (st : State) : quiet st st.
Proof. split; [apply grows_refl | reflexivity]. Qed.

Lemma quiet_trans (st1 st2 st3 : State) :
  quiet st1 st2 -> quiet st2 st3 -> quiet st1 st3.
Proof.
  intros (G1 & F1) (G2 & F2). split; [eapply grows_trans; eauto | congruence].
Qed.

Lemma quiet_counted (st : State) : quiet st (counted st).
Proof.
  destruct (counted_fields st) as (Hn & Hd & Hf & Hs & Ht).
  repeat split; [exact Hd | lia | | exact Hf].
  eexists. split; [exact Ht|].
  destruct ((http_req st + 1) mod 100 =? 0); simpl; lia.
Qed.

Lemma quiet_with_get (rq : Request) (st : State) : quiet st (with_get rq st).
Proof.
  repeat split; [simpl; lia|]. exists [EGet rq]. simpl. split; [reflexivity|lia].
Qed.

Lemma quiet_with_events (evs : list Event) (st : State) :
  requests evs = [] -> quiet st (with_events evs st).
Proof.
  intros He. repeat split; [simpl; lia|]. exists evs. rewrite He. simpl.
  split; [reflexivity|lia].
Qed.

Lemma is_prefix_refl (l : list string) : is_prefix l l = true.
Proof.
  induction l as [|a l IH]; [reflexivity|].
  cbn [is_prefix]. rewrite String.eqb_refl. exact IH.
Qed.

Lemma distinct_files_neq (p q : Path) : distinct_files p q -> p <> q.
Proof.
  intros (_ & _ & _ & Hpre & _) ->. rewrite is_prefix_refl in Hpre.
  discriminate.
Qed.

Section CacheAcrossFetches.

Variable server : nat -> Request -> Response.
Context {T : Type} `{Resource T}.

Lemma cache_records_app (d : Path) (ys zs : list T) (js ks : list Json)
    (fs : gmap Path Json) :
  length ys = length js ->
  cache_records d (ys ++ zs) (js ++ ks) fs
  = cache_records d zs ks (cache_records d ys js fs).
Proof.
  intros Hlen. unfold cache_records.
  rewrite zip_with_app by exact Hlen. apply fold_left_app.
Qed.

Lemma cache_records_keeps (d : Path) (ys : list T) (js : list Json)
    (fs : gmap Path Json) (p : Path) :
  is_Some (fs !! p) -> is_Some (cache_records d ys js fs !! p).
Proof.
  unfold cache_records. generalize (zip ys js). intros l. revert fs.
  induction l as [|[y j] l IH]; intros fs Hp; [exact Hp|].
  cbn [fold_left]. apply IH. cbn [fst snd].
  destruct (decide (cache_path d (resource_uri y) = p)) as [<-|Hne].
  - rewrite lookup_insert_eq. eauto.
  - rewrite lookup_insert_ne by exact Hne. exact Hp.
Qed.

Lemma cache_records_other (d : Path) (ys : list T) (js : list Json)
    (fs : gmap Path Json) (p : Path) :
  Forall (fun z => cache_path d (resource_uri z) <> p) ys ->
  cache_records d ys js fs !! p = fs !! p.
Proof.
  unfold cache_records. revert js fs.
  induction ys as [|y ys IH]; intros js fs Hall; [reflexivity|].
  destruct js as [|j js]; [reflexivity|].
  inversion Hall as [|? ? Hy Hys]; subst.
  cbn [zip_with fold_left fst snd]. rewrite (IH js _ Hys).
  apply lookup_insert_ne. exact Hy.
Qed.

Lemma yields_cached_nil (st st' : State) :
  quiet st st' -> yields_cached st ([] : list T) st'.
Proof.
  intros (G & F). split; [exact G|]. exists []. split; [constructor|].
  rewrite F. destruct (cache_dir st); reflexivity.
Qed.

Lemma yields_cached_app (st1 st2 st3 : State) (ys zs : list T) :
  yields_cached st1 ys st2 -> yields_cached st2 zs st3 ->
  yields_cached st1 (ys ++ zs) st3.
Proof.
  intros (G1 & js & D1 & F1) (G2 & ks & D2 & F2).
  split; [eapply grows_trans; eauto|].
  exists (js ++ ks). split; [apply Forall2_app; assumption|].
  destruct G1 as (Hd & _). rewrite Hd in F2. rewrite F2, F1.
  destruct (cache_dir st1); [|reflexivity].
  symmetry. apply cache_records_app. exact (Forall2_length _ _ _ D1).
Qed.

(** One round of the [for obj_json in objs] loop. *)
Lemma for_objs_cons (j : Json) (objs : list Json) (st : State) :
  for_objs (T:=T) (j :: objs) st
  = match from_mapping j with
    | None => ([], Raise PavlovaParsingError, st)
    | Some y =>
        let '(zs, r, st') :=
          for_objs objs (snd (_cache_obj (resource_uri y) j st)) in
        (y :: zs, r, st')
    end.
Proof.
  cbn [for_objs]. unfold gbind, glift, pavlova_from_mapping, yield.
  destruct (from_mapping j) as [y|]; [|reflexivity].
  unfold ret.
  destruct (_cache_obj (resource_uri y) j st) as [r st1] eqn:E.
  pose proof (cache_obj_ok (resource_uri y) j st) as (Hok & _).
  rewrite E in Hok. cbn [fst] in Hok. subst r. cbn [snd].
  destruct (for_objs objs st1) as [[zs [[]|x|]] st2]; reflexivity.
Qed.

Lemma cache_obj_yields (y : T) (j : Json) (st : State) :
  from_mapping j = Some y ->
  yields_cached st [y] (snd (_cache_obj (resource_uri y) j st)).
Proof.
  intros Hy.
  pose proof (cache_obj_ok (resource_uri y) j st) as (_ & Hn & Hd & Hs & Ht).
  split.
  - repeat split; [exact Hd | lia |]. exists []. rewrite app_nil_r. simpl.
    split; [exact Ht | lia].
  - exists [j]. split; [repeat constructor; exact Hy|].
    destruct (cache_dir st) as [d|] eqn:E.
    + rewrite (cache_obj_eval st d _ j E). reflexivity.
    + rewrite (cache_obj_disabled st _ j E). reflexivity.
Qed.

Lemma for_objs_yields_cached (objs : list Json) (st : State) :
  yields_cached st (fst (fst (for_objs (T:=T) objs st)))
                   (snd (for_objs (T:=T) objs st)).
Proof.
  revert st. induction objs as [|j objs IH]; intros st.
  - apply yields_cached_nil, quiet_refl.
  - rewrite for_objs_cons. destruct (from_mapping j) as [y|] eqn:Hy.
    + specialize (IH (snd (_cache_obj (resource_uri y) j st))).
      destruct (for_objs objs (snd (_cache_obj (resource_uri y) j st)))
        as [[zs r] st'].
      cbn [fst snd] in *.
      exact (yields_cached_app _ _ _ [y] zs (cache_obj_yields y j st Hy) IH).
    + apply yields_cached_nil, quiet_refl.
Qed.

Lemma page_200_yields_cached (r : Response) (st : State) :
  yields_cached st (fst (fst (page_200 (T:=T) r st)))
                   (snd (page_200 (T:=T) r st)).
Proof.
  unfold page_200, gbind, glift, bind, json, lift_res, ret, raise, gret.
  destruct (body r) as [j|]; [|apply yields_cached_nil, quiet_refl].
  destruct (subscript j "meta") as [meta|x|];
    try (apply yields_cached_nil, quiet_refl).
  destruct (subscript j "objects") as [objs|x|];
    try (apply yields_cached_nil, quiet_refl).
  destruct (subscript meta "next") as [next|x|];
    try (apply yields_cached_nil, quiet_refl).
  destruct (iter_json objs) as [items|x|];
    try (apply yields_cached_nil, quiet_refl).
  pose proof (for_objs_yields_cached items st) as IH.
  destruct (for_objs items st) as [[zs [[]|x|]] st']; cbn [fst snd] in *;
    rewrite ?app_nil_r; exact IH.
Qed.

Lemma retry_loop_yields_cached (fuel : nat) (u : string)
    (ps : gmap string PyVal) (t : float) (st : State) :
  yields_cached st (fst (fst (retry_loop (T:=T) server fuel u ps t st)))
                   (snd (retry_loop (T:=T) server fuel u ps t st)).
Proof.
  revert t st. induction fuel as [|fuel IH]; intros t st.
  - apply yields_cached_nil, quiet_refl.
  - rewrite retry_loop_step. cbv zeta.
    set (rq := page_request u ps). set (r := server (sent st) rq).
    assert (Hget : yields_cached st ([] : list T) (with_get rq st))
      by apply yields_cached_nil, quiet_with_get.
    assert (Hfail : forall line,
              yields_cached st ([] : list T)
                (with_events [EPrint line] (with_get rq st))).
    { intros line. apply yields_cached_nil. eapply quiet_trans;
        [apply quiet_with_get | apply quiet_with_events; reflexivity]. }
    destruct (status_code r =? 200).
    { exact (yields_cached_app _ _ _ [] _ Hget (page_200_yields_cached r _)). }
    destruct (status_code r =? 500); [|apply Hfail].
    destruct (60 <? t)%float; [apply Hfail|].
    refine (yields_cached_app _ _ _ [] _ _ (IH _ _)).
    apply yields_cached_nil. eapply quiet_trans;
      [apply quiet_with_get | apply quiet_with_events; reflexivity].
Qed.

Lemma pages_loop_yields_cached (fuel : nat) (u : PyVal)
    (ps : gmap string PyVal) (st : State) :
  yields_cached st (fst (fst (pages_loop (T:=T) server fuel u ps st)))
                   (snd (pages_loop (T:=T) server fuel u ps st)).
Proof.
  revert u ps st. induction fuel as [|fuel IH]; intros u ps st.
  - destruct u; apply yields_cached_nil, quiet_refl.
  - assert (Hcount : yields_cached st ([] : list T) (counted st))
      by apply yields_cached_nil, quiet_counted.
    destruct u as [|s|n|]; cbn [pages_loop];
      try (apply yields_cached_nil, quiet_refl);
      rewrite gbind_glift, rate_limit_eval;
      try (exact Hcount).
    unfold gbind.
    pose proof (retry_loop_yields_cached (S fuel) s ps 1.875%float (counted st))
      as Hpage.
    destruct (retry_loop server (S fuel) s ps 1.875%float (counted st))
      as [[ys [next|x|]] st1]; cbn [fst snd] in *;
      try (exact (yields_cached_app _ _ _ [] ys Hcount Hpage)).
    specialize (IH next ∅ st1).
    destruct (pages_loop server fuel next ∅ st1) as [[zs res] st2].
    cbn [fst snd] in *.
    exact (yields_cached_app _ _ _ [] (ys ++ zs) Hcount
             (yields_cached_app _ _ _ ys zs Hpage IH)).
Qed.

(** X8. Whatever a collection fetch meets (a failing page, a record that
    does not decode, too little fuel), it leaves the cache directory as it
    was, removes no cache file, changes no file at all when caching is
    disabled, only extends the trace, sends exactly the requests the trace
    shows, and never lowers the request counter. *)
Theorem retrieve_multi_keeps_cache (fuel : nat) (u : URI) (st : State) :
  let st' := snd (_retrieve_multi (T:=T) server fuel u st) in
  cache_dir st' = cache_dir st
  /\ (forall p, is_Some (files st !! p) -> is_Some (files st' !! p))
  /\ (cache_dir st = None -> files st' = files st)
  /\ (exists evs, trace st' = trace st ++ evs
                  /\ sent st' = (sent st + length (requests evs))%nat)
  /\ http_req st <= http_req st'.
Proof.
  cbv zeta. unfold _retrieve_multi.
  destruct (pages_loop_yields_cached fuel (PStr (uri u))
              (<["limit" := PStr "100"]> (params u)) st)
    as ((Hd & Hn & Hev) & js & _ & Hf).
  repeat split; [exact Hd | | | exact Hev | exact Hn].
  - intros p Hp. rewrite Hf. destruct (cache_dir st) as [d|]; [|exact Hp].
    apply cache_records_keeps. exact Hp.
  - intros Hnone. rewrite Hf, Hnone. reflexivity.
Qed.

(** X9. A single-record fetch leaves alone every file that is known to
    be another file than the cache file of the identifier it was given,
    and every file when caching is disabled; it leaves the cache
    directory as it was and removes no cache file. Nothing is said of a
    path that may name the cache file of the identifier, as one that
    reaches it through [..] does. *)
Theorem retrieve_touches_own_cache_file (u : URI) (st : State) :
  let st' := snd (_retrieve (T:=T) server u st) in
  cache_dir st' = cache_dir st
  /\ (forall p, (forall d, cache_dir st = Some d -> distinct_files p (cache_path d u)) ->
                files st' !! p = files st !! p)
  /\ (forall p, is_Some (files st !! p) -> is_Some (files st' !! p))
  /\ (cache_dir st = None -> files st' = files st).
Proof.
  cbv zeta.
  destruct (obj_is_cached_bool u st) as ([|] & Hc).
  - destruct (obj_is_cached_true u st Hc) as (d & j & Hd & Hj).
    rewrite (retrieve_cached_eval server (T:=T) u st d j Hd Hj). cbn [snd].
    repeat split; auto.
  - rewrite (retrieve_uncached_eval server (T:=T) u st Hc). cbv zeta.
    set (st2 := with_get (single_request u) (counted st)).
    assert (Hd2 : cache_dir st2 = cache_dir st)
      by (destruct (counted_fields st) as (_ & Hd & _); exact Hd).
    assert (Hf2 : files st2 = files st)
      by (destruct (counted_fields st) as (_ & _ & Hf & _); exact Hf).
    assert (Hkeep : forall j,
              let st3 := snd (_cache_obj u j st2) in
              cache_dir st3 = cache_dir st
              /\ (forall p, (forall d, cache_dir st = Some d -> distinct_files p (cache_path d u)) ->
                            files st3 !! p = files st !! p)
              /\ (forall p, is_Some (files st !! p) -> is_Some (files st3 !! p))
              /\ (cache_dir st = None -> files st3 = files st)).
    { intros j. cbv zeta. destruct (cache_dir st) as [d|] eqn:Hd.
      - rewrite (cache_obj_eval st2 d u j Hd2). cbn [write_file snd cache_dir files].
        rewrite Hf2. repeat split; [exact Hd2 | | | discriminate].
        + intros p Hp. apply lookup_insert_ne. intros Heq.
          exact (distinct_files_neq _ _ (Hp d eq_refl) (eq_sym Heq)).
        + intros p Hp. destruct (decide (cache_path d u = p)) as [<-|Hne].
          * rewrite lookup_insert_eq. eauto.
          * rewrite lookup_insert_ne by exact Hne. exact Hp.
      - rewrite (cache_obj_disabled st2 u j Hd2). cbn [snd]. rewrite Hf2.
        repeat split; auto. }
    assert (Hsame : cache_dir st2 = cache_dir st
              /\ (forall p, (forall d, cache_dir st = Some d -> distinct_files p (cache_path d u)) ->
                            files st2 !! p = files st !! p)
              /\ (forall p, is_Some (files st !! p) -> is_Some (files st2 !! p))
              /\ (cache_dir st = None -> files st2 = files st))
      by (rewrite Hf2; repeat split; auto).
    destruct (status_code (server (sent st) (single_request u)) =? 200).
    + destruct (body (server (sent st) (single_request u))) as [j|];
        [|exact Hsame].
      destruct (from_mapping j); cbn [snd]; apply Hkeep.
    + destruct (status_code (server (sent st) (single_request u)) =? 404);
        cbn [snd]; exact Hsame.
Qed.

(** X10. After a collection fetch with caching enabled, however it ended,
    every record it yielded is in the cache when the cache files of the
    records yielded after it are known to be other files than its own:
    fetching it singly by its own identifier returns that very record and
    sends no request, whatever the service would answer. *)
Theorem retrieve_multi_fills_cache (fuel : nat) (u : URI) (st : State)
    (d : Path) (before : list T) (y : T) (after : list T)
    (Hdir : cache_dir st = Some d)
    (Hyielded : fst (fst (_retrieve_multi (T:=T) server fuel u st))
                = before ++ y :: after)
    (Hlast : Forall (fun z => distinct_files (cache_path d (resource_uri z))
                                             (cache_path d (resource_uri y)))
                    after) :
  forall server' : nat -> Request -> Response,
    _retrieve (T:=T) server' (resource_uri y)
              (snd (_retrieve_multi (T:=T) server fuel u st))
    = (Ok (Some y), snd (_retrieve_multi (T:=T) server fuel u st)).
Proof.
  intros server'. unfold _retrieve_multi in *.
  assert (Hother : Forall (fun z => cache_path d (resource_uri z)
                                    <> cache_path d (resource_uri y)) after).
  { eapply Forall_impl; [exact Hlast|].
    intros z Hz. exact (distinct_files_neq _ _ Hz). }
  destruct (pages_loop_yields_cached fuel (PStr (uri u))
              (<["limit" := PStr "100"]> (params u)) st)
    as ((Hd & _) & js & Hdec & Hf).
  rewrite Hyielded, Hdir in *.
  apply Forall2_app_inv_l in Hdec as (js1 & js2 & Hdec1 & Hdec2 & ->).
  apply Forall2_cons_inv_l in Hdec2 as (j & js3 & Hj & Hdec3 & ->).
  rewrite (cache_records_app d before (y :: after) js1 (j :: js3))
    in Hf by exact (Forall2_length _ _ _ Hdec1).
  assert (Hfile : files (snd (pages_loop (T:=T) server fuel (PStr (uri u))
                                (<["limit" := PStr "100"]> (params u)) st))
                  !! cache_path d (resource_uri y) = Some j).
  { rewrite Hf. unfold cache_records at 1. cbn [zip_with fold_left fst snd].
    fold (cache_records d after js3
            (<[cache_path d (resource_uri y) := j]>
               (cache_records d before js1 (files st)))).
    rewrite (cache_records_other d after js3 _ _ Hother).
    apply lookup_insert_eq. }
  rewrite (retrieve_cached_eval server' (T:=T) (resource_uri y) _ d j Hd Hfile).
  rewrite Hj. reflexivity.
Qed.

End CacheAcrossFetches.

Lemma retrieve_multi_fills_cache_witness :
  let run := _retrieve_multi (H:=raw_record)
               (paged_server people_uri (sample_people 2)) 1 people_uri
               (DataTracker (Some sample_cache) ∅) in
  let y := hd JNull (sample_people 2) in
  fst (fst run) = sample_people 2
  /\ _retrieve (H:=raw_record) server_404
               (resource_uri (Resource:=raw_record) y) (snd run)
     = (Ok (Some y), snd run).
Proof.
  intros run y. split; [vm_compute; reflexivity|].
  apply (retrieve_multi_fills_cache
           (paged_server people_uri (sample_people 2)) (H:=raw_record)
           1 people_uri (DataTracker (Some sample_cache) ∅) sample_cache
           [] y (tl (sample_people 2))).
  - reflexivity.
  - vm_compute. reflexivity.
  - constructor; [|constructor].
    refine (conj eq_refl (conj _ (conj _ (conj eq_refl eq_refl))));
      vm_compute; intuition discriminate.
Defined.

(** The cache path of the meeting type [../doctypename/draft] is not the
    cache path of the document type [draft], but resolves to it: the two
    are not known to be different files, whereas the cache paths of the
    document types [draft] and [rfc] are. *)
Lemma dotdot_not_distinct_files :
  let d := sample_cache in
  let u := {| cls := MeetingTypeURI;
              uri := "/api/v1/name/meetingtypename/../doctypename/draft/";
              params := ∅ |} in
  let u' := {| cls := DocumentTypeURI;
               uri := "/api/v1/name/doctypename/draft/"; params := ∅ |} in
  let u'' := {| cls := DocumentTypeURI;
                uri := "/api/v1/name/doctypename/rfc/"; params := ∅ |} in
  construct MeetingTypeURI
    ("/api/v1/name/meetingtypename/" +:+ "../doctypename/draft" +:+ "/") ∅
  = Ok u
  /\ cache_path d u <> cache_path d u'
  /\ resolve (cache_path d u) = resolve (cache_path d u')
  /\ ~ distinct_files (cache_path d u) (cache_path d u')
  /\ distinct_files (cache_path d u'') (cache_path d u').
Proof.
  intros d u u' u''. split; [reflexivity|].
  split; [vm_compute; discriminate|].
  split; [vm_compute; reflexivity|].
  split.
  - intros (_ & _ & _ & Hpre & _). vm_compute in Hpre. discriminate.
  - refine (conj eq_refl (conj _ (conj _ (conj eq_refl eq_refl))));
      vm_compute; intuition discriminate.
Qed.

(** ** The RFC index *)

(** X11. [RfcEntry.content_url] returns a URL only for a format that is
    among the formats of the entry and is one of ASCII, PS and PDF; the
    URL is then the lower-cased [doc_id] under
    [https://www.rfc-editor.org/rfc/] with the extension [.txt], [.ps]
    or [.pdf]. For a format the entry does not list, or lists but that
    is none of the three, the result is [None]. Only when a URL is due
    is [doc_id] read, and [AttributeError] raised if it was never set. *)
Theorem content_url_by_format (self : RfcEntry.t) (required_format : string) :
  let listed_formats := List.map (fun f => fst (fst f)) (RfcEntry.formats self) in
  (~ In required_format listed_formats ->
   RfcEntry.content_url self required_format = Py.Return None)
  /\ (~ In required_format (List.map fst extensions) ->
      RfcEntry.content_url self required_format = Py.Return None)
  /\ (forall ext, In required_format listed_formats ->
                  In (required_format, ext) extensions ->
                  RfcEntry.content_url self required_format
                  = match RfcEntry.doc_id self with
                    | Some id =>
                        Py.Return (Some ("https://www.rfc-editor.org/rfc/"
                                         +:+ lower id +:+ ext))
                    | None => Py.Raise Py.AttributeError
                    end).
Proof.
  cbv zeta. unfold RfcEntry.content_url.
  generalize (RfcEntry.doc_id self) as doc_id.
  generalize (RfcEntry.formats self) as formats. clear self.
  intros formats doc_id. split; [|split].
  - induction formats as [|[[fmt size] pages] formats IH]; intros Hnot;
      [reflexivity|].
    cbn [RfcEntry.content_url_from].
    destruct (String.eqb_spec fmt required_format) as [->|Hne].
    + exfalso. apply Hnot. left. reflexivity.
    + apply IH. intros Hin. apply Hnot. right. exact Hin.
  - intros Hnot.
    induction formats as [|[[fmt size] pages] formats IH]; [reflexivity|].
    cbn [RfcEntry.content_url_from].
    destruct (String.eqb fmt required_format); [|exact IH].
    destruct (String.eqb_spec required_format "ASCII") as [->|_];
      [exfalso; apply Hnot; simpl; auto|].
    destruct (String.eqb_spec required_format "PS") as [->|_];
      [exfalso; apply Hnot; simpl; auto|].
    destruct (String.eqb_spec required_format "PDF") as [->|_];
      [exfalso; apply Hnot; simpl; auto|].
    reflexivity.
  - intros ext Hin Hext.
    induction formats as [|[[fmt size] pages] formats IH]; [destruct Hin|].
    cbn [RfcEntry.content_url_from].
    destruct (String.eqb_spec fmt required_format) as [->|Hne].
    + destruct Hext as [E|[E|[E|[]]]]; inversion E; subst;
        destruct doc_id; reflexivity.
    + apply IH. destruct Hin as [E|Hin]; [|exact Hin].
      cbn [fst] in E. congruence.
Qed.

(** X12. [RFCIndex()] sends one request and never retries. If the status
    is not 200 it prints [cannot fetch RFC index] and the index is
    built, with five empty tables: no exception is raised, the body is
    not parsed and the session is not closed. If the status is 200 the
    session is closed before the body is parsed, so it is closed also
    when the construction then fails. *)
Theorem rfc_index_fetch_outcome (py_int : string -> option Z)
    (response : RFCIndex.Reply) (fromstring : string -> Py.Result ET.Element) :
  let run := RFCIndex.__init__ py_int response fromstring in
  requests (fst run) = [RFCIndex.index_request]
  /\ (In EClose (fst run) <-> RFCIndex.status_code response = 200)
  /\ (RFCIndex.status_code response <> 200 ->
      run = ([EGet RFCIndex.index_request; EPrint "cannot fetch RFC index"],
             Py.Return RFCIndex.empty))
  /\ (RFCIndex.status_code response = 200 ->
      forall e, fromstring (RFCIndex.text response) = Py.Raise e ->
                run = ([EGet RFCIndex.index_request; EClose], Py.Raise e)).
Proof.
  cbv zeta. unfold RFCIndex.__init__.
  destruct (Z.eqb_spec (RFCIndex.status_code response) 200) as [E|E]; cbn [negb fst].
  - repeat split; try reflexivity.
    + intros _. exact E.
    + intros _. simpl. auto.
    + intros Hne. contradiction.
    + intros _ e He. rewrite He. reflexivity.
  - repeat split; try reflexivity.
    + intros [H|[H|[]]]; discriminate.
    + intros H. contradiction.
    + intros H. contradiction.
Qed.

Lemma for_in_cons {S E : Type} (body : E -> S -> Py.Result S) (x : E)
    (l : list E) (s : S) :
  for_in body (x :: l) s = try* s' := body x s in for_in body l s'.
Proof. reflexivity. Qed.

Lemma last_entry_cons {A : Type} (id : string) (p : string * A)
    (l : list (string * A)) :
  last_entry id (p :: l)
  = match last_entry id l with
    | Some a => Some a
    | None => if String.eqb (fst p) id then Some (snd p) else None
    end.
Proof.
  unfold last_entry. cbn [List.filter].
  destruct (String.eqb (fst p) id); [|destruct (last _); reflexivity].
  cbn [List.map]. rewrite last_cons. reflexivity.
Qed.

Lemma lookup_fold_insert {A : Type} (l : list (string * A))
    (m : gmap string A) (id : string) :
  fold_left (fun m p => <[fst p := snd p]> m) l m !! id
  = match last_entry id l with
    | Some a => Some a
    | None => m !! id
    end.
Proof.
  revert m. induction l as [|p l IH]; intros m; [reflexivity|].
  cbn [fold_left]. rewrite IH, last_entry_cons.
  destruct (last_entry id l); [reflexivity|].
  destruct (String.eqb_spec (fst p) id) as [<-|Hne].
  - apply lookup_insert_eq.
  - apply lookup_insert_ne. exact Hne.
Qed.

Lemma entries_cons {A : Type} (tagname : string)
    (parse : ET.Element -> Py.Result A) (id_of : A -> option string)
    (doc : ET.Element) (docs : list ET.Element) :
  entries tagname parse id_of (doc :: docs)
  = entries tagname parse id_of [doc] ++ entries tagname parse id_of docs.
Proof. unfold entries. cbn [flat_map]. rewrite app_nil_r. reflexivity. Qed.

Section IndexTables.

Variable py_int : string -> option Z.

(** One round of the loop of [RFCIndex.__init__] that does not raise puts
    one entry into one table. *)
Lemma index_document (doc : ET.Element) (self idx : RFCIndex.t) :
  RFCIndex.document py_int doc self = Py.Return idx ->
  RFCIndex.rfc idx = put_entries (rfc_entries py_int [doc]) (RFCIndex.rfc self)
  /\ RFCIndex.rfc_not_issued idx = put_entries (rne_entries [doc]) (RFCIndex.rfc_not_issued self)
  /\ RFCIndex.bcp idx = put_entries (bcp_entries [doc]) (RFCIndex.bcp self)
  /\ RFCIndex.std idx = put_entries (std_entries [doc]) (RFCIndex.std self)
  /\ RFCIndex.fyi idx = put_entries (fyi_entries [doc]) (RFCIndex.fyi self)
  /\ (length (rfc_entries py_int [doc]) + length (rne_entries [doc])
      + length (bcp_entries [doc]) + length (std_entries [doc])
      + length (fyi_entries [doc]) = 1)%nat.
Proof.
  unfold RFCIndex.document, rfc_entries, rne_entries, bcp_entries, std_entries,
    fyi_entries, put_entries, entries. cbn [flat_map].
  repeat match goal with
         | |- context [String.eqb (ET.tag doc) ?l] =>
             destruct (String.eqb_spec (ET.tag doc) l)
         end;
    try congruence;
    try (match goal with
         | |- context [Py.bind ?p _] =>
             destruct p as [a|?]; cbn [Py.bind]; [|intros; discriminate]
         end;
         match goal with
         | |- context [getattr ?o] =>
             destruct o as [id|]; cbn [Py.bind getattr]; [|intros; discriminate]
         end;
         intros [= <-]; cbn; repeat split; reflexivity).
Qed.

Lemma index_tables (docs : list ET.Element) (self idx : RFCIndex.t) :
  for_in (RFCIndex.document py_int) docs self = Py.Return idx ->
  RFCIndex.rfc idx = put_entries (rfc_entries py_int docs) (RFCIndex.rfc self)
  /\ RFCIndex.rfc_not_issued idx = put_entries (rne_entries docs) (RFCIndex.rfc_not_issued self)
  /\ RFCIndex.bcp idx = put_entries (bcp_entries docs) (RFCIndex.bcp self)
  /\ RFCIndex.std idx = put_entries (std_entries docs) (RFCIndex.std self)
  /\ RFCIndex.fyi idx = put_entries (fyi_entries docs) (RFCIndex.fyi self)
  /\ (length (rfc_entries py_int docs) + length (rne_entries docs)
      + length (bcp_entries docs) + length (std_entries docs)
      + length (fyi_entries docs) = length docs)%nat.
Proof.
  revert self. induction docs as [|doc docs IH]; intros self.
  - intros [= <-]. repeat split; reflexivity.
  - rewrite for_in_cons.
    destruct (RFCIndex.document py_int doc self) as [self1|e] eqn:Hdoc;
      cbn [Py.bind]; [|discriminate].
    intros Hrest.
    destruct (index_document doc self self1 Hdoc)
      as (H1 & H2 & H3 & H4 & H5 & Hn1).
    destruct (IH self1 Hrest) as (G1 & G2 & G3 & G4 & G5 & Hn).
    unfold rfc_entries, rne_entries, bcp_entries, std_entries, fyi_entries in *.
    rewrite (entries_cons _ _ _ doc docs), (entries_cons _ RfcNotIssuedEntry.__init__),
      (entries_cons _ BcpEntry.__init__), (entries_cons _ StdEntry.__init__),
      (entries_cons _ FyiEntry.__init__).
    unfold put_entries in *. rewrite !fold_left_app, !length_app.
    rewrite <- H1, <- H2, <- H3, <- H4, <- H5.
    repeat split; try assumption.
    cbn [length]. lia.
Qed.

(** X13. When [RFCIndex()] completes on a fetched index, every child of
    the root was an entry of one of the five kinds that could be read and
    had a [doc-id], and each of the five tables maps an identifier to the
    last entry of its kind with that identifier in the document: a later
    entry replaces an earlier one with the same [doc-id]. *)
Theorem rfc_index_last_entry_wins (response : RFCIndex.Reply)
    (fromstring : string -> Py.Result ET.Element)
    (root : ET.Element) (idx : RFCIndex.t)
    (Hstatus : RFCIndex.status_code response = 200)
    (Hroot : fromstring (RFCIndex.text response) = Py.Return root)
    (Hidx : snd (RFCIndex.__init__ py_int response fromstring) = Py.Return idx) :
  let docs := ET.children root in
  (forall id, RFCIndex.rfc idx !! id = last_entry id (rfc_entries py_int docs))
  /\ (forall id, RFCIndex.rfc_not_issued idx !! id = last_entry id (rne_entries docs))
  /\ (forall id, RFCIndex.bcp idx !! id = last_entry id (bcp_entries docs))
  /\ (forall id, RFCIndex.std idx !! id = last_entry id (std_entries docs))
  /\ (forall id, RFCIndex.fyi idx !! id = last_entry id (fyi_entries docs))
  /\ (length (rfc_entries py_int docs) + length (rne_entries docs)
      + length (bcp_entries docs) + length (std_entries docs)
      + length (fyi_entries docs) = length docs)%nat.
Proof.
  cbv zeta. unfold RFCIndex.__init__ in Hidx.
  rewrite Hstatus, Hroot in Hidx. cbn [negb Z.eqb snd Py.bind] in Hidx.
  replace (200 =? 200) with true in Hidx by reflexivity.
  cbn [negb snd Py.bind] in Hidx.
  destruct (index_tables _ _ _ Hidx) as (G1 & G2 & G3 & G4 & G5 & Hn).
  unfold put_entries in *.
  repeat split; try exact Hn; intros id;
    [rewrite G1 | rewrite G2 | rewrite G3 | rewrite G4 | rewrite G5];
    rewrite lookup_fold_insert;
    match goal with |- match ?x with _ => _ end = _ => destruct x end;
    reflexivity.
Qed.

End IndexTables.

Lemma rfc_index_last_entry_wins_witness :
  exists idx,
    snd (RFCIndex.__init__ (fun _ => None) (RFCIndex.mkReply 200 "")
           (fun _ => Py.Return sample_index_root)) = Py.Return idx
    /\ RFCIndex.bcp idx !! "BCP0009"
       = Some {| BcpEntry.doc_id := Some "BCP0009";
                 BcpEntry.is_also := ["RFC2026"; "RFC5657"] |}.
Proof.
  eexists. split; [vm_compute; reflexivity|].
  destruct (rfc_index_last_entry_wins (fun _ => None) (RFCIndex.mkReply 200 "")
              (fun _ => Py.Return sample_index_root) sample_index_root _
              eq_refl eq_refl eq_refl) as (_ & _ & Hbcp & _).
  rewrite Hbcp. vm_compute. reflexivity.
Defined.

(** ** The entries of the index *)

Lemma append_doc_ids_reads (elem : ET.Element) (l l' : list string) :
  append_doc_ids elem l = Py.Return l'
  <-> lists_doc_ids elem /\ l' = l ++ omap ET.text (ET.children elem).
Proof.
  unfold append_doc_ids, lists_doc_ids.
  generalize (ET.children elem) as cs. intros cs. revert l l'.
  induction cs as [|c cs IH]; intros l l'.
  - cbn [for_in omap list_omap]. rewrite app_nil_r. split.
    + intros [= <-]. split; [constructor | reflexivity].
    + intros [_ ->]. reflexivity.
  - rewrite for_in_cons. unfold assert_text. cbn [omap list_omap].
    destruct (ET.text c) as [t|] eqn:Ht; cbn [Py.bind].
    + destruct (String.eqb_spec (ET.tag c)
                  "{http://www.rfc-editor.org/rfc-index}doc-id") as [Htag|Htag];
        cbn [Py.bind].
      * rewrite IH, <- app_assoc. cbn [app]. split.
        -- intros [Hall ->]. split; [|reflexivity].
           constructor; [split; [exact Htag | rewrite Ht; eauto] | exact Hall].
        -- intros [Hall ->]. inversion Hall; subst. split; [assumption | reflexivity].
      * split; [discriminate|]. intros [Hall _]. inversion Hall as [|? ? [Hc _] _]; subst.
        contradiction.
    + split; [discriminate|]. intros [Hall _].
      inversion Hall as [|? ? [_ [t Hc]] _]; subst. congruence.
Qed.

Lemma last_text_cons (tagname : string) (c : ET.Element) (cs : list ET.Element) :
  last (omap ET.text
          (List.filter (fun c => String.eqb (ET.tag c) tagname) (c :: cs)))
  = match last (omap ET.text
                  (List.filter (fun c => String.eqb (ET.tag c) tagname) cs)) with
    | Some t => Some t
    | None => if String.eqb (ET.tag c) tagname then ET.text c else None
    end.
Proof.
  cbn [List.filter]. destruct (String.eqb (ET.tag c) tagname).
  - cbn [omap list_omap]. destruct (ET.text c) as [t|]; [rewrite last_cons|];
      destruct (last _); reflexivity.
  - destruct (last _); reflexivity.
Qed.

(** The loop of [BcpEntry.__init__], from any state of the entry. *)
Lemma bcp_entry_loop (cs : list ET.Element) (self b : BcpEntry.t) :
  for_in (fun elem self =>
            if String.eqb (ET.tag elem) "{http://www.rfc-editor.org/rfc-index}doc-id"
            then try* t := assert_text elem in
                 Py.Return {| BcpEntry.doc_id := Some t;
                              BcpEntry.is_also := BcpEntry.is_also self |}
            else if String.eqb (ET.tag elem) "{http://www.rfc-editor.org/rfc-index}is-also"
            then try* l := append_doc_ids elem (BcpEntry.is_also self) in
                 Py.Return {| BcpEntry.doc_id := BcpEntry.doc_id self;
                              BcpEntry.is_also := l |}
            else Py.Raise Py.NotImplementedError) cs self = Py.Return b
  <-> bcp_readable (ET.mkElement "" None cs)
      /\ BcpEntry.doc_id b
         = match last_text "{http://www.rfc-editor.org/rfc-index}doc-id"
                   (ET.mkElement "" None cs) with
           | Some t => Some t
           | None => BcpEntry.doc_id self
           end
      /\ BcpEntry.is_also b
         = BcpEntry.is_also self
           ++ listed "{http://www.rfc-editor.org/rfc-index}is-also"
                     (ET.mkElement "" None cs).
Proof.
  unfold bcp_readable, last_text, listed. cbn [ET.children].
  revert self. induction cs as [|c cs IH]; intros self.
  - cbn [for_in flat_map List.filter omap list_omap last]. rewrite app_nil_r. split.
    + intros [= <-]. repeat split. constructor.
    + intros (_ & Hd & Hl). destruct b, self; cbn in *. congruence.
  - rewrite for_in_cons, last_text_cons. cbn [flat_map].
    destruct (String.eqb_spec (ET.tag c)
                "{http://www.rfc-editor.org/rfc-index}doc-id") as [Htag|Htag].
    + rewrite Htag. cbn [String.eqb Ascii.eqb Bool.eqb app]. unfold assert_text.
      destruct (ET.text c) as [t|] eqn:Ht; cbn [Py.bind].
      * rewrite IH. cbn [BcpEntry.doc_id BcpEntry.is_also].
        destruct (last _);
          (split;
           [intros (Hall & Hd & Hl); repeat split; [|exact Hd|exact Hl];
            constructor; [left; split; [exact Htag | rewrite Ht; eauto] | exact Hall]
           |intros (Hall & Hd & Hl); inversion Hall; subst;
            repeat split; assumption]).
      * split; [discriminate|]. intros (Hall & _).
        inversion Hall as [|? ? [[_ [t Hc]]|[Hc _]] _]; subst; congruence.
    + destruct (String.eqb_spec (ET.tag c)
                  "{http://www.rfc-editor.org/rfc-index}is-also") as [Htag2|Htag2].
      * destruct (append_doc_ids c (BcpEntry.is_also self)) as [l|e] eqn:Hl;
          cbn [Py.bind].
        -- apply append_doc_ids_reads in Hl as [Hok ->].
           rewrite IH. cbn [BcpEntry.doc_id BcpEntry.is_also].
           rewrite <- app_assoc.
           destruct (last _);
             (split;
              [intros (Hall & Hd & Hl); repeat split; [|exact Hd|exact Hl];
               constructor; [right; split; assumption | exact Hall]
              |intros (Hall & Hd & Hl); inversion Hall; subst;
               repeat split; assumption]).
        -- split; [discriminate|]. intros (Hall & _).
           inversion Hall as [|? ? [[Hc _]|[_ Hc]] _]; subst; [contradiction|].
           assert (Hsome : append_doc_ids c (BcpEntry.is_also self)
                           = Py.Return (BcpEntry.is_also self
                                        ++ omap ET.text (ET.children c)))
             by (apply append_doc_ids_reads; split; [exact Hc | reflexivity]).
           congruence.
      * split; [discriminate|]. intros (Hall & _).
        inversion Hall as [|? ? [[Hc _]|[Hc _]] _]; subst; contradiction.
Qed.

(** X14. What [BcpEntry] reads. The construction succeeds exactly when
    every child of the element is a [doc-id] with a text or an [is-also]
    whose children are all [doc-id]s with a text; [doc_id] is then the
    text of the last [doc-id] child (and is not set if there is none),
    and [is_also] lists the documents of all the [is-also] children, in
    document order. *)
Theorem bcp_entry_reads (bcp_element : ET.Element) (b : BcpEntry.t) :
  BcpEntry.__init__ bcp_element = Py.Return b
  <-> bcp_readable bcp_element
      /\ BcpEntry.doc_id b
         = last_text "{http://www.rfc-editor.org/rfc-index}doc-id" bcp_element
      /\ BcpEntry.is_also b
         = listed "{http://www.rfc-editor.org/rfc-index}is-also" bcp_element.
Proof.
  unfold BcpEntry.__init__. rewrite bcp_entry_loop.
  unfold bcp_readable, last_text, listed. cbn [ET.children BcpEntry.doc_id BcpEntry.is_also app].
  destruct (last _); reflexivity.
Qed.

(** [FyiEntry.__init__] and [BcpEntry.__init__] side by side, from states
    with the same attributes. *)
Lemma fyi_bcp_loops (cs : list ET.Element) (f : FyiEntry.t) :
  let b_of (f : FyiEntry.t) :=
    {| BcpEntry.doc_id := FyiEntry.doc_id f;
       BcpEntry.is_also := FyiEntry.is_also f |} in
  let bcp_loop :=
    for_in (fun elem self =>
              if String.eqb (ET.tag elem) "{http://www.rfc-editor.org/rfc-index}doc-id"
              then try* t := assert_text elem in
                   Py.Return {| BcpEntry.doc_id := Some t;
                                BcpEntry.is_also := BcpEntry.is_also self |}
              else if String.eqb (ET.tag elem) "{http://www.rfc-editor.org/rfc-index}is-also"
              then try* l := append_doc_ids elem (BcpEntry.is_also self) in
                   Py.Return {| BcpEntry.doc_id := BcpEntry.doc_id self;
                                BcpEntry.is_also := l |}
              else Py.Raise Py.NotImplementedError) in
  let fyi_loop :=
    for_in (fun elem self =>
              try* t := assert_text elem in
              if String.eqb (ET.tag elem) "{http://www.rfc-editor.org/rfc-index}doc-id"
              then Py.Return {| FyiEntry.doc_id := Some t;
                                FyiEntry.is_also := FyiEntry.is_also self |}
              else if String.eqb (ET.tag elem) "{http://www.rfc-editor.org/rfc-index}is-also"
              then try* l := append_doc_ids elem (FyiEntry.is_also self) in
                   Py.Return {| FyiEntry.doc_id := FyiEntry.doc_id self;
                                FyiEntry.is_also := l |}
              else Py.Raise Py.NotImplementedError) in
  match fyi_loop cs f with
  | Py.Return f' =>
      bcp_loop cs (b_of f) = Py.Return (b_of f')
      /\ Forall (fun c => is_Some (ET.text c)) cs
  | Py.Raise e =>
      bcp_loop cs (b_of f) = Py.Raise e
      \/ (e = Py.AssertionError /\ Exists (fun c => ET.text c = None) cs)
  end.
Proof.
  cbv zeta. revert f. induction cs as [|c cs IH]; intros f.
  - cbn [for_in]. split; [reflexivity | constructor].
  - rewrite !for_in_cons.
    destruct (ET.text c) as [t|] eqn:Ht.
    2: { assert (Hat : assert_text c = Py.Raise Py.AssertionError)
           by (unfold assert_text; rewrite Ht; reflexivity).
         rewrite Hat. cbn [Py.bind].
         right. split; [reflexivity | left; exact Ht]. }
    assert (Hat : assert_text c = Py.Return t)
      by (unfold assert_text; rewrite Ht; reflexivity).
    rewrite !Hat. cbn [Py.bind].
    destruct (String.eqb (ET.tag c) "{http://www.rfc-editor.org/rfc-index}doc-id").
    + cbn [Py.bind BcpEntry.is_also FyiEntry.is_also].
      specialize (IH {| FyiEntry.doc_id := Some t;
                        FyiEntry.is_also := FyiEntry.is_also f |}).
      cbn [FyiEntry.doc_id FyiEntry.is_also] in IH.
      destruct (for_in _ cs _) as [f'|e].
      * destruct IH as [Hb Hall]. split; [exact Hb|].
        constructor; [rewrite Ht; eauto | exact Hall].
      * destruct IH as [Hb|[He Hex]]; [left; exact Hb | right; split; [exact He | right; exact Hex]].
    + destruct (String.eqb (ET.tag c) "{http://www.rfc-editor.org/rfc-index}is-also");
        [|left; reflexivity].
      cbn [BcpEntry.is_also BcpEntry.doc_id].
      destruct (append_doc_ids c (FyiEntry.is_also f)) as [l|e];
        cbn [Py.bind]; [|left; reflexivity].
      specialize (IH {| FyiEntry.doc_id := FyiEntry.doc_id f;
                        FyiEntry.is_also := l |}).
      cbn [FyiEntry.doc_id FyiEntry.is_also] in IH.
      destruct (for_in _ cs _) as [f'|e].
      * destruct IH as [Hb Hall]. split; [exact Hb|].
        constructor; [rewrite Ht; eauto | exact Hall].
      * destruct IH as [Hb|[He Hex]]; [left; exact Hb | right; split; [exact He | right; exact Hex]].
Qed.

Lemma text_or_none (cs : list ET.Element) :
  Forall (fun c => is_Some (ET.text c)) cs ->
  Exists (fun c => ET.text c = None) cs -> False.
Proof.
  intros Hall Hex. induction Hex as [c cs Hc|c cs _ IH];
    inversion Hall as [|? ? [t Ht] Hall']; subst; [congruence | exact (IH Hall')].
Qed.

(** X15. [FyiEntry] reads an element as [BcpEntry] does, but refuses
    every child that has no text, where [BcpEntry] asks for a text only
    in [doc-id] elements: an element is read by [FyiEntry] exactly when
    it is read by [BcpEntry], with the same result, and all its children
    have a text; an element that [BcpEntry] reads and that has a child
    without text (an [is-also] that starts with its first [doc-id], for
    instance) makes [FyiEntry] raise [AssertionError]. *)
Theorem fyi_entry_stricter_than_bcp (elem : ET.Element) :
  let b_of (f : FyiEntry.t) :=
    {| BcpEntry.doc_id := FyiEntry.doc_id f;
       BcpEntry.is_also := FyiEntry.is_also f |} in
  (forall f, FyiEntry.__init__ elem = Py.Return f
             <-> BcpEntry.__init__ elem = Py.Return (b_of f)
                 /\ Forall (fun c => is_Some (ET.text c)) (ET.children elem))
  /\ (forall b, BcpEntry.__init__ elem = Py.Return b ->
                Exists (fun c => ET.text c = None) (ET.children elem) ->
                FyiEntry.__init__ elem = Py.Raise Py.AssertionError).
Proof.
  cbv zeta. unfold FyiEntry.__init__, BcpEntry.__init__.
  pose proof (fyi_bcp_loops (ET.children elem)
                {| FyiEntry.doc_id := None; FyiEntry.is_also := [] |}) as Hsync.
  cbv zeta in Hsync. cbn [FyiEntry.doc_id FyiEntry.is_also] in Hsync.
  pose proof (text_or_none (ET.children elem)) as Hclash.
  destruct (for_in _ (ET.children elem) {| FyiEntry.doc_id := None; FyiEntry.is_also := [] |})
    as [f'|e].
  - destruct Hsync as [Hb Hall]. split.
    + intros f. split.
      * intros [= <-]. split; assumption.
      * intros [Hb' _]. rewrite Hb in Hb'. injection Hb' as Hd Hl.
        destruct f, f'; cbn in *. congruence.
    + intros b _ Hex. destruct (Hclash Hall Hex).
  - split.
    + intros f. split; [discriminate|]. intros [Hb Hall].
      destruct Hsync as [Hb'|[_ Hex]]; [congruence | destruct (Hclash Hall Hex)].
    + intros b Hb _. destruct Hsync as [Hb'|[-> _]]; [congruence | reflexivity].
Qed.

(** ** What [RfcEntry] reads *)

Section RfcEntryReads.

Variable py_int : string -> option Z.

Lemma author_reads (c : ET.Element) (self self' : RfcEntry.t) :
  RfcEntry.author c self = Py.Return self' ->
  self' = RfcEntry.set_authors
            (RfcEntry.authors self
             ++ omap ET.text
                  (List.filter
                     (fun i => String.eqb (ET.tag i)
                                 "{http://www.rfc-editor.org/rfc-index}name")
                     (ET.children c)))
            self.
Proof.
  unfold RfcEntry.author. generalize (ET.children c) as cs. intros cs.
  revert self. induction cs as [|i cs IH]; intros self.
  - cbn [for_in List.filter omap list_omap]. intros [= <-].
    rewrite app_nil_r. destruct self; reflexivity.
  - rewrite for_in_cons. cbn [List.filter].
    destruct (String.eqb (ET.tag i) "{http://www.rfc-editor.org/rfc-index}name").
    + unfold assert_text. cbn [omap list_omap].
      destruct (ET.text i) as [t|]; cbn [Py.bind]; [|discriminate].
      intros Hrest. rewrite (IH _ Hrest). cbn [RfcEntry.authors RfcEntry.set_authors].
      rewrite <- app_assoc. reflexivity.
    + destruct (String.eqb (ET.tag i) "{http://www.rfc-editor.org/rfc-index}title");
        cbn [Py.bind]; [apply IH | discriminate].
Qed.

Lemma keyword_list_reads (c : ET.Element) (self self' : RfcEntry.t) :
  RfcEntry.keyword_list c self = Py.Return self' ->
  self' = RfcEntry.set_keywords
            (RfcEntry.keywords self ++ omap ET.text (ET.children c)) self.
Proof.
  unfold RfcEntry.keyword_list. generalize (ET.children c) as cs. intros cs.
  revert self. induction cs as [|i cs IH]; intros self.
  - cbn [for_in omap list_omap]. intros [= <-].
    rewrite app_nil_r. destruct self; reflexivity.
  - rewrite for_in_cons. cbn [omap list_omap].
    destruct (String.eqb (ET.tag i) "{http://www.rfc-editor.org/rfc-index}kw");
      cbn [Py.bind]; [|discriminate].
    destruct (ET.text i) as [t|]; cbn [Py.bind]; [|apply IH].
    intros Hrest. rewrite (IH _ Hrest). cbn [RfcEntry.keywords RfcEntry.set_keywords].
    rewrite <- app_assoc. reflexivity.
Qed.

Lemma date_reads (c : ET.Element) (self self' : RfcEntry.t) :
  RfcEntry.date py_int c self = Py.Return self' ->
  exists d m y,
    self' = RfcEntry.set_day d (RfcEntry.set_month m (RfcEntry.set_year y self)).
Proof.
  unfold RfcEntry.date. generalize (ET.children c) as cs. intros cs.
  revert self. induction cs as [|i cs IH]; intros self.
  - cbn [for_in]. intros [= <-].
    exists (RfcEntry.day self), (RfcEntry.month self), (RfcEntry.year self).
    destruct self; reflexivity.
  - rewrite for_in_cons.
    destruct (assert_text i) as [t|]; cbn [Py.bind]; [|discriminate].
    destruct (String.eqb (ET.tag i) "{http://www.rfc-editor.org/rfc-index}day").
    { destruct (RfcEntry.int py_int t) as [n|]; cbn [Py.bind]; [|discriminate].
      intros Hrest. destruct (IH _ Hrest) as (d & m & y & ->).
      exists d, m, y. reflexivity. }
    destruct (String.eqb (ET.tag i) "{http://www.rfc-editor.org/rfc-index}month").
    { cbn [Py.bind]. intros Hrest. destruct (IH _ Hrest) as (d & m & y & ->).
      exists d, m, y. reflexivity. }
    destruct (String.eqb (ET.tag i) "{http://www.rfc-editor.org/rfc-index}year");
      cbn [Py.bind]; [|discriminate].
    destruct (RfcEntry.int py_int t) as [n|]; cbn [Py.bind]; [|discriminate].
    intros Hrest. destruct (IH _ Hrest) as (d & m & y & ->).
    exists d, m, y. reflexivity.
Qed.

Lemma format_fields_reads (c : ET.Element)
    (locals locals' : option string * option Z * option Z) :
  RfcEntry.format_fields py_int c locals = Py.Return locals' ->
  locals'
  = (match last_text "{http://www.rfc-editor.org/rfc-index}file-format" c with
     | Some t => Some t
     | None => fst (fst locals)
     end,
     match last_text "{http://www.rfc-editor.org/rfc-index}char-count" c with
     | Some t => py_int t
     | None => snd (fst locals)
     end,
     match last_text "{http://www.rfc-editor.org/rfc-index}page-count" c with
     | Some t => py_int t
     | None => snd locals
     end).
Proof.
  unfold RfcEntry.format_fields, last_text.
  generalize (ET.children c) as cs. intros cs.
  revert locals. induction cs as [|i cs IH]; intros [[ff cc] pc].
  - cbn [for_in List.filter omap list_omap last fst snd]. intros [= <-]. reflexivity.
  - rewrite for_in_cons, !last_text_cons. unfold assert_text.
    destruct (ET.text i) as [t|]; cbn [Py.bind]; [|discriminate].
    destruct (String.eqb_spec (ET.tag i)
                "{http://www.rfc-editor.org/rfc-index}file-format") as [Ht|_].
    { rewrite Ht. cbn [Py.bind String.eqb Ascii.eqb Bool.eqb].
      intros Hrest. rewrite (IH _ Hrest). cbn [fst snd].
      repeat (destruct (last _)); reflexivity. }
    destruct (String.eqb_spec (ET.tag i)
                "{http://www.rfc-editor.org/rfc-index}char-count") as [Ht|_].
    { rewrite Ht. cbn [String.eqb Ascii.eqb Bool.eqb]. unfold RfcEntry.int.
      destruct (py_int t) as [n|] eqn:Hn; cbn [Py.bind]; [|discriminate].
      intros Hrest. rewrite (IH _ Hrest). cbn [fst snd].
      repeat (destruct (last _)); rewrite ?Hn; reflexivity. }
    destruct (String.eqb_spec (ET.tag i)
                "{http://www.rfc-editor.org/rfc-index}page-count") as [Ht|_];
      [|discriminate].
    unfold RfcEntry.int.
    destruct (py_int t) as [n|] eqn:Hn; cbn [Py.bind]; [|discriminate].
    intros Hrest. rewrite (IH _ Hrest). cbn [fst snd].
    repeat (destruct (last _)); rewrite ?Hn; reflexivity.
Qed.

End RfcEntryReads.

Lemma last_text_one (tagname : string) (c : ET.Element) :
  last_text tagname (ET.mkElement "" None [c])
  = if String.eqb (ET.tag c) tagname then ET.text c else None.
Proof.
  unfold last_text. cbn [ET.children List.filter].
  destruct (String.eqb (ET.tag c) tagname); [|reflexivity].
  cbn [omap list_omap]. destruct (ET.text c); reflexivity.
Qed.

Section RfcEntryRounds.

Variable py_int : string -> option Z.

Ltac by_tag c :=
  lazymatch goal with
  | |- context [String.eqb (ET.tag c) ?l] =>
      let Htag := fresh "Htag" in
      destruct (String.eqb_spec (ET.tag c) l) as [Htag|_];
      [rewrite ?Htag; cbn [String.eqb Ascii.eqb Bool.eqb] | by_tag c]
  | _ => idtac
  end.

Ltac read_round :=
  cbn [fst snd RfcEntry.doc_id RfcEntry.title RfcEntry.authors RfcEntry.doi
       RfcEntry.stream RfcEntry.wg RfcEntry.area RfcEntry.curr_status
       RfcEntry.publ_status RfcEntry.day RfcEntry.month RfcEntry.year
       RfcEntry.formats RfcEntry.draft RfcEntry.keywords RfcEntry.updates
       RfcEntry.updated_by RfcEntry.obsoletes RfcEntry.obsoleted_by
       RfcEntry.is_also RfcEntry.see_also RfcEntry.errata_url RfcEntry.abstract
       RfcEntry.set_doc_id RfcEntry.set_title RfcEntry.set_authors
       RfcEntry.set_doi RfcEntry.set_stream RfcEntry.set_wg RfcEntry.set_area
       RfcEntry.set_curr_status RfcEntry.set_publ_status RfcEntry.set_day
       RfcEntry.set_month RfcEntry.set_year RfcEntry.set_formats
       RfcEntry.set_draft RfcEntry.set_keywords RfcEntry.set_updates
       RfcEntry.set_updated_by RfcEntry.set_obsoletes RfcEntry.set_obsoleted_by
       RfcEntry.set_is_also RfcEntry.set_see_also RfcEntry.set_errata_url
       RfcEntry.set_abstract];
  rewrite ?app_nil_r; repeat split; reflexivity.

(** One round of the loop of [RfcEntry.__init__] that does not raise. *)
Lemma element_reads (c : ET.Element) (self self' : RfcEntry.t)
    (ff ff' : option string) :
  RfcEntry.element py_int c (self, ff) = Py.Return (self', ff') ->
  let one := ET.mkElement "" None [c] in
  RfcEntry.doc_id self'
  = match last_text "{http://www.rfc-editor.org/rfc-index}doc-id" one with
    | Some t => Some t
    | None => RfcEntry.doc_id self
    end
  /\ RfcEntry.authors self' = RfcEntry.authors self ++ author_names one
  /\ RfcEntry.keywords self'
     = RfcEntry.keywords self
       ++ listed "{http://www.rfc-editor.org/rfc-index}keywords" one
  /\ RfcEntry.updates self'
     = RfcEntry.updates self
       ++ listed "{http://www.rfc-editor.org/rfc-index}updates" one
  /\ RfcEntry.updated_by self'
     = RfcEntry.updated_by self
       ++ listed "{http://www.rfc-editor.org/rfc-index}updated-by" one
  /\ RfcEntry.obsoletes self'
     = RfcEntry.obsoletes self
       ++ listed "{http://www.rfc-editor.org/rfc-index}obsoletes" one
  /\ RfcEntry.obsoleted_by self'
     = RfcEntry.obsoleted_by self
       ++ listed "{http://www.rfc-editor.org/rfc-index}obsoleted-by" one
  /\ RfcEntry.is_also self'
     = RfcEntry.is_also self
       ++ listed "{http://www.rfc-editor.org/rfc-index}is-also" one
  /\ RfcEntry.see_also self'
     = RfcEntry.see_also self
       ++ listed "{http://www.rfc-editor.org/rfc-index}see-also" one
  /\ RfcEntry.formats self' = RfcEntry.formats self ++ format_tuples py_int ff [c]
  /\ ff' = file_format_after ff c.
Proof.
  cbv zeta. rewrite last_text_one.
  unfold RfcEntry.element, listed, author_names, file_format_after.
  cbn [format_tuples flat_map ET.children]. unfold file_format_after.
  by_tag c; try discriminate.
  all: try (unfold assert_text;
            destruct (ET.text c) as [t|] eqn:Htext; cbn [Py.bind];
            [|discriminate]; intros [= <- <-]; read_round).
  all: try (intros [= <- <-]; read_round).
  all: try (match goal with
            | |- context [append_doc_ids ?e ?l] =>
                let Hl := fresh "Hl" in
                destruct (append_doc_ids e l) as [l'|] eqn:Hl; cbn [Py.bind];
                [apply append_doc_ids_reads in Hl as [_ ->] | discriminate]
            end; intros [= <- <-]; read_round).
  - destruct (RfcEntry.author c self) as [self1|] eqn:Ha; cbn [Py.bind];
      [|discriminate].
    apply author_reads in Ha as ->. intros [= <- <-]. read_round.
  - destruct (RfcEntry.date py_int c self) as [self1|] eqn:Hd; cbn [Py.bind];
      [|discriminate].
    apply date_reads in Hd as (d & m & y & ->). intros [= <- <-]. read_round.
  - destruct (RfcEntry.format_fields py_int c (ff, None, None))
      as [[[ff1 cc1] pc1]|] eqn:Hf; cbn [Py.bind]; [|discriminate].
    apply format_fields_reads in Hf. cbn [fst snd] in Hf.
    injection Hf as -> -> ->.
    destruct (match last_text "{http://www.rfc-editor.org/rfc-index}file-format" c with
              | Some t => Some t
              | None => ff
              end) as [fmt|]; [|discriminate].
    intros [= <- <-].
    destruct (last_text "{http://www.rfc-editor.org/rfc-index}char-count" c);
      destruct (last_text "{http://www.rfc-editor.org/rfc-index}page-count" c);
      read_round.
  - destruct (RfcEntry.keyword_list c self) as [self1|] eqn:Hk; cbn [Py.bind];
      [|discriminate].
    apply keyword_list_reads in Hk as ->. intros [= <- <-]. read_round.
Qed.

End RfcEntryRounds.

Lemma listed_cons (tagname : string) (c : ET.Element) (cs : list ET.Element) :
  listed tagname (ET.mkElement "" None (c :: cs))
  = listed tagname (ET.mkElement "" None [c])
    ++ listed tagname (ET.mkElement "" None cs).
Proof. unfold listed. cbn [ET.children flat_map]. rewrite app_nil_r. reflexivity. Qed.

Lemma author_names_cons (c : ET.Element) (cs : list ET.Element) :
  author_names (ET.mkElement "" None (c :: cs))
  = author_names (ET.mkElement "" None [c])
    ++ author_names (ET.mkElement "" None cs).
Proof. unfold author_names. cbn [ET.children flat_map]. rewrite app_nil_r. reflexivity. Qed.

Lemma format_tuples_cons (py_int : string -> option Z) (prev : option string)
    (c : ET.Element) (cs : list ET.Element) :
  format_tuples py_int prev (c :: cs)
  = format_tuples py_int prev [c]
    ++ format_tuples py_int (file_format_after prev c) cs.
Proof. cbn [format_tuples]. rewrite app_nil_r. reflexivity. Qed.

Section RfcEntryLoop.

Variable py_int : string -> option Z.

(** The loop of [RfcEntry.__init__], from any state of the entry. *)
Lemma rfc_entry_loop (cs : list ET.Element) (self self' : RfcEntry.t)
    (ff ff' : option string) :
  for_in (RfcEntry.element py_int) cs (self, ff) = Py.Return (self', ff') ->
  let all := ET.mkElement "" None cs in
  RfcEntry.doc_id self'
  = match last_text "{http://www.rfc-editor.org/rfc-index}doc-id" all with
    | Some t => Some t
    | None => RfcEntry.doc_id self
    end
  /\ RfcEntry.authors self' = RfcEntry.authors self ++ author_names all
  /\ RfcEntry.keywords self'
     = RfcEntry.keywords self
       ++ listed "{http://www.rfc-editor.org/rfc-index}keywords" all
  /\ RfcEntry.updates self'
     = RfcEntry.updates self
       ++ listed "{http://www.rfc-editor.org/rfc-index}updates" all
  /\ RfcEntry.updated_by self'
     = RfcEntry.updated_by self
       ++ listed "{http://www.rfc-editor.org/rfc-index}updated-by" all
  /\ RfcEntry.obsoletes self'
     = RfcEntry.obsoletes self
       ++ listed "{http://www.rfc-editor.org/rfc-index}obsoletes" all
  /\ RfcEntry.obsoleted_by self'
     = RfcEntry.obsoleted_by self
       ++ listed "{http://www.rfc-editor.org/rfc-index}obsoleted-by" all
  /\ RfcEntry.is_also self'
     = RfcEntry.is_also self
       ++ listed "{http://www.rfc-editor.org/rfc-index}is-also" all
  /\ RfcEntry.see_also self'
     = RfcEntry.see_also self
       ++ listed "{http://www.rfc-editor.org/rfc-index}see-also" all
  /\ RfcEntry.formats self' = RfcEntry.formats self ++ format_tuples py_int ff cs.
Proof.
  cbv zeta. revert self ff. induction cs as [|c cs IH]; intros self ff.
  - intros [= <- <-]. unfold last_text, author_names, listed.
    cbn [ET.children List.filter omap list_omap last flat_map format_tuples].
    rewrite !app_nil_r. repeat split; reflexivity.
  - rewrite for_in_cons.
    destruct (RfcEntry.element py_int c (self, ff)) as [[self1 ff1]|] eqn:Hc;
      cbn [Py.bind]; [|discriminate].
    intros Hrest.
    destruct (element_reads py_int c self self1 ff ff1 Hc)
      as (E0 & E1 & E2 & E3 & E4 & E5 & E6 & E7 & E8 & E9 & ->).
    destruct (IH _ _ Hrest) as (F0 & F1 & F2 & F3 & F4 & F5 & F6 & F7 & F8 & F9).
    rewrite !(listed_cons _ c cs), (author_names_cons c cs),
      (format_tuples_cons py_int ff c cs), !app_assoc.
    rewrite <- E1, <- E2, <- E3, <- E4, <- E5, <- E6, <- E7, <- E8, <- E9.
    repeat split; try assumption.
    rewrite F0, E0, last_text_one. unfold last_text. cbn [ET.children].
    rewrite last_text_cons.
    destruct (last _); [reflexivity|].
    destruct (String.eqb (ET.tag c) _); [|reflexivity].
    destruct (ET.text c); reflexivity.
Qed.

(** X16. What [RfcEntry] reads into its lists, when the construction
    succeeds: [authors] are the names in the [author] elements (their
    [title]s are left out), [keywords] the [kw]s that are not empty, and
    [updates], [updated_by], [obsoletes], [obsoleted_by], [is_also] and
    [see_also] the documents listed in the elements of these names, each
    list in document order and running over all the elements of its
    name; [doc_id] is the text of the last [doc-id]. *)
Theorem rfc_entry_reads_lists (rfc_element : ET.Element) (r : RfcEntry.t)
    (Hread : RfcEntry.__init__ py_int rfc_element = Py.Return r) :
  RfcEntry.doc_id r
  = last_text "{http://www.rfc-editor.org/rfc-index}doc-id" rfc_element
  /\ RfcEntry.authors r = author_names rfc_element
  /\ RfcEntry.keywords r
     = listed "{http://www.rfc-editor.org/rfc-index}keywords" rfc_element
  /\ RfcEntry.updates r
     = listed "{http://www.rfc-editor.org/rfc-index}updates" rfc_element
  /\ RfcEntry.updated_by r
     = listed "{http://www.rfc-editor.org/rfc-index}updated-by" rfc_element
  /\ RfcEntry.obsoletes r
     = listed "{http://www.rfc-editor.org/rfc-index}obsoletes" rfc_element
  /\ RfcEntry.obsoleted_by r
     = listed "{http://www.rfc-editor.org/rfc-index}obsoleted-by" rfc_element
  /\ RfcEntry.is_also r
     = listed "{http://www.rfc-editor.org/rfc-index}is-also" rfc_element
  /\ RfcEntry.see_also r
     = listed "{http://www.rfc-editor.org/rfc-index}see-also" rfc_element.
Proof.
  unfold RfcEntry.__init__ in Hread.
  destruct (for_in (RfcEntry.element py_int) (ET.children rfc_element)
              (RfcEntry.initial, None)) as [[self' ff']|] eqn:Hloop;
    cbn [Py.bind fst] in Hread; [|discriminate].
  injection Hread as ->.
  destruct (rfc_entry_loop _ _ _ _ _ Hloop)
    as (F0 & F1 & F2 & F3 & F4 & F5 & F6 & F7 & F8 & _).
  cbn [RfcEntry.initial RfcEntry.doc_id RfcEntry.authors RfcEntry.keywords
       RfcEntry.updates RfcEntry.updated_by RfcEntry.obsoletes
       RfcEntry.obsoleted_by RfcEntry.is_also RfcEntry.see_also app] in *.
  destruct rfc_element as [t x cs]. cbn [ET.children] in *.
  repeat split; try assumption.
  rewrite F0. unfold last_text. cbn [ET.children]. destruct (last _); reflexivity.
Qed.

Lemma content_url_from_listed (doc_id : option string)
    (formats : list (string * option Z * option Z)) (fmt ext : string) :
  In (fmt, ext) extensions ->
  In fmt (List.map (fun f => fst (fst f)) formats) ->
  RfcEntry.content_url_from doc_id formats fmt
  = match doc_id with
    | Some id =>
        Py.Return (Some ("https://www.rfc-editor.org/rfc/" +:+ lower id +:+ ext))
    | None => Py.Raise Py.AttributeError
    end.
Proof.
  intros Hext Hin.
  induction formats as [|[[f size] pages] formats IH]; [destruct Hin|].
  cbn [RfcEntry.content_url_from].
  destruct (String.eqb_spec f fmt) as [->|Hne].
  - destruct Hext as [E|[E|[E|[]]]]; inversion E; subst;
      destruct doc_id; reflexivity.
  - apply IH. destruct Hin as [E|Hin]; [|exact Hin].
    cbn [fst] in E. congruence.
Qed.

(** X17. The formats of an [RfcEntry], when the construction succeeds:
    one for each [format] element, in document order, with the numbers of
    its last [char-count] and [page-count] (or [None]) and, as file
    format, the text of its last [file-format] or, if it has none, the
    file format of the [format] element before it. For each of ASCII, PS
    and PDF that is a file format in this sense, [content_url] gives the
    URL made of the last [doc-id] of the element. *)
Theorem rfc_entry_reads_formats (rfc_element : ET.Element) (r : RfcEntry.t)
    (Hread : RfcEntry.__init__ py_int rfc_element = Py.Return r) :
  let tuples := format_tuples py_int None (ET.children rfc_element) in
  RfcEntry.formats r = tuples
  /\ forall fmt ext,
       In (fmt, ext) extensions ->
       In fmt (List.map (fun f => fst (fst f)) tuples) ->
       RfcEntry.content_url r fmt
       = match last_text "{http://www.rfc-editor.org/rfc-index}doc-id"
                         rfc_element with
         | Some id =>
             Py.Return (Some ("https://www.rfc-editor.org/rfc/"
                              +:+ lower id +:+ ext))
         | None => Py.Raise Py.AttributeError
         end.
Proof.
  cbv zeta. unfold RfcEntry.__init__ in Hread.
  destruct (for_in (RfcEntry.element py_int) (ET.children rfc_element)
              (RfcEntry.initial, None)) as [[self' ff']|] eqn:Hloop;
    cbn [Py.bind fst] in Hread; [|discriminate].
  injection Hread as ->.
  destruct (rfc_entry_loop _ _ _ _ _ Hloop) as (F0 & _ & _ & _ & _ & _ & _ & _ & _ & F9).
  cbn [RfcEntry.initial RfcEntry.doc_id RfcEntry.formats app] in F0, F9.
  split; [exact F9|].
  intros fmt ext Hext Hin. unfold RfcEntry.content_url.
  rewrite (content_url_from_listed _ _ fmt ext Hext) by (rewrite F9; exact Hin).
  rewrite F0. destruct rfc_element as [t x cs]. unfold last_text. cbn [ET.children].
  destruct (last _); reflexivity.
Qed.

End RfcEntryLoop.

Lemma rfc_entry_reads_lists_witness :
  exists r,
    RfcEntry.__init__ sample_int sample_rfc_entry = Py.Return r
    /\ RfcEntry.doc_id r = Some "RFC3550"
    /\ RfcEntry.authors r = ["H. Schulzrinne"; "S. Casner"]
    /\ RfcEntry.keywords r = ["RTP"]
    /\ RfcEntry.obsoletes r = ["RFC1889"]
    /\ RfcEntry.is_also r = ["STD0064"].
Proof.
  eexists. split; [vm_compute; reflexivity|].
  destruct (rfc_entry_reads_lists sample_int sample_rfc_entry _ eq_refl)
    as (H0 & H1 & H2 & _ & _ & H5 & _ & H7 & _).
  refine (conj _ (conj _ (conj _ (conj _ _))));
    [eapply eq_trans; [exact H0|] | eapply eq_trans; [exact H1|]
    |eapply eq_trans; [exact H2|] | eapply eq_trans; [exact H5|]
    |eapply eq_trans; [exact H7|]];
    vm_compute; reflexivity.
Defined.

Lemma rfc_entry_reads_formats_witness :
  exists r,
    RfcEntry.__init__ sample_int sample_rfc_entry = Py.Return r
    /\ RfcEntry.formats r
       = [("ASCII", Some 259985, None); ("ASCII", None, Some 104)]
    /\ RfcEntry.content_url r "ASCII"
       = Py.Return (Some "https://www.rfc-editor.org/rfc/rfc3550.txt").
Proof.
  eexists. split; [vm_compute; reflexivity|].
  destruct (rfc_entry_reads_formats sample_int sample_rfc_entry _ eq_refl)
    as (Hf & Hurl).
  split; [eapply eq_trans; [exact Hf|]; vm_compute; reflexivity|].
  eapply eq_trans; [apply (Hurl "ASCII" ".txt"); vm_compute; auto|].
  vm_compute. reflexivity.
Defined.



(** ** Collections consumed while they are fetched *)

Section ConsumedByYield.

Variable server : nat -> Request -> Response.
Context {T : Type} `{Resource T}.

(** Consuming a collection with a body that only yields the record is
    fetching the collection. *)
Lemma retrieve_multi_with_yield (fuel : nat) (u : URI) :
  _retrieve_multi_with (T:=T) server yield fuel u = _retrieve_multi server fuel u.
Proof. reflexivity. Qed.

End ConsumedByYield.

Section ConsumedPages.

Variable server : nat -> Request -> Response.
Context {T : Type} `{Resource T} {U : Type}.
Variable body : T -> Gen U unit.

Variables (u : URI) (next_ptr : nat -> string).
Variables (items : list Json) (records : list T).
Variables (out : T -> list U) (reqs : T -> list Request).

Hypothesis Hserver : paginates server u next_ptr items.
Hypothesis Hdecode : Forall2 (fun j o => from_mapping j = Some o) items records.

(** With caching disabled, the body run for a record of the collection
    yields [out x] and sends the requests [reqs x]. *)
Hypothesis Hbody : forall x st,
  In x records -> cache_dir st = None ->
  exists st',
    body x st = (out x, Ok tt, st')
    /\ cache_dir st' = None
    /\ requests (trace st') = requests (trace st) ++ reqs x.

Lemma for_objs_with_decoded (objs : list Json) (os : list T) :
  Forall2 (fun j o => from_mapping j = Some o) objs os ->
  (forall x, In x os -> In x records) ->
  forall st, cache_dir st = None ->
  exists st',
    for_objs_with body objs st = (flat_map out os, Ok tt, st')
    /\ cache_dir st' = None
    /\ requests (trace st') = requests (trace st) ++ flat_map reqs os.
Proof.
  induction 1 as [|j o objs os Hj Hrest IH]; intros Hin st Hcache.
  - exists st. cbn [flat_map]. rewrite app_nil_r. repeat split. exact Hcache.
  - cbn [for_objs_with]. rewrite gbind_glift. unfold pavlova_from_mapping.
    rewrite Hj. unfold ret at 1. rewrite gbind_glift.
    rewrite (cache_obj_disabled st _ j Hcache).
    destruct (Hbody o st (Hin o (or_introl eq_refl)) Hcache)
      as (st1 & Hrun1 & Hcache1 & Hreq1).
    destruct (IH (fun x Hx => Hin x (or_intror Hx)) st1 Hcache1)
      as (st' & Hrun & Hcache' & Hreq').
    exists st'. unfold gbind. rewrite Hrun1, Hrun. cbn [flat_map].
    repeat split; [exact Hcache'|].
    rewrite Hreq', Hreq1, <- app_assoc. reflexivity.
Qed.

Lemma retry_loop_with_200 (fuel : nat) (s : string) (ps : gmap string PyVal)
    (t : float) (st : State) :
  status_code (server (sent st) (page_request s ps)) = 200 ->
  retry_loop_with server body (S fuel) s ps t st
  = page_200_with body (server (sent st) (page_request s ps))
                  (with_get (page_request s ps) st).
Proof.
  intros H200. cbn [retry_loop_with]. cbv zeta.
  rewrite gbind_glift, session_get_eval.
  fold (page_request s ps). rewrite H200. reflexivity.
Qed.

Lemma in_page (k : nat) (x : T) :
  In x (take 100 (drop (100 * k) records)) -> In x records.
Proof.
  intros Hx. apply list_elem_of_In in Hx. apply list_elem_of_In.
  apply (subseteq_drop (100 * k)), (subseteq_take 100). exact Hx.
Qed.

Lemma one_page_with (k fuel : nat) (st : State) :
  (k < n_pages (length items))%nat ->
  cache_dir st = None ->
  exists st',
    retry_loop_with server body (S fuel) (uri_of_page u next_ptr k)
                    (params_of_page u k) 1.875%float st
    = (flat_map out (take 100 (drop (100 * k) records)),
       Ok (py_of_json (next_of_page (length items) next_ptr k)), st')
    /\ cache_dir st' = None
    /\ requests (trace st')
       = requests (trace st) ++ interleaved u next_ptr records reqs [k].
Proof.
  intros Hk Hcache.
  destruct (Hserver (sent st) k Hk) as (H200 & j & meta & Hj & Hmeta & Hnext & Hobjs).
  rewrite retry_loop_with_200 by exact H200.
  fold (request_of_page u next_ptr k).
  set (st1 := with_get (request_of_page u next_ptr k) st).
  assert (Hdec : Forall2 (fun j o => from_mapping j = Some o)
                         (take 100 (drop (100 * k) items))
                         (take 100 (drop (100 * k) records)))
    by (apply Forall2_take, Forall2_drop, Hdecode).
  destruct (for_objs_with_decoded _ _ Hdec (in_page k) st1 Hcache)
    as (st' & Hrun & Hcache' & Hreq).
  exists st'. split; [|split].
  - unfold page_200_with. rewrite gbind_glift. unfold bind, json, lift_res.
    rewrite Hj. unfold ret at 1. rewrite Hmeta.
    rewrite gbind_glift. unfold ret at 1. rewrite Hobjs.
    rewrite gbind_glift, Hnext, gbind_glift.
    cbn [iter_json]. unfold gbind. rewrite Hrun. unfold gret.
    rewrite app_nil_r. reflexivity.
  - exact Hcache'.
  - rewrite Hreq. unfold st1, interleaved. cbn [flat_map trace with_get].
    rewrite requests_app, app_nil_r, <- app_assoc. reflexivity.
Qed.

Lemma pages_from_with (r : nat) :
  forall (k fuel : nat) (st : State),
    (k + S r = n_pages (length items))%nat ->
    (S r <= fuel)%nat ->
    cache_dir st = None ->
    exists st',
      pages_loop_with server body fuel (PStr (uri_of_page u next_ptr k))
                      (params_of_page u k) st
      = (flat_map out (drop (100 * k) records), Ok tt, st')
      /\ requests (trace st')
         = requests (trace st)
           ++ interleaved u next_ptr records reqs (seq k (S r)).
Proof.
  pose proof (Forall2_length _ _ _ Hdecode) as Hlen.
  induction r as [|r IH]; intros k fuel st Hk Hfuel Hcache;
    (destruct fuel as [|fuel]; [lia|]);
    cbn [pages_loop_with]; rewrite gbind_glift, rate_limit_eval;
    destruct (counted_fields st) as (_ & Hcache0 & _ & _ & Htr0);
    assert (Hreq0 : requests (trace (counted st)) = requests (trace st))
      by (rewrite Htr0, requests_app;
          destruct ((http_req st + 1) mod 100 =? 0); simpl;
          rewrite app_nil_r; reflexivity);
    destruct (one_page_with k fuel (counted st) ltac:(lia) ltac:(congruence))
      as (st1 & Hrun & Hcache1 & Hreq1);
    unfold gbind; rewrite Hrun.
  - assert (Hlast : (100 * (k + 1) <? length items)%nat = false).
    { destruct (100 * (k + 1) <? length items)%nat eqn:E; [|reflexivity].
      apply n_pages_next in E; lia. }
    unfold next_of_page. rewrite Hlast. cbn [py_of_json].
    assert (Hnone : forall fuel' ps st0,
              pages_loop_with server body fuel' PNone ps st0 = ([], Ok tt, st0))
      by (intros [|?] ? ?; reflexivity).
    rewrite Hnone. exists st1. split.
    + rewrite app_nil_r. f_equal. f_equal. f_equal. apply take_ge.
      apply Nat.ltb_ge in Hlast. rewrite length_drop. lia.
    + rewrite Hreq1, Hreq0. reflexivity.
  - assert (Hmore : (100 * (k + 1) <? length items)%nat = true)
      by (apply n_pages_next; lia).
    unfold next_of_page. rewrite Hmore. cbn [py_of_json].
    replace (k + 1)%nat with (S k) by lia.
    destruct (IH (S k) fuel st1 ltac:(lia) ltac:(lia) Hcache1)
      as (st' & Hrest & Hreq').
    change (next_ptr (S k)) with (uri_of_page u next_ptr (S k)).
    change (∅ : gmap string PyVal) with (params_of_page u (S k)).
    rewrite Hrest. exists st'. split.
    + f_equal. f_equal.
      rewrite <- (take_drop 100 (drop (100 * k) records)) at 2.
      rewrite flat_map_app, drop_drop. f_equal. f_equal. f_equal. lia.
    + rewrite Hreq', Hreq1, Hreq0, <- app_assoc. unfold interleaved.
      cbn [seq flat_map]. rewrite app_nil_r. reflexivity.
Qed.

End ConsumedPages.

(** ** What consuming a collection does to the trace *)

Section ConsumedGrows.

Variable server : nat -> Request -> Response.
Context {T : Type} `{Resource T} {U : Type}.
Variable each : T -> Gen U unit.

(** What is run for each record only adds to the trace. *)
Hypothesis Hbody : forall x st, grows st (snd (each x st)).

Lemma cache_obj_grows (u : URI) (j : Json) (st : State) :
  grows st (snd (_cache_obj u j st)).
Proof.
  pose proof (cache_obj_ok u j st) as (_ & Hn & Hd & Hs & Ht).
  repeat split; [exact Hd | lia |]. exists []. rewrite app_nil_r. simpl.
  split; [exact Ht | lia].
Qed.

Lemma for_objs_with_grows (objs : list Json) :
  forall st, grows st (snd (for_objs_with each objs st)).
Proof.
  induction objs as [|j objs IH]; intros st; [apply grows_refl|].
  cbn [for_objs_with]. rewrite gbind_glift. unfold pavlova_from_mapping.
  destruct (from_mapping j) as [y|]; [|apply grows_refl].
  unfold ret at 1. rewrite gbind_glift.
  pose proof (cache_obj_ok (resource_uri y) j st) as (Hok & _).
  pose proof (cache_obj_grows (resource_uri y) j st) as G1.
  destruct (_cache_obj (resource_uri y) j st) as [[[]| |] st1];
    simpl in Hok; try discriminate.
  cbn [snd] in G1. unfold gbind.
  pose proof (Hbody y st1) as G2.
  destruct (each y st1) as [[ys [[]|x|]] st2]; cbn [snd] in *;
    try (eapply grows_trans; eassumption).
  specialize (IH st2).
  destruct (for_objs_with each objs st2) as [[zs r] st3]. cbn [snd] in *.
  eapply grows_trans; [exact G1|]. eapply grows_trans; eassumption.
Qed.

Lemma page_200_with_grows (r : Response) (st : State) :
  grows st (snd (page_200_with each r st)).
Proof.
  unfold page_200_with, gbind, glift, bind, json, lift_res, ret, raise, gret.
  destruct (body r) as [j|]; [|apply grows_refl].
  destruct (subscript j "meta") as [meta|x|]; try apply grows_refl.
  destruct (subscript j "objects") as [objs|x|]; try apply grows_refl.
  destruct (subscript meta "next") as [next|x|]; try apply grows_refl.
  destruct (iter_json objs) as [items|x|]; try apply grows_refl.
  pose proof (for_objs_with_grows items st) as G.
  destruct (for_objs_with each items st) as [[zs [[]|x|]] st'];
    cbn [snd] in *; exact G.
Qed.

(** One turn of the [while retry] loop. *)
Lemma retry_loop_with_step (fuel : nat) (s : string) (ps : gmap string PyVal)
    (t : float) (st : State) :
  retry_loop_with server each (S fuel) s ps t st =
    let rq := page_request s ps in
    let r := server (sent st) rq in
    let st1 := with_get rq st in
    if status_code r =? 200 then page_200_with each r st1
    else if status_code r =? 500 then
      if (60 <? t)%float then
        ([], Raise (SystemExit 1),
         with_events [EPrint (retrieve_multi_failed 500 (http_req st))] st1)
      else retry_loop_with server each fuel s ps (t * 2)%float
                           (with_events [EClose; ESleep t] st1)
    else
      ([], Raise (SystemExit 1),
       with_events [EPrint (retrieve_multi_failed (status_code r) (http_req st))] st1).
Proof.
  cbn [retry_loop_with]. rewrite gbind_glift, session_get_eval.
  fold (page_request s ps). cbv zeta.
  destruct (status_code (server (sent st) (page_request s ps)) =? 200);
    [reflexivity|].
  destruct (status_code (server (sent st) (page_request s ps)) =? 500) eqn:E500.
  - apply Z.eqb_eq in E500.
    destruct (60 <? t)%float.
    + unfold glift. rewrite multi_failed_eval, E500. reflexivity.
    + rewrite gbind_glift. unfold session_close, log at 1.
      rewrite gbind_glift. unfold time_sleep, log at 1.
      unfold with_events, with_get. simpl. rewrite <- app_assoc. reflexivity.
  - unfold glift. rewrite multi_failed_eval. reflexivity.
Qed.

Lemma retry_loop_with_grows (s : string) (ps : gmap string PyVal) (fuel : nat) :
  forall t st, grows st (snd (retry_loop_with server each fuel s ps t st)).
Proof.
  induction fuel as [|fuel IH]; intros t st; [apply grows_refl|].
  rewrite retry_loop_with_step. cbv zeta.
  set (rq := page_request s ps).
  assert (Hget : grows st (with_get rq st)) by apply quiet_with_get.
  assert (Hev : forall evs, requests evs = [] ->
                  grows st (with_events evs (with_get rq st))).
  { intros evs He. eapply grows_trans; [exact Hget|].
    apply quiet_with_events. exact He. }
  destruct (status_code (server (sent st) rq) =? 200).
  { eapply grows_trans; [exact Hget | apply page_200_with_grows]. }
  destruct (status_code (server (sent st) rq) =? 500);
    [|apply Hev; reflexivity].
  destruct (60 <? t)%float; [apply Hev; reflexivity|].
  eapply grows_trans; [apply (Hev [EClose; ESleep t]); reflexivity | apply IH].
Qed.

Lemma pages_loop_with_grows (fuel : nat) :
  forall next ps st,
    grows st (snd (pages_loop_with server each fuel next ps st)).
Proof.
  induction fuel as [|fuel IH]; intros next ps st.
  - destruct next; apply grows_refl.
  - assert (Hcount : grows st (counted st)) by apply quiet_counted.
    destruct next as [|s|n|]; cbn [pages_loop_with];
      try apply grows_refl;
      rewrite gbind_glift, rate_limit_eval;
      try exact Hcount.
    unfold gbind.
    pose proof (retry_loop_with_grows s ps (S fuel) 1.875%float (counted st))
      as G.
    destruct (retry_loop_with server each (S fuel) s ps 1.875%float (counted st))
      as [[ys [next|x|]] st1]; cbn [snd] in *;
      try (eapply grows_trans; eassumption).
    specialize (IH next ∅ st1).
    destruct (pages_loop_with server each fuel next ∅ st1) as [[zs res] st2].
    cbn [snd] in *.
    eapply grows_trans; [exact Hcount|]. eapply grows_trans; eassumption.
Qed.

(** With fuel left, the first request of the loop over the pages is the
    one for the page it is entered with. *)
Lemma pages_loop_with_first_request (fuel : nat) (s : string)
    (ps : gmap string PyVal) (st : State) :
  exists rest,
    requests (trace (snd (pages_loop_with server each (S fuel) (PStr s) ps st)))
    = requests (trace st) ++ page_request s ps :: rest.
Proof.
  cbn [pages_loop_with]. rewrite gbind_glift, rate_limit_eval. unfold gbind.
  rewrite retry_loop_with_step. cbv zeta.
  set (rq := page_request s ps). set (st1 := with_get rq (counted st)).
  assert (Hreq1 : requests (trace st1) = requests (trace st) ++ [rq]).
  { unfold st1. cbn [with_get trace].
    rewrite requests_app, requests_counted. reflexivity. }
  assert (Hfrom : forall st', grows st1 st' ->
            exists rest, requests (trace st')
                         = requests (trace st) ++ rq :: rest).
  { intros st' (_ & _ & evs & Ht & _). exists (requests evs).
    rewrite Ht, requests_app, Hreq1, <- app_assoc. reflexivity. }
  assert (Hgo : forall (page : list U * Res PyVal * State),
            grows st1 (snd page) ->
            exists rest,
              requests (trace (snd (let '(ys, res, st') := page in
                  match res with
                  | Ok next =>
                      let '(zs, r, st'') :=
                        pages_loop_with server each fuel next ∅ st' in
                      (ys ++ zs, r, st'')
                  | Raise e => (ys, Raise e, st')
                  | OutOfFuel => (ys, OutOfFuel, st')
                  end)))
              = requests (trace st) ++ rq :: rest).
  { intros [[ys [next|x|]] st'] G; cbn [snd] in *; try (apply Hfrom; exact G).
    pose proof (pages_loop_with_grows fuel next ∅ st') as G'.
    destruct (pages_loop_with server each fuel next ∅ st') as [[zs r] st''].
    cbn [snd] in *. apply Hfrom. eapply grows_trans; eassumption. }
  destruct (counted_fields st) as (_ & _ & _ & Hcs & _).
  destruct (status_code (server (sent (counted st)) rq) =? 200).
  { apply Hgo, page_200_with_grows. }
  destruct (status_code (server (sent (counted st)) rq) =? 500).
  - destruct (60 <? 1.875)%float.
    + apply (Hgo ([], Raise (SystemExit 1), _)). cbn [snd].
      apply quiet_with_events. reflexivity.
    + apply Hgo. eapply grows_trans;
        [apply (quiet_with_events [EClose; ESleep 1.875%float]); reflexivity
        |apply retry_loop_with_grows].
  - apply (Hgo ([], Raise (SystemExit 1), _)). cbn [snd].
    apply quiet_with_events. reflexivity.
Qed.

End ConsumedGrows.

Lemma flat_map_option_list {A B : Type} (f : A -> option B) (l : list A) :
  flat_map (fun a => option_list (f a)) l = omap f l.
Proof.
  induction l as [|a l IH]; [reflexivity|].
  cbn [flat_map omap list_omap]. rewrite IH. destruct (f a); reflexivity.
Qed.

Section StandardsProperties.

Variable server : nat -> Request -> Response.
Context {Document : Type} `{Resource Document} `{Resource DocumentAlias}.

Lemma alias_query_url (name : string) :
  endpoint_url (document_aliases (Some name)) = Ok (alias_query name).
Proof. reflexivity. Qed.

(** The body of the loops for one alias, with caching disabled: one
    request, and the document if there is one. *)
Lemma yield_document_step (a : DocumentAlias) (found : option Document)
    (st : State) :
  answers server (alias_document a) found ->
  cache_dir st = None ->
  exists st',
    yield_document (Document:=Document) server a st
    = (option_list found, Ok tt, st')
    /\ cache_dir st' = None
    /\ requests (trace st')
       = requests (trace st) ++ [single_request (alias_document a)].
Proof.
  intros Hans Hcache. specialize (Hans (sent st)). cbv zeta in Hans.
  unfold yield_document, document. rewrite gbind_glift.
  assert (Hnet : fst (_obj_is_cached (alias_document a) st) = Ok false)
    by (rewrite (obj_is_cached_disabled st _ Hcache); reflexivity).
  rewrite (retrieve_uncached_eval server (T:=Document) _ st Hnet). cbv zeta.
  set (st2 := with_get (single_request (alias_document a)) (counted st)).
  destruct (counted_fields st) as (_ & Hcache0 & _ & _ & Htr0).
  assert (Hcache2 : cache_dir st2 = None) by (unfold st2; simpl; congruence).
  assert (Hreq2 : requests (trace st2)
                  = requests (trace st) ++ [single_request (alias_document a)]).
  { unfold st2. cbn [trace with_get]. rewrite Htr0, !requests_app.
    destruct ((http_req st + 1) mod 100 =? 0); simpl; rewrite app_nil_r;
      reflexivity. }
  destruct found as [d|].
  - destruct Hans as (H200 & j & Hj & Hd). rewrite H200, Hj, Hd.
    cbn [Z.eqb Pos.eqb]. rewrite (cache_obj_disabled st2 _ j Hcache2). cbn [snd].
    exists st2. repeat split; assumption.
  - rewrite Hans. cbn [Z.eqb Pos.eqb]. exists st2. repeat split; assumption.
Qed.

(** X18. [documents_from_bcp] on a name that passes its check, with
    caching disabled, against a service that serves the aliases of the
    lower-cased name in pages of 100 and answers the request for the
    document of each alias with the document or with 404: it yields the
    documents that exist, in the order of their aliases, and requests the
    document of each alias of a page before it requests the next page of
    aliases. *)
Theorem documents_from_bcp_interleaves (bcp : string) (next_ptr : nat -> string)
    (items : list Json) (aliases : list DocumentAlias)
    (found : DocumentAlias -> option Document) (fuel : nat) (st : State)
    (Hname : startswith (lower bcp) "bcp" = true)
    (Hserver : paginates server (alias_query (lower bcp)) next_ptr items)
    (Hdecode : Forall2 (fun j a => from_mapping j = Some a) items aliases)
    (Hdocs : forall a, In a aliases ->
                       answers server (alias_document a) (found a))
    (Hfuel : (n_pages (length items) <= fuel)%nat)
    (Hcache : cache_dir st = None) :
  let run := documents_from_bcp (Document:=Document) server fuel bcp st in
  fst run = (omap found aliases, Ok tt)
  /\ requests (trace (snd run))
     = requests (trace st)
       ++ interleaved (alias_query (lower bcp)) next_ptr aliases
            (fun a => [single_request (alias_document a)])
            (seq 0 (n_pages (length items))).
Proof.
  cbv zeta. unfold documents_from_bcp. rewrite Hname, alias_query_url.
  cbn [negb]. unfold _retrieve_multi_with.
  assert (Hpos : (1 <= n_pages (length items))%nat) by (unfold n_pages; lia).
  destruct (pages_from_with server (yield_document (Document:=Document) server)
              (alias_query (lower bcp)) next_ptr items aliases
              (fun a => option_list (found a))
              (fun a => [single_request (alias_document a)])
              Hserver Hdecode
              (fun x st0 Hx Hc => yield_document_step x (found x) st0 (Hdocs x Hx) Hc)
              (n_pages (length items) - 1) 0 fuel st
              ltac:(lia) ltac:(lia) Hcache) as (st' & Hrun & Hreq).
  replace (S (n_pages (length items) - 1)) with (n_pages (length items))
    in Hreq by lia.
  change (pages_loop_with (T:=DocumentAlias) server
            (yield_document (Document:=Document) server) fuel
            (PStr (uri (alias_query (lower bcp))))
            (<["limit" := PStr "100"]> (params (alias_query (lower bcp)))) st)
    with (pages_loop_with (T:=DocumentAlias) server
            (yield_document (Document:=Document) server) fuel
            (PStr (uri_of_page (alias_query (lower bcp)) next_ptr 0))
            (params_of_page (alias_query (lower bcp)) 0) st).
  rewrite Hrun. cbn [fst snd drop]. rewrite flat_map_option_list.
  split; [reflexivity | exact Hreq].
Qed.

Lemma retrieve_grows (u : URI) (st : State) :
  grows st (snd (_retrieve (T:=Document) server u st)).
Proof.
  destruct (obj_is_cached_bool u st) as ([|] & Hc).
  - destruct (obj_is_cached_true u st Hc) as (d & j & Hd & Hj).
    rewrite (retrieve_cached_eval server (T:=Document) u st d j Hd Hj).
    apply grows_refl.
  - rewrite (retrieve_uncached_eval server (T:=Document) u st Hc). cbv zeta.
    set (st2 := with_get (single_request u) (counted st)).
    assert (G2 : grows st st2).
    { eapply grows_trans; [apply quiet_counted | apply quiet_with_get]. }
    assert (G3 : forall j, grows st (snd (_cache_obj u j st2))).
    { intros j. eapply grows_trans; [exact G2 | apply cache_obj_grows]. }
    destruct (status_code (server (sent st) (single_request u)) =? 200).
    + destruct (body (server (sent st) (single_request u))) as [j|];
        [|exact G2].
      destruct (from_mapping j); cbn [snd]; apply G3.
    + destruct (status_code (server (sent st) (single_request u)) =? 404);
        cbn [snd]; [exact G2|].
      eapply grows_trans; [exact G2 | apply quiet_with_events; reflexivity].
Qed.

Lemma yield_document_grows (a : DocumentAlias) (st : State) :
  grows st (snd (yield_document (Document:=Document) server a st)).
Proof.
  unfold yield_document, document. rewrite gbind_glift.
  pose proof (retrieve_grows (alias_document a) st) as G.
  destruct (_retrieve server (alias_document a) st) as [[[d|]|x|] st1];
    cbn [snd] in *; exact G.
Qed.

(** X19. [documents_from_bcp] and [documents_from_std] raise
    [AssertionError], before anything is sent, when the lower-cased name
    does not start with [bcp] (or [std]). For a name that passes, the
    first request they send is the one for the document aliases whose
    [name] is the lower-cased name, with [limit] set to 100, and both are
    the same loop over these aliases. Two names with the same lower-cased
    form are not told apart. *)
Theorem documents_from_standard_checks_name (fuel : nat) (name : string)
    (st : State) :
  let aliases_of := fun name =>
    mkRequest (base_url +:+ "/api/v1/doc/docalias/")
              (<["limit" := PStr "100"]> (<["name" := PStr name]> ∅))
              [("user-agent", ua)] in
  (startswith (lower name) "bcp" = false ->
   documents_from_bcp (Document:=Document) server fuel name st
   = ([], Raise AssertionError, st))
  /\ (startswith (lower name) "std" = false ->
      documents_from_std (Document:=Document) server fuel name st
      = ([], Raise AssertionError, st))
  /\ (startswith (lower name) "bcp" = true ->
      exists rest,
        requests (trace (snd (documents_from_bcp (Document:=Document) server
                                (S fuel) name st)))
        = requests (trace st) ++ aliases_of (lower name) :: rest)
  /\ (startswith (lower name) "std" = true ->
      exists rest,
        requests (trace (snd (documents_from_std (Document:=Document) server
                                (S fuel) name st)))
        = requests (trace st) ++ aliases_of (lower name) :: rest)
  /\ (forall name', lower name' = lower name ->
        documents_from_bcp (Document:=Document) server fuel name' st
        = documents_from_bcp (Document:=Document) server fuel name st
        /\ documents_from_std (Document:=Document) server fuel name' st
           = documents_from_std (Document:=Document) server fuel name st)
  /\ (startswith (lower name) "bcp" = true ->
      documents_from_bcp (Document:=Document) server fuel name st
      = _retrieve_multi_with (T:=DocumentAlias) server
          (yield_document (Document:=Document) server) fuel
          (alias_query (lower name)) st)
  /\ (startswith (lower name) "std" = true ->
      documents_from_std (Document:=Document) server fuel name st
      = _retrieve_multi_with (T:=DocumentAlias) server
          (yield_document (Document:=Document) server) fuel
          (alias_query (lower name)) st).
Proof.
  cbv zeta. unfold documents_from_bcp, documents_from_std.
  rewrite !alias_query_url.
  assert (Hfirst : exists rest,
            requests (trace (snd (_retrieve_multi_with (T:=DocumentAlias) server
                                    (yield_document (Document:=Document) server)
                                    (S fuel) (alias_query (lower name)) st)))
            = requests (trace st)
              ++ mkRequest (base_url +:+ "/api/v1/doc/docalias/")
                   (<["limit" := PStr "100"]> (<["name" := PStr (lower name)]> ∅))
                   [("user-agent", ua)] :: rest).
  { exact (pages_loop_with_first_request server
             (yield_document (Document:=Document) server)
             yield_document_grows fuel _ _ st). }
  split; [intros ->; reflexivity|].
  split; [intros ->; reflexivity|].
  split; [intros ->; exact Hfirst|].
  split; [intros ->; exact Hfirst|].
  split; [intros name' ->; split; reflexivity|].
  split; intros ->; reflexivity.
Qed.

End StandardsProperties.

Lemma bcp9_paginated :
  paginates bcp9_server (alias_query "bcp9") sample_next bcp9_aliases.
Proof.
  intros n k Hk. vm_compute in Hk. assert (k = 0%nat) as -> by lia.
  split; [vm_compute; reflexivity|].
  exists (envelope JNull bcp9_aliases),
         (JDict [("limit", JInt 100); ("next", JNull)]).
  repeat split; vm_compute; reflexivity.
Qed.

Lemma documents_from_bcp_interleaves_witness :
  let run := documents_from_bcp (H:=raw_record) (H0:=alias_record)
               bcp9_server 1 "BCP9" (DataTracker None ∅) in
  let doc name := {| cls := DocumentURI;
                     uri := "/api/v1/doc/document/" +:+ name +:+ "/";
                     params := ∅ |} in
  fst run = ([rfc2026_document], Ok tt)
  /\ requests (trace (snd run))
     = [first_page_request (alias_query "bcp9");
        single_request (doc "rfc2026"); single_request (doc "rfc5657")].
Proof.
  intros run doc.
  pose proof (documents_from_bcp_interleaves bcp9_server
                (H:=raw_record) (H0:=alias_record) "BCP9" sample_next
                bcp9_aliases
                (omap (from_mapping (Resource:=alias_record)) bcp9_aliases)
                (fun a => if bool_decide (alias_id a = 1)
                          then Some rfc2026_document else None)
                1 (DataTracker None ∅)) as Hthm.
  destruct Hthm as [Hout Hreq].
  - reflexivity.
  - exact bcp9_paginated.
  - vm_compute. repeat constructor.
  - intros a Ha n. vm_compute in Ha.
    destruct Ha as [<-|[<-|[]]]; vm_compute; eauto.
  - vm_compute. lia.
  - reflexivity.
  - split.
    + eapply eq_trans; [exact Hout|]. vm_compute. reflexivity.
    + eapply eq_trans; [exact Hreq|]. vm_compute. reflexivity.
Defined.

(** ** The other entries of the index *)

(** The loop of [StdEntry.__init__], from any state of the entry. *)
Lemma std_entry_loop (cs : list ET.Element) (self s : StdEntry.t) :
  for_in (fun elem self =>
            try* t := assert_text elem in
            if String.eqb (ET.tag elem) "{http://www.rfc-editor.org/rfc-index}doc-id"
            then Py.Return {| StdEntry.doc_id := Some t;
                              StdEntry.title := StdEntry.title self;
                              StdEntry.is_also := StdEntry.is_also self |}
            else if String.eqb (ET.tag elem) "{http://www.rfc-editor.org/rfc-index}title"
            then Py.Return {| StdEntry.doc_id := StdEntry.doc_id self;
                              StdEntry.title := Some t;
                              StdEntry.is_also := StdEntry.is_also self |}
            else if String.eqb (ET.tag elem) "{http://www.rfc-editor.org/rfc-index}is-also"
            then try* l := append_doc_ids elem (StdEntry.is_also self) in
                 Py.Return {| StdEntry.doc_id := StdEntry.doc_id self;
                              StdEntry.title := StdEntry.title self;
                              StdEntry.is_also := l |}
            else Py.Raise Py.NotImplementedError) cs self = Py.Return s
  <-> std_readable (ET.mkElement "" None cs)
      /\ StdEntry.doc_id s
         = match last_text "{http://www.rfc-editor.org/rfc-index}doc-id"
                   (ET.mkElement "" None cs) with
           | Some t => Some t
           | None => StdEntry.doc_id self
           end
      /\ StdEntry.title s
         = match last_text "{http://www.rfc-editor.org/rfc-index}title"
                   (ET.mkElement "" None cs) with
           | Some t => Some t
           | None => StdEntry.title self
           end
      /\ StdEntry.is_also s
         = StdEntry.is_also self
           ++ listed "{http://www.rfc-editor.org/rfc-index}is-also"
                     (ET.mkElement "" None cs).
Proof.
  unfold std_readable, last_text, listed. cbn [ET.children].
  revert self. induction cs as [|c cs IH]; intros self.
  - cbn [for_in flat_map List.filter omap list_omap last]. rewrite app_nil_r. split.
    + intros [= <-]. repeat split. constructor.
    + intros (_ & Hd & Ht & Hl). destruct s, self; cbn in *. congruence.
  - rewrite for_in_cons, !last_text_cons. cbn [flat_map].
    destruct (ET.text c) as [t|] eqn:Htext.
    2: { assert (Hat : assert_text c = Py.Raise Py.AssertionError)
           by (unfold assert_text; rewrite Htext; reflexivity).
         rewrite Hat. cbn [Py.bind]. split; [discriminate|].
         intros (Hall & _). inversion Hall as [|? ? [[t Hc] _] _]; subst.
         congruence. }
    assert (Hat : assert_text c = Py.Return t)
      by (unfold assert_text; rewrite Htext; reflexivity).
    rewrite Hat. cbn [Py.bind].
    assert (Hsome : is_Some (ET.text c)) by (rewrite Htext; eauto).
    destruct (String.eqb_spec (ET.tag c)
                "{http://www.rfc-editor.org/rfc-index}doc-id") as [Htag|Htag].
    { rewrite Htag. cbn [String.eqb Ascii.eqb Bool.eqb app Py.bind].
      rewrite IH. cbn [StdEntry.doc_id StdEntry.title StdEntry.is_also].
      repeat (destruct (last _));
        (split;
         [intros (Hall & Hd & Ht & Hl); repeat split; try assumption;
          constructor; [split; [exact Hsome | left; exact Htag] | exact Hall]
         |intros (Hall & Hd & Ht & Hl); inversion Hall; subst;
          repeat split; assumption]). }
    destruct (String.eqb_spec (ET.tag c)
                "{http://www.rfc-editor.org/rfc-index}title") as [Htag1|Htag1].
    { rewrite Htag1. cbn [String.eqb Ascii.eqb Bool.eqb app Py.bind].
      rewrite IH. cbn [StdEntry.doc_id StdEntry.title StdEntry.is_also].
      repeat (destruct (last _));
        (split;
         [intros (Hall & Hd & Ht & Hl); repeat split; try assumption;
          constructor; [split; [exact Hsome | right; left; exact Htag1] | exact Hall]
         |intros (Hall & Hd & Ht & Hl); inversion Hall; subst;
          repeat split; assumption]). }
    destruct (String.eqb_spec (ET.tag c)
                "{http://www.rfc-editor.org/rfc-index}is-also") as [Htag2|Htag2].
    + destruct (append_doc_ids c (StdEntry.is_also self)) as [l|e] eqn:Hl;
        cbn [Py.bind].
      * apply append_doc_ids_reads in Hl as [Hok ->].
        rewrite IH. cbn [StdEntry.doc_id StdEntry.title StdEntry.is_also].
        rewrite <- app_assoc.
        repeat (destruct (last _));
          (split;
           [intros (Hall & Hd & Ht & Hl); repeat split; try assumption;
            constructor;
            [split; [exact Hsome | right; right; split; assumption] | exact Hall]
           |intros (Hall & Hd & Ht & Hl); inversion Hall; subst;
            repeat split; assumption]).
      * split; [discriminate|]. intros (Hall & _).
        inversion Hall as [|? ? [_ [Hc|[Hc|[_ Hc]]]] _]; subst;
          try contradiction.
        assert (Hgood : append_doc_ids c (StdEntry.is_also self)
                        = Py.Return (StdEntry.is_also self
                                     ++ omap ET.text (ET.children c)))
          by (apply append_doc_ids_reads; split; [exact Hc | reflexivity]).
        congruence.
    + split; [discriminate|]. intros (Hall & _).
      inversion Hall as [|? ? [_ [Hc|[Hc|[Hc _]]]] _]; subst; contradiction.
Qed.

(** X20. What [StdEntry] reads. The construction succeeds exactly when
    every child of the element has a text and is a [doc-id], a [title],
    or an [is-also] whose children are all [doc-id]s with a text;
    [doc_id] and [title] are then the texts of the last [doc-id] and of
    the last [title] (and are not set if there is none), and [is_also]
    lists the documents of all the [is-also] children, in document
    order. *)
Theorem std_entry_reads (std_element : ET.Element) (s : StdEntry.t) :
  StdEntry.__init__ std_element = Py.Return s
  <-> std_readable std_element
      /\ StdEntry.doc_id s
         = last_text "{http://www.rfc-editor.org/rfc-index}doc-id" std_element
      /\ StdEntry.title s
         = last_text "{http://www.rfc-editor.org/rfc-index}title" std_element
      /\ StdEntry.is_also s
         = listed "{http://www.rfc-editor.org/rfc-index}is-also" std_element.
Proof.
  unfold StdEntry.__init__. rewrite std_entry_loop.
  unfold std_readable, last_text, listed.
  cbn [ET.children StdEntry.doc_id StdEntry.title StdEntry.is_also app].
  repeat (destruct (last _)); reflexivity.
Qed.

(** ** Two runs on sample data *)

Lemma document_from_draft_checks_name_witness :
  document_from_draft (H:=raw_record) server_404 "rfc3550" (DataTracker None ∅)
  = (Raise AssertionError, DataTracker None ∅)
  /\ document_from_draft (H:=raw_record) server_404 "draft-ietf-avt-rtp-new"
       (DataTracker None ∅)
     = _retrieve (H:=raw_record) server_404
         (draft_uri_of "draft-ietf-avt-rtp-new") (DataTracker None ∅).
Proof.
  split.
  - apply (proj1 (document_from_draft_checks_name server_404 (H:=raw_record)
                    "rfc3550" (DataTracker None ∅))).
    left. reflexivity.
  - apply (proj2 (document_from_draft_checks_name server_404 (H:=raw_record)
                    "draft-ietf-avt-rtp-new" (DataTracker None ∅)));
      reflexivity.
Defined.

Lemma fyi_entry_stricter_than_bcp_witness :
  BcpEntry.__init__ (sample_bcp_entry "BCP0009" ["RFC2026"])
  = Py.Return {| BcpEntry.doc_id := Some "BCP0009";
                 BcpEntry.is_also := ["RFC2026"] |}
  /\ FyiEntry.__init__ (sample_bcp_entry "BCP0009" ["RFC2026"])
     = Py.Raise Py.AssertionError.
Proof.
  split; [vm_compute; reflexivity|].
  destruct (fyi_entry_stricter_than_bcp (sample_bcp_entry "BCP0009" ["RFC2026"]))
    as [_ Hstrict].
  apply (Hstrict {| BcpEntry.doc_id := Some "BCP0009";
                    BcpEntry.is_also := ["RFC2026"] |}).
  - vm_compute. reflexivity.
  - right. left. reflexivity.
Defined.

(** ** The type of a meeting *)

(** X21. [meeting_type] does not check the slug it is given: for every
    string the identifier [/api/v1/name/meetingtypename/<slug>/] is built
    without failure and the call is the single-record fetch of that
    identifier, which sends at most one request and, with caching
    enabled, uses the cache file [api/v1/name/meetingtypename/<slug>.json]
    under the cache directory. *)
Theorem meeting_type_fetches_slug (server : nat -> Request -> Response)
    {MeetingType : Type} `{Resource MeetingType} (slug : string) (st : State) :
  let run := meeting_type (MeetingType:=MeetingType) server slug st in
  run = _retrieve (T:=MeetingType) server (meeting_type_uri_of slug) st
  /\ (exists l, requests (trace (snd run)) = requests (trace st) ++ l
                /\ (length l <= 1)%nat)
  /\ (forall d, cache_dir st = Some d ->
        fst (_cache_filepath (meeting_type_uri_of slug) st)
        = Ok (Path_join d ("api/v1/name/meetingtypename/" +:+ slug +:+ ".json"))).
Proof.
  cbv zeta.
  assert (Hrun : meeting_type (MeetingType:=MeetingType) server slug st
                 = _retrieve (T:=MeetingType) server (meeting_type_uri_of slug) st).
  { unfold meeting_type, bind, lift_res, construct.
    cbn [__post_init__ dataclass]. rewrite startswith_append. reflexivity. }
  rewrite Hrun. split; [reflexivity|]. split.
  - apply (retrieve_at_most_one_request server (Document:=MeetingType)).
  - intros d Hd. rewrite (cache_filepath_eval st d _ Hd). cbn [fst].
    unfold cache_path, meeting_type_uri_of. cbn [uri].
    change ("/api/v1/name/meetingtypename/" +:+ slug +:+ "/")
      with ("/" +:+ ("api/v1/name/meetingtypename/" +:+ slug) +:+ "/").
    rewrite slice_1_m1_slashes. reflexivity.
Qed.

(** ** RFCs that were not issued *)

(** X22. What [RfcNotIssuedEntry] reads: the construction succeeds
    exactly when every child of the element is a [doc-id] with a text,
    and [doc_id] is then the text of the last of them, and is not set if
    the element has no child. *)
Theorem rfc_not_issued_entry_reads (elem : ET.Element)
    (r : RfcNotIssuedEntry.t) :
  RfcNotIssuedEntry.__init__ elem = Py.Return r
  <-> lists_doc_ids elem
      /\ RfcNotIssuedEntry.doc_id r
         = last_text "{http://www.rfc-editor.org/rfc-index}doc-id" elem.
Proof.
  unfold RfcNotIssuedEntry.__init__, lists_doc_ids, last_text.
  generalize (ET.children elem) as cs. intros cs.
  assert (Hloop : forall self,
    for_in (fun elem (_ : RfcNotIssuedEntry.t) =>
              if String.eqb (ET.tag elem) "{http://www.rfc-editor.org/rfc-index}doc-id"
              then try* t := assert_text elem in
                   Py.Return {| RfcNotIssuedEntry.doc_id := Some t |}
              else Py.Raise Py.NotImplementedError) cs self = Py.Return r
    <-> Forall (fun inner =>
                  ET.tag inner = "{http://www.rfc-editor.org/rfc-index}doc-id"
                  /\ is_Some (ET.text inner)) cs
        /\ RfcNotIssuedEntry.doc_id r
           = match last (omap ET.text
                           (List.filter
                              (fun c => String.eqb (ET.tag c)
                                 "{http://www.rfc-editor.org/rfc-index}doc-id")
                              cs)) with
             | Some t => Some t
             | None => RfcNotIssuedEntry.doc_id self
             end).
  { induction cs as [|c cs IH]; intros self.
    - cbn [for_in List.filter omap list_omap last]. split.
      + intros [= <-]. split; [constructor | reflexivity].
      + intros [_ Hd]. destruct r, self; cbn in *. congruence.
    - rewrite for_in_cons, last_text_cons.
      destruct (String.eqb_spec (ET.tag c)
                  "{http://www.rfc-editor.org/rfc-index}doc-id") as [Htag|Htag].
      + unfold assert_text. destruct (ET.text c) as [t|] eqn:Htext; cbn [Py.bind].
        * rewrite IH. cbn [RfcNotIssuedEntry.doc_id].
          destruct (last _);
            (split;
             [intros [Hall Hd]; split; [|exact Hd];
              constructor; [split; [exact Htag | rewrite Htext; eauto] | exact Hall]
             |intros [Hall Hd]; inversion Hall; subst; split; assumption]).
        * split; [discriminate|]. intros [Hall _].
          inversion Hall as [|? ? [_ [t Hc]] _]; subst. congruence.
      + cbn [Py.bind]. split; [discriminate|]. intros [Hall _].
        inversion Hall as [|? ? [Hc _] _]; subst. contradiction. }
  rewrite Hloop. cbn [RfcNotIssuedEntry.doc_id].
  destruct (last _); reflexivity.
Qed.
